(** * Prompt Crit server: session lifecycle, rosters, reflections, feedback

    A shallow embedding of [supabase/functions/make-server-5742cd96/index.ts].
    Every route handler becomes a function from the request (with the results
    of the calls to outside services: the identity provider, the clock, the
    UUID generator) and the key-value store to a response and the next store.

    Conventions of the embedding:
    - a JavaScript string is a [string]: each character is one UTF-16 code
      unit, and the strings of the model are those whose code units are below
      256 (the ISO 8859-1 range, written ["233"%char] for U+00E9).  On these
      strings [length], [trim], [toLowerCase] and the character classes of the
      regular expressions are those of JavaScript: white space is U+0009 to
      U+000D, U+0020 and U+00A0, and the capital letters are A to Z, U+00C0 to
      U+00D6 and U+00D8 to U+00DE, each 32 below its small letter.  A string
      with a code unit above 255 is outside the model;
    - a parsed JSON body is a [json] value, [JUndefined] standing for an
      absent property;
    - [c.json(payload, code)] is a [Response] constructor carrying the fields
      of the payload;
    - the middleware in front of the routes is not part of the handlers: the
      in-memory rate limit that answers 429 and the CORS origin are modelled
      on their own ([RateLimit], [Cors]); the logger and the security
      headers are left out. *)

From Stdlib Require Import ZArith Ascii String List Bool Lia.
From stdpp Require Import base gmap strings list pretty.

Set Warnings "-register-all".
Local Open Scope nat_scope.

(** ** JavaScript strings *)

Module JS.

(** White space, as [\s] and [trim] have it: TAB, LF, VT, FF, CR, SPACE and
    the no-break space U+00A0. *)
Definition is_space (c : ascii) : bool :=
  match c with
  | "009" | "010" | "011" | "012" | "013" | " " | "160" => true
  | _ => false
  end%char.

(** The small letter of a capital: A to Z, and the capitals U+00C0 to U+00DE
    but for the multiplication sign U+00D7. *)
Definition lower_char (c : ascii) : ascii :=
  let n := nat_of_ascii c in
  if ((65 <=? n) && (n <=? 90)) || ((192 <=? n) && (n <=? 214))
     || ((216 <=? n) && (n <=? 222))
  then ascii_of_nat (n + 32) else c.

Fixpoint toLowerCase (s : string) : string :=
  match s with
  | EmptyString => EmptyString
  | String c r => String (lower_char c) (toLowerCase r)
  end.

Fixpoint trimStart (s : string) : string :=
  match s with
  | EmptyString => EmptyString
  | String c r => if is_space c then trimStart r else s
  end.

Definition trimEnd (s : string) : string :=
  String.rev (trimStart (String.rev s)).

Definition trim (s : string) : string := trimEnd (trimStart s).

(** [str.slice(0, n)] *)
Fixpoint slice0 (n : N) (s : string) : string :=
  match s with
  | EmptyString => EmptyString
  | String c r => if (n =? 0)%N then EmptyString else String c (slice0 (N.pred n) r)
  end.

Fixpoint skip (n : nat) (s : string) : string :=
  match n, s with
  | S m, String _ r => skip m r
  | _, _ => s
  end.

(** [s.includes(pat)] *)
Fixpoint includes (s pat : string) : bool :=
  String.prefix pat s ||
  match s with
  | EmptyString => false
  | String _ r => includes r pat
  end.

(** [s.replace(pat, rep)] with a string pattern: the first occurrence only. *)
Fixpoint replace (s pat rep : string) : string :=
  if String.prefix pat s then rep +:+ skip (String.length pat) s
  else match s with
       | EmptyString => EmptyString
       | String c r => String c (replace r pat rep)
       end.

Definition all_chars (p : ascii -> bool) (s : string) : bool :=
  forallb p (list_ascii_of_string s).

(** [s.split(sep)] for a one-character separator. *)
Fixpoint split_go (sep : ascii) (cur : string) (s : string) : list string :=
  match s with
  | EmptyString => [String.rev cur]
  | String c r =>
      if Ascii.eqb c sep then String.rev cur :: split_go sep EmptyString r
      else split_go sep (String c cur) r
  end.
Definition split (sep : ascii) (s : string) : list string :=
  split_go sep EmptyString s.

End JS.

(** ** JSON values *)

Inductive json : Type :=
| JUndefined
| JNull
| JBool (b : bool)
| JNum (n : Z)
| JStr (s : string)
| JArr (items : list json)
| JObj (fields : list (string * json)).

Module Json.

(** Truthiness, as [if (v)], [!v] and [v || d] see it. *)
Definition truthy (v : json) : bool :=
  match v with
  | JUndefined | JNull => false
  | JBool b => b
  | JNum n => negb (n =? 0)%Z
  | JStr s => negb (s =? EmptyString)%string
  | JArr _ | JObj _ => true
  end.

(** [typeof v === 'object'] *)
Definition typeof_object (v : json) : bool :=
  match v with
  | JNull | JArr _ | JObj _ => true
  | _ => false
  end.

Definition isArray (v : json) : bool :=
  match v with JArr _ => true | _ => false end.

(** The last binding of a key wins, as in [JSON.parse]. *)
Fixpoint assoc (k : string) (l : list (string * json)) : json :=
  match l with
  | [] => JUndefined
  | (k', v) :: r =>
      match assoc k r with
      | JUndefined => if (k =? k')%string then v else JUndefined
      | found => found
      end
  end.

(** [v.k] for the property names the handlers read (none of them is a
    property of a string, a number, a boolean or an array).  [None] is the
    [TypeError] of reading a property of [null] or [undefined]. *)
Definition prop (v : json) (k : string) : option json :=
  match v with
  | JUndefined | JNull => None
  | JObj l => Some (assoc k l)
  | _ => Some JUndefined
  end.

(** [v === null] *)
Definition is_null (v : json) : bool :=
  match v with JNull => true | _ => false end.

(** [v === true] *)
Definition is_true (v : json) : bool :=
  match v with JBool true => true | _ => false end.

(** [v === s] for a string [s] *)
Definition eq_str (v : json) (s : string) : bool :=
  match v with JStr t => (t =? s)%string | _ => false end.

End Json.

(** ** Input validation utilities *)

Definition is_hex (c : ascii) : bool :=
  let n := nat_of_ascii c in
  ((48 <=? n) && (n <=? 57)) || ((97 <=? n) && (n <=? 102)) || ((65 <=? n) && (n <=? 70)).

(** [[^\s@]] *)
Definition email_char (c : ascii) : bool :=
  negb (JS.is_space c) && negb (Ascii.eqb c "@").

(** [[^\s@]+\.[^\s@]+] against a whole string *)
Fixpoint dotted (seen : bool) (s : string) : bool :=
  match s with
  | EmptyString => false
  | String c r =>
      email_char c &&
      ((seen && Ascii.eqb c "." && negb (r =? EmptyString)%string && JS.all_chars email_char r)
       || dotted true r)
  end.

(** [EMAIL_REGEX = /^[^\s@]+@[^\s@]+\.[^\s@]+$/] *)
Fixpoint EMAIL_REGEX_go (seen : bool) (s : string) : bool :=
  match s with
  | EmptyString => false
  | String c r =>
      if Ascii.eqb c "@" then seen && dotted false r
      else negb (JS.is_space c) && EMAIL_REGEX_go true r
  end.
Definition EMAIL_REGEX (s : string) : bool := EMAIL_REGEX_go false s.

(** [UUID_REGEX]: 8-4-4-4-12 hexadecimal digits, either case. *)
Fixpoint hex_run (n : nat) (s : string) : option string :=
  match n with
  | 0 => Some s
  | S m => match s with
           | String c r => if is_hex c then hex_run m r else None
           | EmptyString => None
           end
  end.
Definition dash (s : option string) : option string :=
  match s with
  | Some (String c r) => if Ascii.eqb c "-" then Some r else None
  | _ => None
  end.
Definition UUID_REGEX (s : string) : bool :=
  match o ← dash (hex_run 8 s); o ← dash (hex_run 4 o); o ← dash (hex_run 4 o);
        o ← dash (hex_run 4 o); hex_run 12 o with
  | Some EmptyString => true
  | _ => false
  end.

Definition VALID_ROLES : list string := ["organizer"; "student"].
Definition VALID_SESSION_STATUSES : list string :=
  ["setup"; "reflection"; "critique"; "complete"; "archived"].

Definition validateEmail (email : json) : bool :=
  match email with
  | JStr s => EMAIL_REGEX s && (String.length s <=? 254)
  | _ => false
  end.

Definition validatePassword (password : json) : bool :=
  match password with
  | JStr s => (6 <=? String.length s) && (String.length s <=? 128)
  | _ => false
  end.

Definition validateRole (role : json) : bool :=
  match role with
  | JStr s => bool_decide (s ∈ VALID_ROLES)
  | _ => false
  end.

Definition validateName (name : json) : bool :=
  match name with
  | JStr s => (1 <=? String.length (JS.trim s)) && (String.length s <=? 100)
  | _ => false
  end.

Definition validateSessionName (name : json) : bool :=
  match name with
  | JStr s => (1 <=? String.length (JS.trim s)) && (String.length s <=? 200)
  | _ => false
  end.

Definition validateUUID (id : string) : bool := UUID_REGEX id.

Definition validateStudent (s : json) : bool :=
  Json.typeof_object s && negb (Json.is_null s) &&
  match s with
  | JObj l => validateEmail (Json.assoc "email" l) && validateName (Json.assoc "name" l)
  | _ => false
  end.

Definition validateStudentArray (students : json) : bool :=
  match students with
  | JArr l => if 500 <? length l then false else forallb validateStudent l
  | _ => false
  end.

Definition validateTextContent (text : json) (maxLength : N) : bool :=
  match text with
  | JStr s => (N.of_nat (String.length s) <=? maxLength)%N
  | _ => false
  end.

Definition sanitizeString (str : string) : string :=
  JS.slice0 10000 (JS.trim str).

Global Arguments sanitizeString : simpl never.

(** ** Records kept in the store *)

Module Student.
Record t := mk { email : string; name : string }.
End Student.

Module Session.
Record t := mk {
  id : string;
  organizerId : string;
  organizerEmail : option string;
  name : string;
  status : string;
  students : list Student.t;
  createdAt : string;
  startedAt : option string;
  advancedAt : option string;
  completedAt : option string;
  reopenedAt : option string;
  archivedAt : option string
}.

Definition set_students (v : list Student.t) (s : t) : t :=
  mk (id s) (organizerId s) (organizerEmail s) (name s) (status s) v
     (createdAt s) (startedAt s) (advancedAt s) (completedAt s) (reopenedAt s)
     (archivedAt s).
Definition set_status (v : string) (s : t) : t :=
  mk (id s) (organizerId s) (organizerEmail s) (name s) v (students s)
     (createdAt s) (startedAt s) (advancedAt s) (completedAt s) (reopenedAt s)
     (archivedAt s).
Definition set_startedAt (v : string) (s : t) : t :=
  mk (id s) (organizerId s) (organizerEmail s) (name s) (status s) (students s)
     (createdAt s) (Some v) (advancedAt s) (completedAt s) (reopenedAt s)
     (archivedAt s).
Definition set_advancedAt (v : string) (s : t) : t :=
  mk (id s) (organizerId s) (organizerEmail s) (name s) (status s) (students s)
     (createdAt s) (startedAt s) (Some v) (completedAt s) (reopenedAt s)
     (archivedAt s).
Definition set_completedAt (v : string) (s : t) : t :=
  mk (id s) (organizerId s) (organizerEmail s) (name s) (status s) (students s)
     (createdAt s) (startedAt s) (advancedAt s) (Some v) (reopenedAt s)
     (archivedAt s).
Definition set_reopenedAt (v : string) (s : t) : t :=
  mk (id s) (organizerId s) (organizerEmail s) (name s) (status s) (students s)
     (createdAt s) (startedAt s) (advancedAt s) (completedAt s) (Some v)
     (archivedAt s).
Definition set_archivedAt (v : string) (s : t) : t :=
  mk (id s) (organizerId s) (organizerEmail s) (name s) (status s) (students s)
     (createdAt s) (startedAt s) (advancedAt s) (completedAt s) (reopenedAt s)
     (Some v).
End Session.

Module Reflection.
Record t := mk {
  sessionId : string;
  studentEmail : string;
  responses : gmap string string;
  screenshots : json;
  completed : json;
  updatedAt : string
}.
End Reflection.

Module Feedback.
Record t := mk {
  sessionId : string;
  fromStudent : string;
  toStudent : string;
  critiques : string;
  questions : string;
  createdAt : string
}.
End Feedback.

Module UserInfo.
Record t := mk { email : string; name : string; role : string; userId : string }.
End UserInfo.

Inductive Value : Type :=
| VUser (u : UserInfo.t)
| VSession (s : Session.t)
| VReflection (r : Reflection.t)
| VFeedback (f : Feedback.t).

Abbreviation Store := (gmap string Value).

(** ** The key-value store *)

Module kv.

(** Modelled from the spec: [kv_store.ts] is imported by the server but is not
    among the sources.  The spec gives it as a key-value persistence
    abstraction with point get and set by exact key and scan by prefix, each
    write replacing the whole value of its key; the table behind it has the
    key as primary key.  [get] is the point read. *)
Definition get (key : string) (st : Store) : option Value := st !! key.

(** Modelled from the spec: the point write of [kv_store.ts], which replaces
    the value under the key. *)
Definition set (key : string) (v : Value) (st : Store) : Store := <[key := v]> st.

(** Modelled from the spec: the scan of [kv_store.ts], the values of all keys
    that start with the prefix (in no promised order). *)
Definition getByPrefix (p : string) (st : Store) : list Value :=
  map snd (List.filter (fun e => String.prefix p (fst e)) (map_to_list st)).

End kv.

(** ** Requests and responses *)

(** The user record the identity provider resolves a token to; [role] is
    [user_metadata.role], the role declared at signup. *)
Module AuthUser.
Record t := mk { id : string; email : option string; role : string }.
End AuthUser.

(** What a handler sees of the credential: the [Authorization] header and the
    outcome [{ data: { user }, error }] of [supabase.auth.getUser] for its
    token. *)
Record Auth := mkAuth {
  authorization : option string;
  authError : bool;
  user : option AuthUser.t
}.

Record StudentProgress := mkStudentProgress {
  sp_email : string;
  sp_name : string;
  reflectionComplete : bool;
  feedbackCount : nat
}.

Record Progress := mkProgress {
  totalStudents : nat;
  completedReflections : nat;
  feedbackSubmissions : nat;
  studentProgress : list StudentProgress
}.

Inductive Response : Type :=
| Error (error : string) (code : nat)            (* { error }, code *)
| ErrorFallback (error : string) (code : nat)    (* { error, fallback: true }, code *)
| SignupOk (email name role : string)            (* { success: true, user: { email, name, role } } *)
| SessionOk (session : Session.t)                (* { success: true, session } *)
| SessionDetail (session : Session.t)            (* { session } *)
| SessionsOk (sessions : list Value)             (* { sessions } *)
| ReflectionOk (reflection : Reflection.t)       (* { success: true, reflection } *)
| FeedbackOk (feedback : Feedback.t)             (* { success: true, feedback } *)
| ProgressOk (p : Progress)
| AiOk (message : string) (isComplete : bool).   (* { success: true, message, isComplete } *)

(** [`${head}"${a}" or "${b}"`], for the two messages that quote their options. *)
Definition quoted_pair (head a b : string) : string :=
  let q := String (ascii_of_nat 34) EmptyString in
  head +:+ q +:+ a +:+ q +:+ " or " +:+ q +:+ b +:+ q.

(** A handler runs its guards in order; the first that fails decides the
    response and nothing is written. *)
Definition Handler (A : Type) : Type := Response + A.

Definition bindH {A B} (m : Handler A) (k : A -> Handler B) : Handler B :=
  match m with inl r => inl r | inr a => k a end.

Notation "x <- m ;; k" := (bindH m (fun x => k))
  (at level 100, m at next level, right associativity).

(** [if (!b) return c.json({ error }, code);] *)
Definition require (b : bool) (error : string) (code : nat) : Handler unit :=
  if b then inr tt else inl (Error error code).

(** A step that throws lands in the handler's [catch], which answers 500. *)
Definition orThrow {A} (o : option A) (error : string) : Handler A :=
  match o with Some a => inr a | None => inl (Error error 500) end.

Definition respond (st : Store) (h : Handler (Response * Store)) : Response * Store :=
  match h with inl r => (r, st) | inr out => out end.

(** [c.req.header('Authorization')?.split(' ')[1]], when truthy *)
Definition accessToken (a : Auth) : option string :=
  match authorization a with
  | None => None
  | Some h =>
      match JS.split " " h with
      | _ :: t :: _ => if (t =? EmptyString)%string then None else Some t
      | _ => None
      end
  end.

(** The token check and [if (authError || !user?.id) 401]. *)
Definition authenticate (a : Auth) (missing : string) : Handler AuthUser.t :=
  match accessToken a with
  | None => inl (Error missing 401)
  | Some _ =>
      if authError a then inl (Error "Unauthorized" 401)
      else match user a with
           | Some u =>
               if (AuthUser.id u =? EmptyString)%string then inl (Error "Unauthorized" 401)
               else inr u
           | None => inl (Error "Unauthorized" 401)
           end
  end.

(** The same with [|| !user?.email]: the caller and its email. *)
Definition authenticate_email (a : Auth) (missing : string)
  : Handler (AuthUser.t * string) :=
  u <- authenticate a missing ;;
  match AuthUser.email u with
  | Some e => if (e =? EmptyString)%string then inl (Error "Unauthorized" 401) else inr (u, e)
  | None => inl (Error "Unauthorized" 401)
  end.

(** [try { body = await c.req.json() } catch { 400 }]; [None] is a body that
    does not parse. *)
Definition parseBody (body : option json) : Handler json :=
  match body with
  | Some b => inr b
  | None => inl (Error "Invalid JSON body" 400)
  end.

(** [session.students?.some(s => s.email === user.email)] *)
Definition isStudentOf (s : Session.t) (email : option string) : bool :=
  match email with
  | Some e => existsb (fun st => (Student.email st =? e)%string) (Session.students s)
  | None => false
  end.

(** [kv.get(`session:${sessionId}`)], [404] when absent.  The handlers read
    the value as a session; a value of another shape has none of its
    properties. *)
Definition getSession (sessionId : string) (st : Store) : Handler Value :=
  match kv.get ("session:" +:+ sessionId) st with
  | Some v => inr v
  | None => inl (Error "Session not found" 404)
  end.

(** [if (session.organizerId !== user.id) 403] *)
Definition requireOrganizer (v : Value) (u : AuthUser.t) : Handler Session.t :=
  match v with
  | VSession s =>
      if (Session.organizerId s =? AuthUser.id u)%string then inr s
      else inl (Error "Forbidden" 403)
  | _ => inl (Error "Forbidden" 403)
  end.

(** [if (!isStudent) 403] for the caller's email *)
Definition requireEnrolled (v : Value) (email : string) : Handler Session.t :=
  match v with
  | VSession s =>
      if isStudentOf s (Some email) then inr s
      else inl (Error "Forbidden - not enrolled in session" 403)
  | _ => inl (Error "Forbidden - not enrolled in session" 403)
  end.

(** ** Route handlers *)

(** [POST /signup].  [created] is the outcome of
    [supabase.auth.admin.createUser]: the new user's id, or the message of
    its error. *)
Definition post_signup (body : option json) (created : string + string)
    (st : Store) : Response * Store :=
  respond st (
    body <- parseBody body ;;
    email <- orThrow (Json.prop body "email") "Signup failed" ;;
    password <- orThrow (Json.prop body "password") "Signup failed" ;;
    name <- orThrow (Json.prop body "name") "Signup failed" ;;
    role <- orThrow (Json.prop body "role") "Signup failed" ;;
    _ <- require (validateEmail email) "Invalid email format" 400 ;;
    _ <- require (validatePassword password)
           "Password must be between 6 and 128 characters" 400 ;;
    _ <- require (validateName name) "Name must be between 1 and 100 characters" 400 ;;
    _ <- require (validateRole role) (quoted_pair "Role must be " "organizer" "student") 400 ;;
    match email, name, role with
    | JStr email, JStr name, JStr role =>
        match kv.get ("user:" +:+ email) st with
        | Some _ => inl (Error "User already exists" 400)
        | None =>
            match created with
            | inr message => inl (Error message 400)
            | inl userId =>
                let sanitizedName := sanitizeString name in
                let info := UserInfo.mk (JS.toLowerCase email) sanitizedName role userId in
                inr (SignupOk (JS.toLowerCase email) sanitizedName role,
                     kv.set ("user:" +:+ JS.toLowerCase email) (VUser info) st)
            end
        end
    | _, _, _ => inl (Error "Signup failed" 500)
    end).

(** [POST /session].  [uuid] is [crypto.randomUUID()] and [now] is
    [new Date().toISOString()]. *)
Definition post_session (a : Auth) (body : option json) (uuid now : string)
    (st : Store) : Response * Store :=
  respond st (
    user <- authenticate a "Missing authorization token" ;;
    body <- parseBody body ;;
    name <- orThrow (Json.prop body "name") "Failed to create session" ;;
    _ <- require (validateSessionName name)
           "Session name must be between 1 and 200 characters" 400 ;;
    match name with
    | JStr name =>
        let sessionId := uuid in
        let session :=
          Session.mk sessionId (AuthUser.id user) (AuthUser.email user)
            (sanitizeString name) "setup" [] now None None None None None in
        inr (SessionOk session, kv.set ("session:" +:+ sessionId) (VSession session) st)
    | _ => inl (Error "Failed to create session" 500)
    end).

(** [GET /sessions]: the sessions the caller organizes or is a student of. *)
Definition get_sessions (a : Auth) (st : Store) : Response :=
  fst (respond st (
    user <- authenticate a "Missing authorization token" ;;
    let allSessions := kv.getByPrefix "session:" st in
    let userSessions :=
      List.filter
        (fun v =>
           match v with
           | VSession s =>
               (Session.organizerId s =? AuthUser.id user)%string ||
               match AuthUser.email user with
               | Some e =>
                   existsb
                     (fun student =>
                        (JS.toLowerCase (Student.email student) =? JS.toLowerCase e)%string)
                     (Session.students s)
               | None => false
               end
           | _ => false
           end) allSessions in
    inr (SessionsOk userSessions, st))).

(** [{ email: s.email.toLowerCase().trim(), name: sanitizeString(s.name) }] *)
Definition sanitizeStudent (s : json) : option Student.t :=
  match s with
  | JObj l =>
      match Json.assoc "email" l, Json.assoc "name" l with
      | JStr email, JStr name =>
          Some (Student.mk (JS.trim (JS.toLowerCase email)) (sanitizeString name))
      | _, _ => None
      end
  | _ => None
  end.

(** [POST /session/:id/roster] *)
Definition post_roster (a : Auth) (sessionId : string) (body : option json)
    (st : Store) : Response * Store :=
  respond st (
    user <- authenticate a "Missing authorization token" ;;
    _ <- require (validateUUID sessionId) "Invalid session ID format" 400 ;;
    body <- parseBody body ;;
    students <- orThrow (Json.prop body "students") "Failed to update roster" ;;
    _ <- require (validateStudentArray students)
           "Invalid students array. Each student must have valid email and name." 400 ;;
    v <- getSession sessionId st ;;
    session <- requireOrganizer v user ;;
    match students with
    | JArr l =>
        roster <- orThrow (mapM sanitizeStudent l) "Failed to update roster" ;;
        let session := Session.set_students roster session in
        inr (SessionOk session, kv.set ("session:" +:+ sessionId) (VSession session) st)
    | _ => inl (Error "Failed to update roster" 500)
    end).

(** [POST /session/:id/start] *)
Definition post_start (a : Auth) (sessionId : string) (now : string)
    (st : Store) : Response * Store :=
  respond st (
    user <- authenticate a "Missing authorization token" ;;
    _ <- require (validateUUID sessionId) "Invalid session ID format" 400 ;;
    v <- getSession sessionId st ;;
    session <- requireOrganizer v user ;;
    _ <- require (Session.status session =? "setup")%string
           "Session must be in setup phase to start" 400 ;;
    let session := Session.set_startedAt now (Session.set_status "reflection" session) in
    inr (SessionOk session, kv.set ("session:" +:+ sessionId) (VSession session) st)).

(** [POST /session/:id/advance] *)
Definition post_advance (a : Auth) (sessionId : string) (now : string)
    (st : Store) : Response * Store :=
  respond st (
    user <- authenticate a "Missing authorization token" ;;
    _ <- require (validateUUID sessionId) "Invalid session ID format" 400 ;;
    v <- getSession sessionId st ;;
    session <- requireOrganizer v user ;;
    _ <- require (Session.status session =? "reflection")%string
           "Session must be in reflection phase to advance" 400 ;;
    let session := Session.set_advancedAt now (Session.set_status "critique" session) in
    inr (SessionOk session, kv.set ("session:" +:+ sessionId) (VSession session) st)).

(** [POST /session/:id/complete] *)
Definition post_complete (a : Auth) (sessionId : string) (now : string)
    (st : Store) : Response * Store :=
  respond st (
    user <- authenticate a "Missing authorization token" ;;
    _ <- require (validateUUID sessionId) "Invalid session ID format" 400 ;;
    v <- getSession sessionId st ;;
    session <- requireOrganizer v user ;;
    _ <- require (Session.status session =? "critique")%string
           "Session must be in critique phase to complete" 400 ;;
    let session := Session.set_completedAt now (Session.set_status "complete" session) in
    inr (SessionOk session, kv.set ("session:" +:+ sessionId) (VSession session) st)).

(** [POST /session/:id/reopen] *)
Definition post_reopen (a : Auth) (sessionId : string) (body : option json)
    (now : string) (st : Store) : Response * Store :=
  respond st (
    user <- authenticate a "Missing authorization token" ;;
    _ <- require (validateUUID sessionId) "Invalid session ID format" 400 ;;
    body <- parseBody body ;;
    phase <- orThrow (Json.prop body "phase") "Failed to reopen session" ;;
    _ <- require (negb (Json.truthy phase && negb (Json.eq_str phase "reflection")
                        && negb (Json.eq_str phase "critique")))
           (quoted_pair "Phase must be " "reflection" "critique") 400 ;;
    v <- getSession sessionId st ;;
    session <- requireOrganizer v user ;;
    _ <- require (negb (negb (Session.status session =? "complete")%string
                        && negb (Session.status session =? "archived")%string))
           "Session must be complete or archived to reopen" 400 ;;
    let status := if Json.eq_str phase "reflection" then "reflection" else "critique" in
    let session := Session.set_reopenedAt now (Session.set_status status session) in
    inr (SessionOk session, kv.set ("session:" +:+ sessionId) (VSession session) st)).

(** [POST /session/:id/archive] *)
Definition post_archive (a : Auth) (sessionId : string) (now : string)
    (st : Store) : Response * Store :=
  respond st (
    user <- authenticate a "Missing authorization token" ;;
    _ <- require (validateUUID sessionId) "Invalid session ID format" 400 ;;
    v <- getSession sessionId st ;;
    session <- requireOrganizer v user ;;
    let session := Session.set_archivedAt now (Session.set_status "archived" session) in
    inr (SessionOk session, kv.set ("session:" +:+ sessionId) (VSession session) st)).

(** [GET /session/:id] *)
Definition get_session (a : Auth) (sessionId : string) (st : Store) : Response :=
  fst (respond st (
    user <- authenticate a "Missing authorization token" ;;
    _ <- require (validateUUID sessionId) "Invalid session ID format" 400 ;;
    v <- getSession sessionId st ;;
    match v with
    | VSession session =>
        let isOrganizer := (Session.organizerId session =? AuthUser.id user)%string in
        let isStudent := isStudentOf session (AuthUser.email user) in
        _ <- require (negb (negb isOrganizer && negb isStudent)) "Forbidden" 403 ;;
        inr (SessionDetail session, st)
    | _ => inl (Error "Forbidden" 403)
    end)).

(** [Object.entries(responses)] followed by the loop that keeps the string
    values, sanitized: an object gives its own keys, an array its indices.
    The assignment [sanitizedResponses['__proto__'] = value] of a string
    sets no property. *)
Definition entries (responses : json) : list (string * json) :=
  match responses with
  | JObj l => map (fun k => (k, Json.assoc k l)) (map fst l)
  | JArr items => imap (fun i v => (pretty i, v)) items
  | _ => []
  end.

Definition sanitizeResponses (responses : json) : gmap string string :=
  if Json.truthy responses then
    foldl (fun acc e => match snd e with
                        | JStr value =>
                            if (fst e =? "__proto__")%string then acc
                            else <[fst e := sanitizeString value]> acc
                        | _ => acc
                        end) ∅ (entries responses)
  else ∅.

(** [POST /reflection/:sessionId] *)
Definition post_reflection (a : Auth) (sessionId : string) (body : option json)
    (now : string) (st : Store) : Response * Store :=
  respond st (
    ue <- authenticate_email a "Missing authorization token" ;;
    let email := snd ue in
    _ <- require (validateUUID sessionId) "Invalid session ID format" 400 ;;
    body <- parseBody body ;;
    responses <- orThrow (Json.prop body "responses") "Failed to save reflection" ;;
    screenshots <- orThrow (Json.prop body "screenshots") "Failed to save reflection" ;;
    completed <- orThrow (Json.prop body "completed") "Failed to save reflection" ;;
    _ <- require (negb (Json.truthy responses && negb (Json.typeof_object responses)))
           "Responses must be an object" 400 ;;
    _ <- require (negb (Json.truthy screenshots &&
                        match screenshots with
                        | JArr l => 10 <? length l
                        | _ => true
                        end))
           "Screenshots must be an array with max 10 items" 400 ;;
    v <- getSession sessionId st ;;
    _ <- requireEnrolled v email ;;
    let sanitizedResponses := sanitizeResponses responses in
    let reflection :=
      Reflection.mk sessionId email sanitizedResponses
        (if Json.truthy screenshots then screenshots else JArr [])
        (JBool (Json.is_true completed)) now in
    inr (ReflectionOk reflection,
         kv.set ("reflection:" +:+ sessionId +:+ ":" +:+ email) (VReflection reflection) st)).

(** [critiques || ''] for a value that passed [validateTextContent] *)
Definition textOrEmpty (v : json) : string :=
  match v with JStr s => s | _ => EmptyString end.

(** [POST /feedback/:sessionId] *)
Definition post_feedback (a : Auth) (sessionId : string) (body : option json)
    (now : string) (st : Store) : Response * Store :=
  respond st (
    ue <- authenticate_email a "Missing access token" ;;
    let email := snd ue in
    _ <- require (validateUUID sessionId) "Invalid session ID format" 400 ;;
    body <- parseBody body ;;
    toStudent <- orThrow (Json.prop body "toStudent") "Failed to submit feedback" ;;
    critiques <- orThrow (Json.prop body "critiques") "Failed to submit feedback" ;;
    questions <- orThrow (Json.prop body "questions") "Failed to submit feedback" ;;
    _ <- require (validateEmail toStudent) "Invalid toStudent email format" 400 ;;
    match toStudent with
    | JStr toStudent =>
        _ <- require (negb (JS.toLowerCase toStudent =? JS.toLowerCase email)%string)
               "Cannot submit feedback to yourself" 400 ;;
        _ <- require (validateTextContent critiques 5000)
               "Critiques must be under 5000 characters" 400 ;;
        _ <- require (validateTextContent questions 2000)
               "Questions must be under 2000 characters" 400 ;;
        v <- getSession sessionId st ;;
        session <- requireEnrolled v email ;;
        let targetInSession := isStudentOf session (Some (JS.toLowerCase toStudent)) in
        _ <- require targetInSession "Target student not found in session" 400 ;;
        let feedback :=
          Feedback.mk sessionId email (JS.toLowerCase toStudent)
            (sanitizeString (textOrEmpty critiques))
            (sanitizeString (textOrEmpty questions)) now in
        let kvKey :=
          "feedback:" +:+ sessionId +:+ ":" +:+ email +:+ ":" +:+ JS.toLowerCase toStudent in
        inr (FeedbackOk feedback, kv.set kvKey (VFeedback feedback) st)
    | _ => inl (Error "Failed to submit feedback" 500)
    end).

(** [r.completed] and [r.studentEmail] of a scanned value, [f.fromStudent]
    likewise; a value of another shape has the property undefined. *)
Definition completedOf (v : Value) : bool :=
  match v with VReflection r => Json.truthy (Reflection.completed r) | _ => false end.
Definition studentEmailOf (v : Value) : option string :=
  match v with VReflection r => Some (Reflection.studentEmail r) | _ => None end.
Definition fromStudentOf (v : Value) : string :=
  match v with VFeedback f => Feedback.fromStudent f | _ => "undefined" end.

(** [GET /session/:id/progress] *)
Definition get_progress (a : Auth) (sessionId : string) (st : Store) : Response :=
  fst (respond st (
    user <- authenticate a "Missing authorization token" ;;
    _ <- require (validateUUID sessionId) "Invalid session ID format" 400 ;;
    v <- getSession sessionId st ;;
    session <- requireOrganizer v user ;;
    let allReflections := kv.getByPrefix ("reflection:" +:+ sessionId +:+ ":") st in
    let completedReflections := List.filter completedOf allReflections in
    let allFeedback := kv.getByPrefix ("feedback:" +:+ sessionId +:+ ":") st in
    let feedbackCount (email : string) : nat :=
      length (List.filter (fun f => (fromStudentOf f =? email)%string) allFeedback) in
    inr (ProgressOk
           (mkProgress
              (length (Session.students session))
              (length completedReflections)
              (length allFeedback)
              (map (fun s =>
                      mkStudentProgress (Student.email s) (Student.name s)
                        (existsb (fun r =>
                                    bool_decide (studentEmailOf r = Some (Student.email s))
                                    && completedOf r) allReflections)
                        (feedbackCount (Student.email s)))
                   (Session.students session))),
         st))).

(** [POST /ai-reflection], from the parsed reply [data] of the dialogue
    service on: [data.content?.[0]?.text || ''], the sentinel test and the
    cleaned message.  A step that throws lands in the [catch] of the handler. *)
Definition REFLECTION_COMPLETE : string := "[REFLECTION_COMPLETE]".

Definition firstItem (content : json) : json :=
  match content with
  | JArr (x :: _) => x
  | JObj l => Json.assoc "0" l
  | JStr (String c _) => JStr (String c EmptyString)
  | _ => JUndefined
  end.

Definition textOf (item : json) : json :=
  match item with
  | JObj l => Json.assoc "text" l
  | _ => JUndefined
  end.

Definition ai_reflection_reply (data : json) : Response :=
  match Json.prop data "content" with
  | None => ErrorFallback "AI reflection failed" 500
  | Some content =>
      let text := textOf (firstItem content) in
      let aiResponse := if Json.truthy text then text else JStr EmptyString in
      match aiResponse with
      | JStr aiResponse =>
          let isComplete := JS.includes aiResponse REFLECTION_COMPLETE in
          let cleanResponse :=
            JS.trim (JS.replace aiResponse REFLECTION_COMPLETE EmptyString) in
          AiOk cleanResponse isComplete
      | _ => ErrorFallback "AI reflection failed" 500
      end
  end.

(** ** The server as a transition system over the store *)

Inductive Request : Type :=
| Signup (body : option json) (created : string + string)
| CreateSession (a : Auth) (body : option json) (uuid now : string)
| Roster (a : Auth) (sessionId : string) (body : option json)
| Start (a : Auth) (sessionId now : string)
| Advance (a : Auth) (sessionId now : string)
| Complete (a : Auth) (sessionId now : string)
| Reopen (a : Auth) (sessionId : string) (body : option json) (now : string)
| Archive (a : Auth) (sessionId now : string)
| GetSession (a : Auth) (sessionId : string)
| SaveReflection (a : Auth) (sessionId : string) (body : option json) (now : string)
| SubmitFeedback (a : Auth) (sessionId : string) (body : option json) (now : string)
| GetProgress (a : Auth) (sessionId : string).

Definition handle (r : Request) (st : Store) : Response * Store :=
  match r with
  | Signup body created => post_signup body created st
  | CreateSession a body uuid now => post_session a body uuid now st
  | Roster a sessionId body => post_roster a sessionId body st
  | Start a sessionId now => post_start a sessionId now st
  | Advance a sessionId now => post_advance a sessionId now st
  | Complete a sessionId now => post_complete a sessionId now st
  | Reopen a sessionId body now => post_reopen a sessionId body now st
  | Archive a sessionId now => post_archive a sessionId now st
  | GetSession a sessionId => (get_session a sessionId st, st)
  | SaveReflection a sessionId body now => post_reflection a sessionId body now st
  | SubmitFeedback a sessionId body now => post_feedback a sessionId body now st
  | GetProgress a sessionId => (get_progress a sessionId st, st)
  end.

(** The store after a sequence of requests, served one after the other. *)
Definition run (rs : list Request) (st : Store) : Store :=
  foldl (fun st r => snd (handle r st)) st rs.

(** The five phase transitions, by the name of their route. *)
Inductive Action : Type := start | advance | complete | reopen | archive.

Definition transition (act : Action) (a : Auth) (sessionId : string)
    (body : option json) (now : string) : Request :=
  match act with
  | start => Start a sessionId now
  | advance => Advance a sessionId now
  | complete => Complete a sessionId now
  | reopen => Reopen a sessionId body now
  | archive => Archive a sessionId now
  end.

(** The answer of a transition refused for the phase the session is in;
    [archive] has no such answer. *)
Definition InvalidTransition (act : Action) (r : Response) : Prop :=
  match act with
  | start => r = Error "Session must be in setup phase to start" 400
  | advance => r = Error "Session must be in reflection phase to advance" 400
  | complete => r = Error "Session must be in critique phase to complete" 400
  | reopen => r = Error "Session must be complete or archived to reopen" 400
  | archive => False
  end.

(** The transition table of the specification (section 4.2), by rows
    [From | Action | To]: the source phases of an action and the phases it
    may lead to. *)
Definition spec_sources (act : Action) : list string :=
  match act with
  | start => ["setup"]
  | advance => ["reflection"]
  | complete => ["critique"]
  | reopen => ["complete"; "archived"]
  | archive => VALID_SESSION_STATUSES
  end.

Definition spec_targets (act : Action) : list string :=
  match act with
  | start => ["reflection"]
  | advance => ["critique"]
  | complete => ["complete"]
  | reopen => ["reflection"; "critique"]
  | archive => ["archived"]
  end.

Definition spec_row (from : string) (act : Action) (to : string) : Prop :=
  from ∈ spec_sources act ∧ to ∈ spec_targets act.

(** ** Invariants of the store *)

(** The key a record is written under, from its own fields. *)
Definition key_of (v : Value) : string :=
  match v with
  | VUser u => "user:" +:+ UserInfo.email u
  | VSession s => "session:" +:+ Session.id s
  | VReflection r =>
      "reflection:" +:+ Reflection.sessionId r +:+ ":" +:+ Reflection.studentEmail r
  | VFeedback f =>
      "feedback:" +:+ Feedback.sessionId f +:+ ":" +:+ Feedback.fromStudent f
        +:+ ":" +:+ Feedback.toStudent f
  end.

Definition value_ok (v : Value) : Prop :=
  match v with
  | VUser _ => True
  | VSession s =>
      Session.status s ∈ VALID_SESSION_STATUSES ∧
      Forall (fun student => JS.toLowerCase (Student.email student) = Student.email student)
        (Session.students s)
  | VReflection r =>
      validateUUID (Reflection.sessionId r) = true ∧
      ∃ b, Reflection.completed r = JBool b
  | VFeedback f => validateUUID (Feedback.sessionId f) = true
  end.

Definition store_ok (st : Store) : Prop :=
  ∀ k v, st !! k = Some v → k = key_of v ∧ value_ok v.

(** The caller presents a token that the identity provider resolves to [u]. *)
Definition authenticated (a : Auth) (u : AuthUser.t) : Prop :=
  is_Some (accessToken a) ∧ authError a = false ∧ user a = Some u
  ∧ AuthUser.id u ≠ EmptyString.

(** The Reflection and Feedback records of a session, by their own
    [sessionId] field. *)
Definition reflectionOf (sessionId : string) (v : Value) : bool :=
  match v with
  | VReflection r => (Reflection.sessionId r =? sessionId)%string
  | _ => false
  end.

Definition feedbackOf (sessionId : string) (v : Value) : bool :=
  match v with
  | VFeedback f => (Feedback.sessionId f =? sessionId)%string
  | _ => false
  end.

Definition records (st : Store) : list Value := map snd (map_to_list st).

Definition session_reflections (sessionId : string) (st : Store) : list Value :=
  List.filter (reflectionOf sessionId) (records st).

Definition session_feedback (sessionId : string) (st : Store) : list Value :=
  List.filter (feedbackOf sessionId) (records st).

(** The response is a refusal [{ error }] with an HTTP status. *)
Definition is_error (r : Response) : Prop :=
  match r with Error _ _ => True | _ => False end.

(** Whenever the handler stops early, it stops with a refusal. *)
Definition rejects {A} (h : Handler A) : Prop :=
  match h with inl r => is_error r | inr _ => True end.

(** The body of a [reopen] request gets past the check of its [phase]:
    a phase that is falsy, ['reflection'] or ['critique']. *)
Definition phase_accepted (body : option json) : bool :=
  match body with
  | Some b =>
      match Json.prop b "phase" with
      | Some phase =>
          negb (Json.truthy phase && negb (Json.eq_str phase "reflection")
                && negb (Json.eq_str phase "critique"))
      | None => false
      end
  | None => false
  end.

(** Membership of the roster as the specification has it (section 4.2): the
    email matches the email of some entry when the case of letters is
    ignored. *)
Definition spec_onRoster (s : Session.t) (email : string) : bool :=
  existsb (fun student =>
             (JS.toLowerCase (Student.email student) =? JS.toLowerCase email)%string)
          (Session.students s).

(** The Feedback records from one author to one recipient in a session. *)
Definition feedbackOfPair (sessionId author recipient : string) (v : Value) : bool :=
  match v with
  | VFeedback f =>
      (Feedback.sessionId f =? sessionId)%string
      && (Feedback.fromStudent f =? author)%string
      && (Feedback.toStudent f =? recipient)%string
  | _ => false
  end.

Definition pair_feedback (sessionId author recipient : string) (st : Store) : list Value :=
  List.filter (feedbackOfPair sessionId author recipient) (records st).

(** The count of the specification (section 8): the roster emails that have
    a stored Reflection with [completed = true]. *)
Definition spec_hasCompletedReflection (sessionId : string) (st : Store)
    (s : Student.t) : bool :=
  match st !! ("reflection:" +:+ sessionId +:+ ":" +:+ Student.email s) with
  | Some (VReflection r) => Json.is_true (Reflection.completed r)
  | _ => false
  end.

Definition spec_completedReflections (sessionId : string) (roster : list Student.t)
    (st : Store) : nat :=
  length (List.filter (spec_hasCompletedReflection sessionId st) roster).

(** [r.studentEmail] of a scanned Reflection record. *)
Definition emailOf (v : Value) : string :=
  match v with VReflection r => Reflection.studentEmail r | _ => EmptyString end.

(** ** Sample requests and stores *)

Module Sample.

Definition olivia : AuthUser.t := AuthUser.mk "u-olivia" (Some "olivia@x.com") "organizer".
Definition alice : AuthUser.t := AuthUser.mk "u-alice" (Some "alice@x.com") "student".
Definition bob : AuthUser.t := AuthUser.mk "u-bob" (Some "bob@x.com") "student".
(** Alice again, as an identity whose email keeps its capital. *)
Definition Alice : AuthUser.t := AuthUser.mk "u-alice" (Some "Alice@x.com") "student".

Definition signedIn (u : AuthUser.t) : Auth :=
  mkAuth (Some "Bearer token") false (Some u).

Definition sid : string := "123e4567-e89b-12d3-a456-426614174000".

Definition studentJson (email name : string) : json :=
  JObj [("email", JStr email); ("name", JStr name)].

Definition rosterBody (students : list json) : option json :=
  Some (JObj [("students", JArr students)]).

Definition create : Request :=
  CreateSession (signedIn olivia) (Some (JObj [("name", JStr "Demo")])) sid "t0".

Definition enrol : Request :=
  Roster (signedIn olivia) sid
    (rosterBody [studentJson "alice@x.com" "Alice"; studentJson "bob@x.com" "Bob"]).

(** The store after [create], and the session it holds. *)
Definition st0 : Store := run [create] ∅.
Definition demo : Session.t :=
  Session.mk sid "u-olivia" (Some "olivia@x.com") "Demo" "setup" [] "t0"
    None None None None None.

(** Two rosters, submitted one after the other. *)
Definition R1 : list json :=
  [studentJson "alice@x.com" "Alice"; studentJson "bob@x.com" "Bob"].
Definition R2 : list json := [studentJson "Carol@X.com" " Carol "].
Definition st1 : Store := snd (post_roster (signedIn olivia) sid (rosterBody R1) st0).
Definition st2 : Store := snd (post_roster (signedIn olivia) sid (rosterBody R2) st1).
Definition demo1 : Session.t :=
  Session.set_students [Student.mk "alice@x.com" "Alice"; Student.mk "bob@x.com" "Bob"] demo.
Definition demo2 : Session.t :=
  Session.set_students [Student.mk "carol@x.com" "Carol"] demo.

(** *** Reflections and feedback *)

(** The store after the session is created and Alice and Bob are enrolled. *)
Definition stE : Store := run [create; enrol] ∅.

Definition reflectionBody (completed : json) : option json :=
  Some (JObj [("responses", JObj [("projectSummary", JStr "A game")]);
              ("screenshots", JArr [JStr "s1"; JStr "s2"; JStr "s3"]);
              ("completed", completed)]).

Definition reflectionOfAlice (completed : json) : Reflection.t :=
  Reflection.mk sid "alice@x.com" (sanitizeResponses (JObj [("projectSummary", JStr "A game")]))
    (JArr [JStr "s1"; JStr "s2"; JStr "s3"]) (JBool (Json.is_true completed)) "t2".

(** The session as it is in [stE]. *)
Definition demoE : Session.t :=
  Session.set_students
    [Student.mk "alice@x.com" "Alice"; Student.mk "bob@x.com" "Bob"] demo.

Definition feedbackBody (toStudent critiques questions : string) : option json :=
  Some (JObj [("toStudent", JStr toStudent); ("critiques", JStr critiques);
              ("questions", JStr questions)]).

(** Alice saves a completed reflection; then the roster is replaced by one
    without her. *)
Definition stR : Store :=
  run [create; enrol;
       SaveReflection (signedIn alice) sid (reflectionBody (JBool true)) "t2";
       Roster (signedIn olivia) sid (rosterBody [studentJson "bob@x.com" "Bob"])] ∅.
Definition demoR : Session.t :=
  Session.set_students [Student.mk "bob@x.com" "Bob"] demo.

(** Bob writes to Alice, twice. *)
Definition stF1 : Store :=
  snd (post_feedback (signedIn bob) sid (feedbackBody "alice@x.com" "First" "Why?") "t3" stE).
Definition stF2 : Store :=
  snd (post_feedback (signedIn bob) sid (feedbackBody "Alice@X.com" " Second " "How?") "t4" stF1).
Definition first : Feedback.t :=
  Feedback.mk sid "bob@x.com" "alice@x.com" "First" "Why?" "t3".
Definition second : Feedback.t :=
  Feedback.mk sid "bob@x.com" "alice@x.com" "Second" "How?" "t4".

(** *** Replies of the dialogue service *)

(** The parsed reply [{ content: [{ type: 'text', text }] }]. *)
Definition dialogueReply (text : string) : json :=
  JObj [("content", JArr [JObj [("type", JStr "text"); ("text", JStr text)]])].

Definition twice : string := "Well done. [REFLECTION_COMPLETE] [REFLECTION_COMPLETE]".

End Sample.

(** ** The rate limit and the CORS origin *)

Module RateLimit.

(** An entry [{ count, resetAt }] of [rateLimitStore]; times are the
    milliseconds of [Date.now()]. *)
Record Entry := mk { count : nat; resetAt : Z }.

Definition RATE_LIMIT_WINDOW : Z := 60 * 1000.
Definition RATE_LIMIT_MAX : nat := 60.

(** [checkRateLimit(identifier)] at time [now]: the answer and the map after
    the call.  [entry.count++] updates the entry the map holds. *)
Definition checkRateLimit (identifier : string) (now : Z)
    (rateLimitStore : gmap string Entry) : bool * gmap string Entry :=
  match rateLimitStore !! identifier with
  | Some entry =>
      if (resetAt entry <? now)%Z
      then (true, <[identifier := mk 1 (now + RATE_LIMIT_WINDOW)]> rateLimitStore)
      else if RATE_LIMIT_MAX <=? count entry then (false, rateLimitStore)
      else (true, <[identifier := mk (S (count entry)) (resetAt entry)]> rateLimitStore)
  | None => (true, <[identifier := mk 1 (now + RATE_LIMIT_WINDOW)]> rateLimitStore)
  end.

(** The periodic sweep: every entry with [resetAt < now] is deleted. *)
Definition sweep (now : Z) (rateLimitStore : gmap string Entry) : gmap string Entry :=
  filter (fun kv => ¬ (resetAt (snd kv) < now)%Z) rateLimitStore.

(** The identifier of the middleware:
    [header('Authorization')?.slice(0, 50) || header('x-forwarded-for') || 'anonymous']. *)
Definition orElse (a : option string) (b : string) : string :=
  match a with
  | Some s => if (s =? EmptyString)%string then b else s
  | None => b
  end.

Definition identifier (authorizationHeader forwardedFor : option string) : string :=
  orElse (JS.slice0 50 <$> authorizationHeader) (orElse forwardedFor "anonymous").

(** The middleware: [true] lets the request through to its handler, [false]
    answers 429. *)
Definition middleware (authorizationHeader forwardedFor : option string) (now : Z)
    (rateLimitStore : gmap string Entry) : bool * gmap string Entry :=
  checkRateLimit (identifier authorizationHeader forwardedFor) now rateLimitStore.

(** The answers to a sequence of calls for one identifier, at the given times. *)
Fixpoint calls (identifier : string) (times : list Z) (rateLimitStore : gmap string Entry)
  : list bool * gmap string Entry :=
  match times with
  | [] => ([], rateLimitStore)
  | now :: rest =>
      let (ok, next) := checkRateLimit identifier now rateLimitStore in
      let (oks, final) := calls identifier rest next in
      (ok :: oks, final)
  end.

End RateLimit.

Module Cors.

(** [Deno.env.get('ALLOWED_ORIGINS')?.split(',') || ['*']] *)
Definition allowedOrigins (env : option string) : list string :=
  match env with
  | Some s => JS.split "," s
  | None => ["*"]
  end.

(** The [origin] callback of the CORS configuration; [None] is [undefined]. *)
Definition origin (env : option string) (requestOrigin : string) : option string :=
  let allowed := allowedOrigins env in
  if bool_decide ("*" ∈ allowed) then Some requestOrigin
  else if bool_decide (requestOrigin ∈ allowed) then Some requestOrigin
  else head allowed.

End Cors.

(** Every counter of the limiter is between 1 and the maximum. *)
Definition counters_bounded (rateLimitStore : gmap string RateLimit.Entry) : Prop :=
  ∀ id e, rateLimitStore !! id = Some e →
          1 ≤ RateLimit.count e ≤ RateLimit.RATE_LIMIT_MAX.

(** The limiter over time: calls of [checkRateLimit] and sweeps, in any order. *)
Inductive RateEvent : Type :=
| Call (identifier : string) (now : Z)
| Sweep (now : Z).

Definition rateStep (rl : gmap string RateLimit.Entry) (ev : RateEvent)
  : gmap string RateLimit.Entry :=
  match ev with
  | Call identifier now => snd (RateLimit.checkRateLimit identifier now rl)
  | Sweep now => RateLimit.sweep now rl
  end.

(** ** The other routes *)

(** [GET /reflection/:sessionId/:email]: the stored value, [None] for the
    [null] of an absent key. *)
Definition get_reflection (a : Auth) (sessionId email : string) (st : Store)
  : Handler (option Value) :=
  user <- authenticate a "Missing authorization token" ;;
  _ <- require (validateUUID sessionId) "Invalid session ID format" 400 ;;
  _ <- require (validateEmail (JStr email)) "Invalid email format" 400 ;;
  v <- getSession sessionId st ;;
  let isOrganizer :=
    match v with
    | VSession session => (Session.organizerId session =? AuthUser.id user)%string
    | _ => false
    end in
  let isOwnReflection := bool_decide (AuthUser.email user = Some email) in
  let isInSession :=
    match v with
    | VSession session => isStudentOf session (AuthUser.email user)
    | _ => false
    end in
  _ <- require (negb (negb isOrganizer && negb isOwnReflection && negb isInSession))
         "Forbidden" 403 ;;
  inr (kv.get ("reflection:" +:+ sessionId +:+ ":" +:+ email) st).

Module Project.
Record t := mk {
  studentEmail : string;
  studentName : string;
  projectSummary : string;
  screenshots : json;
  responses : gmap string string
}.
End Project.

(** [responses?.key || fallback] *)
Definition responseOr (responses : gmap string string) (key fallback : string) : string :=
  match responses !! key with
  | Some s => if (s =? EmptyString)%string then fallback else s
  | None => fallback
  end.

(** One step of [.filter(r => r.completed && r.studentEmail !== user.email)]
    followed by [.map(r => ({ ... }))]: the project of a scanned value that
    passes the filter. *)
Definition projectOf (userEmail : option string) (v : Value) : option Project.t :=
  match v with
  | VReflection r =>
      if completedOf v && negb (bool_decide (Some (Reflection.studentEmail r) = userEmail))
      then Some (Project.mk (Reflection.studentEmail r)
                   (responseOr (Reflection.responses r) "name" (Reflection.studentEmail r))
                   (responseOr (Reflection.responses r) "projectSummary" EmptyString)
                   (if Json.truthy (Reflection.screenshots r)
                    then Reflection.screenshots r else JArr [])
                   (Reflection.responses r))
      else None
  | _ => None
  end.

(** [GET /projects/:sessionId] *)
Definition get_projects (a : Auth) (sessionId : string) (st : Store)
  : Handler (list Project.t) :=
  user <- authenticate a "Missing authorization token" ;;
  _ <- require (validateUUID sessionId) "Invalid session ID format" 400 ;;
  v <- getSession sessionId st ;;
  match v with
  | VSession session =>
      let isOrganizer := (Session.organizerId session =? AuthUser.id user)%string in
      let isStudent := isStudentOf session (AuthUser.email user) in
      _ <- require (negb (negb isOrganizer && negb isStudent)) "Forbidden" 403 ;;
      let allReflections := kv.getByPrefix ("reflection:" +:+ sessionId +:+ ":") st in
      inr (omap (projectOf (AuthUser.email user)) allReflections)
  | _ => inl (Error "Forbidden" 403)
  end.

(** [f.toStudent?.toLowerCase() === studentEmail.toLowerCase()] *)
Definition addressedTo (studentEmail : string) (v : Value) : bool :=
  match v with
  | VFeedback f =>
      (JS.toLowerCase (Feedback.toStudent f) =? JS.toLowerCase studentEmail)%string
  | _ => false
  end.

(** [GET /feedback/:sessionId/:studentEmail] *)
Definition get_feedback (a : Auth) (sessionId studentEmail : string) (st : Store)
  : Handler (list Value) :=
  user <- authenticate a "Missing authorization token" ;;
  _ <- require (validateUUID sessionId) "Invalid session ID format" 400 ;;
  _ <- require (validateEmail (JStr studentEmail)) "Invalid email format" 400 ;;
  v <- getSession sessionId st ;;
  let isOrganizer :=
    match v with
    | VSession session => (Session.organizerId session =? AuthUser.id user)%string
    | _ => false
    end in
  let isOwnFeedback :=
    match AuthUser.email user with
    | Some e => (JS.toLowerCase e =? JS.toLowerCase studentEmail)%string
    | None => false
    end in
  _ <- require (negb (negb isOrganizer && negb isOwnFeedback)) "Forbidden" 403 ;;
  let allFeedback := kv.getByPrefix ("feedback:" +:+ sessionId +:+ ":") st in
  inr (List.filter (addressedTo studentEmail) allFeedback).

(** ** Screenshot upload *)

Module Upload.

Record File := mkFile { name : string; size : N; type : string }.

(** A field of the form data: a file, or a text value. *)
Inductive FormValue : Type :=
| FFile (f : File)
| FText (s : string).

Definition MAX_FILE_SIZE : N := 10 * 1024 * 1024.
Definition ALLOWED_MIME_TYPES : list string :=
  ["image/jpeg"; "image/png"; "image/gif"; "image/webp"].

(** [[a-zA-Z0-9.-]] *)
Definition safe_char (c : ascii) : bool :=
  let n := nat_of_ascii c in
  ((97 <=? n) && (n <=? 122)) || ((65 <=? n) && (n <=? 90)) || ((48 <=? n) && (n <=? 57))
  || (n =? 46) || (n =? 45).

Fixpoint replaceUnsafe (s : string) : string :=
  match s with
  | EmptyString => EmptyString
  | String c r => String (if safe_char c then c else "_"%char) (replaceUnsafe r)
  end.

(** [file.name.replace(/[^a-zA-Z0-9.-]/g, '_').slice(0, 100)] *)
Definition sanitizedName (name : string) : string := JS.slice0 100 (replaceUnsafe name).

(** [!v] for a field of the form data *)
Definition missing (v : option FormValue) : bool :=
  match v with
  | None => true
  | Some (FText s) => (s =? EmptyString)%string
  | Some (FFile _) => false
  end.

(** [POST /upload-screenshot].  [form] is [None] when the form data does not
    parse, else its [file] and [sessionId] fields; [uuid] is
    [crypto.randomUUID()], [uploadError] tells whether the storage service
    refused the upload, [signedUrl] is [signedUrlData?.signedUrl].  The answer
    is [{ success: true, url, path }]. *)
Definition post_upload_screenshot (a : Auth)
    (form : option (option FormValue * option FormValue))
    (uuid : string) (uploadError : bool) (signedUrl : option string) (st : Store)
  : Handler (option string * string) :=
  ue <- authenticate_email a "Missing authorization token" ;;
  let email := snd ue in
  match form with
  | None => inl (Error "Invalid form data" 400)
  | Some (file, sessionId) =>
      _ <- require (negb (missing file || missing sessionId))
             "Missing file or sessionId" 400 ;;
      _ <- require (match sessionId with
                    | Some (FText id) => validateUUID id
                    | _ => false
                    end) "Invalid session ID format" 400 ;;
      _ <- require (negb (match file with
                          | Some (FFile f) => (MAX_FILE_SIZE <? size f)%N
                          | _ => false
                          end)) "File too large. Maximum size is 10MB." 400 ;;
      _ <- require (match file with
                    | Some (FFile f) => bool_decide (type f ∈ ALLOWED_MIME_TYPES)
                    | _ => false
                    end)
             "Invalid file type. Only JPEG, PNG, GIF, and WebP are allowed." 400 ;;
      match file, sessionId with
      | Some (FFile f), Some (FText sessionId) =>
          v <- getSession sessionId st ;;
          _ <- requireEnrolled v email ;;
          let fileName :=
            sessionId +:+ "/" +:+ email +:+ "/" +:+ uuid +:+ "-" +:+ sanitizedName (name f) in
          _ <- require (negb uploadError) "Failed to upload file" 500 ;;
          inr (signedUrl, fileName)
      | _, _ => inl (Error "Failed to upload screenshot" 500)
      end
  end.

End Upload.

(** ** The dialogue route, whole *)

Module Dialogue.

Definition MAX_MESSAGES : nat := 50.
Definition MAX_MESSAGE_LENGTH : nat := 2000.

(** What the call of the dialogue service comes to: [fetch] or the reading of
    its answer throws, or there is a status ([ok] or not) and, for an [ok]
    one, the parsed reply. *)
Inductive Upstream : Type :=
| Thrown
| NotOk
| Ok (data : json).

(** The checks of the loop body on one message.  A [null] message gets past
    [typeof msg !== 'object'] and throws at [msg.role]. *)
Definition validateMessage (msg : json) : Handler unit :=
  _ <- require (Json.typeof_object msg) "Each message must have role and content" 400 ;;
  match Json.prop msg "role", Json.prop msg "content" with
  | Some role, Some content =>
      _ <- require (Json.truthy role && Json.truthy content)
             "Each message must have role and content" 400 ;;
      _ <- require (match content with
                    | JStr s => String.length s <=? MAX_MESSAGE_LENGTH
                    | _ => false
                    end) "Message content must be under 2000 characters" 400 ;;
      require (Json.eq_str role "user" || Json.eq_str role "ai"
               || Json.eq_str role "assistant")
        (quoted_pair "Message role must be " "user" "ai") 400
  | _, _ => inl (ErrorFallback "AI reflection failed" 500)
  end.

(** [for (const msg of messages) { ... }]: the first message that fails
    decides. *)
Fixpoint validateMessages (messages : list json) : Handler unit :=
  match messages with
  | [] => inr tt
  | msg :: rest => _ <- validateMessage msg ;; validateMessages rest
  end.

(** [{ role: msg.role === 'ai' ? 'assistant' : 'user',
       content: sanitizeString(msg.content) }] *)
Definition anthropicMessage (msg : json) : string * string :=
  match msg with
  | JObj l =>
      (if Json.eq_str (Json.assoc "role" l) "ai" then "assistant" else "user",
       match Json.assoc "content" l with
       | JStr s => sanitizeString s
       | _ => EmptyString
       end)
  | _ => ("user", EmptyString)
  end.

Definition anthropicMessages (messages : list json) : list (string * string) :=
  map anthropicMessage messages.

(** [POST /ai-reflection].  [anthropicKey] is the environment variable;
    [upstream] is the outcome of the call made with the converted messages. *)
Definition post_ai_reflection (a : Auth) (body : option json)
    (anthropicKey : option string) (upstream : Upstream) : Response :=
  let answer : Handler Response :=
    _ <- authenticate a "Missing access token" ;;
    body <- parseBody body ;;
    match Json.prop body "messages", Json.prop body "sessionId" with
    | Some messages, Some sessionId =>
        match messages with
        | JArr l =>
            _ <- require (negb (MAX_MESSAGES <? length l))
                   "Too many messages. Maximum is 50" 400 ;;
            _ <- validateMessages l ;;
            _ <- require (negb (Json.truthy sessionId &&
                                negb (match sessionId with
                                      | JStr id => validateUUID id
                                      | _ => false
                                      end)))
                   "Invalid session ID format" 400 ;;
            match anthropicKey with
            | Some (String _ _) =>
                match upstream with
                | Thrown => inl (ErrorFallback "AI reflection failed" 500)
                | NotOk => inl (ErrorFallback "AI service error" 500)
                | Ok data => inr (ai_reflection_reply data)
                end
            | _ => inl (ErrorFallback "AI service not configured" 500)
            end
        | _ => inl (Error "Messages array required" 400)
        end
    | _, _ => inl (ErrorFallback "AI reflection failed" 500)
    end in
  match answer with inl r => r | inr r => r end.

End Dialogue.

(** ** What every stored Reflection and Feedback record satisfies *)

Definition feedback_wf (f : Feedback.t) : Prop :=
  JS.toLowerCase (Feedback.toStudent f) = Feedback.toStudent f ∧
  JS.toLowerCase (Feedback.fromStudent f) ≠ Feedback.toStudent f ∧
  (N.of_nat (String.length (Feedback.critiques f)) ≤ 5000)%N ∧
  (N.of_nat (String.length (Feedback.questions f)) ≤ 2000)%N.

Definition reflection_wf (r : Reflection.t) : Prop :=
  (∃ l, Reflection.screenshots r = JArr l ∧ length l ≤ 10) ∧
  (∀ k s, Reflection.responses r !! k = Some s →
          (N.of_nat (String.length s) ≤ 10000)%N) ∧
  Reflection.studentEmail r ≠ EmptyString.

Definition records_wf (st : Store) : Prop :=
  ∀ k v, st !! k = Some v →
         match v with
         | VFeedback f => feedback_wf f
         | VReflection r => reflection_wf r
         | _ => True
         end.

(** *** A run with feedback and a reflection *)

Module Sample4.

Definition requests : list Request :=
  [Sample.create; Sample.enrol;
   SaveReflection (Sample.signedIn Sample.alice) Sample.sid
     (Sample.reflectionBody (JBool true)) "t2";
   SubmitFeedback (Sample.signedIn Sample.bob) Sample.sid
     (Sample.feedbackBody "Alice@X.com" " Second " "How?") "t4"].

Definition st : Store := run requests ∅.

End Sample4.

(** ** Who a request comes from *)

(** The credential a request carries; [POST /signup] carries none. *)
Definition auth_of (r : Request) : option Auth :=
  match r with
  | Signup _ _ => None
  | CreateSession a _ _ _ | Roster a _ _ | Start a _ _ | Advance a _ _
  | Complete a _ _ | Reopen a _ _ _ | Archive a _ _ | GetSession a _
  | SaveReflection a _ _ _ | SubmitFeedback a _ _ _ | GetProgress a _ => Some a
  end.

(** The id that [crypto.randomUUID()] gives to the session of a
    [POST /session]. *)
Definition uuid_of (r : Request) : option string :=
  match r with
  | CreateSession _ _ uuid _ => Some uuid
  | _ => None
  end.

(** The fields of a session that no route rewrites once it is created. *)
Definition same_identity (s s' : Session.t) : Prop :=
  Session.id s' = Session.id s ∧
  Session.organizerId s' = Session.organizerId s ∧
  Session.organizerEmail s' = Session.organizerEmail s ∧
  Session.name s' = Session.name s ∧
  Session.createdAt s' = Session.createdAt s.

(** ** What every stored session and user record satisfies *)

Definition student_wf (s : Student.t) : Prop :=
  Student.email s ≠ EmptyString ∧
  JS.toLowerCase (Student.email s) = Student.email s ∧
  1 ≤ String.length (Student.name s) ≤ 100.

Definition session_wf (s : Session.t) : Prop :=
  Session.organizerId s ≠ EmptyString ∧
  1 ≤ String.length (Session.name s) ≤ 200 ∧
  length (Session.students s) ≤ 500 ∧
  Forall student_wf (Session.students s).

Definition user_wf (u : UserInfo.t) : Prop :=
  UserInfo.email u ≠ EmptyString ∧
  JS.toLowerCase (UserInfo.email u) = UserInfo.email u ∧
  1 ≤ String.length (UserInfo.name u) ≤ 100 ∧
  UserInfo.role u ∈ VALID_ROLES.

Definition directory_wf (st : Store) : Prop :=
  ∀ k v, st !! k = Some v →
         match v with
         | VSession s => session_wf s
         | VUser u => user_wf u
         | _ => True
         end.

(** *** Letters and white space beyond ASCII *)

Module Latin1.

(** [é@x.com] and [É@x.com], with U+00E9 and U+00C9 written as code units, and
    the no-break space U+00A0. *)
Definition e_acute : string := String "233"%char "@x.com".
Definition E_acute : string := String "201"%char "@x.com".
Definition nbsp : string := String "160"%char EmptyString.

(** Eloise, whose identity email is [é@x.com]. *)
Definition eloise : AuthUser.t := AuthUser.mk "u-eloise" (Some e_acute) "student".

(** The session of [Sample.create] with Eloise and Bob enrolled, Eloise under
    the email typed with a capital. *)
Definition enrol : Request :=
  Roster (Sample.signedIn Sample.olivia) Sample.sid
    (Sample.rosterBody [Sample.studentJson E_acute "Eloise";
                        Sample.studentJson "bob@x.com" "Bob"]).

Definition requests : list Request := [Sample.create; enrol].

Definition st : Store := run requests ∅.

Definition demo : Session.t :=
  Session.set_students [Student.mk e_acute "Eloise"; Student.mk "bob@x.com" "Bob"]
    Sample.demo.

(** Bob writes to Eloise, typing her email with the capital. *)
Definition toEloise : Feedback.t :=
  Feedback.mk Sample.sid "bob@x.com" e_acute "First" "Why?" "t3".

Definition requestsF : list Request :=
  requests ++ [SubmitFeedback (Sample.signedIn Sample.bob) Sample.sid
                 (Sample.feedbackBody E_acute "First" "Why?") "t3"].

Definition stF : Store := run requestsF ∅.

Definition signupBody (email : string) : option json :=
  Some (JObj [("email", JStr email); ("password", JStr "secret1");
              ("name", JStr (nbsp +:+ "Eloise" +:+ nbsp)); ("role", JStr "student")]).

End Latin1.

(** *** An upload, a dialogue and a signup *)

Module Sample5.

Definition photo : Upload.File :=
  Upload.mkFile "../my photo (1).png" 2048 "image/png".

Definition form : option (option Upload.FormValue * option Upload.FormValue) :=
  Some (Some (Upload.FFile photo), Some (Upload.FText Sample.sid)).

Definition message (role content : string) : json :=
  JObj [("role", JStr role); ("content", JStr content)].

Definition messages : list json :=
  [message "ai" "What did you build?"; message "user" " A game. ";
   message "assistant" "Why?"].

Definition dialogueBody : option json :=
  Some (JObj [("messages", JArr messages)]).

Definition signupBody (email : string) : option json :=
  Some (JObj [("email", JStr email); ("password", JStr "secret1");
              ("name", JStr " Alice "); ("role", JStr "student")]).

(** Alice signs up, then the session of [Sample.stE] is set up. *)
Definition requests : list Request :=
  [Signup (signupBody "alice@x.com") (inl "u-alice"); Sample.create; Sample.enrol].

Definition st : Store := run requests ∅.

Definition anonymous : Auth := mkAuth None false None.

End Sample5.

(** ** Signing in *)

(** [POST /signin].  [signedIn] is the outcome of
    [authSupabase.auth.signInWithPassword]: the access token of the new
    session, or [None] for its error.  The answer is
    [{ success: true, accessToken, user: userInfo }], with [None] for the
    [null] of an absent key. *)
Definition post_signin (body : option json) (signedIn : option string) (st : Store)
  : Handler (string * option Value) :=
  body <- parseBody body ;;
  email <- orThrow (Json.prop body "email") "Signin failed" ;;
  password <- orThrow (Json.prop body "password") "Signin failed" ;;
  _ <- require (validateEmail email) "Invalid email format" 400 ;;
  _ <- require (match password with
                | JStr p => negb (String.length p =? 0)
                | _ => false
                end) "Invalid credentials" 401 ;;
  match email with
  | JStr email =>
      match signedIn with
      | None => inl (Error "Invalid credentials" 401)
      | Some accessToken =>
          let userInfo := kv.get ("user:" +:+ JS.toLowerCase email) st in
          inr (accessToken, userInfo)
      end
  | _ => inl (Error "Signin failed" 500)
  end.

(** * Properties *)

(** ** Reading a handler backwards *)

Lemma pair_eq {A B} (p : A * B) a b : fst p = a → snd p = b → p = (a, b).
Proof. destruct p. simpl. congruence. Qed.

Lemma respond_inv (st : Store) h r st' :
  respond st h = (r, st') → (h = inl r ∧ st' = st) ∨ h = inr (r, st').
Proof. destruct h as [e|[r0 s0]]; simpl; intros [= <- <-]; auto. Qed.

Lemma bindH_inr {A B} (m : Handler A) (k : A → Handler B) (b : B) :
  bindH m k = inr b → ∃ x, m = inr x ∧ k x = inr b.
Proof. destruct m as [e|x]; simpl; [discriminate|eauto]. Qed.

Lemma require_inr b e c u : require b e c = inr u → b = true.
Proof. by destruct b. Qed.

Lemma orThrow_inr {A} (o : option A) e x : orThrow o e = inr x → o = Some x.
Proof. destruct o; simpl; congruence. Qed.

Lemma authenticate_inr a m u : authenticate a m = inr u ↔ authenticated a u.
Proof.
  unfold authenticate, authenticated. split.
  - destruct (accessToken a) eqn:Ht; [|discriminate].
    destruct (authError a); [discriminate|].
    destruct (user a) as [u'|]; [|discriminate].
    destruct (String.eqb_spec (AuthUser.id u') EmptyString); [discriminate|].
    intros [= ->]. eauto.
  - intros ([t Ht] & -> & -> & Hid). rewrite Ht.
    by destruct (String.eqb_spec (AuthUser.id u) EmptyString).
Qed.

Lemma authenticate_email_inr a m u e :
  authenticate_email a m = inr (u, e) →
  authenticated a u ∧ AuthUser.email u = Some e ∧ e ≠ EmptyString.
Proof.
  unfold authenticate_email. intros (u' & Hu & H)%bindH_inr.
  apply authenticate_inr in Hu.
  destruct (AuthUser.email u') as [e'|] eqn:He; [|discriminate].
  destruct (String.eqb_spec e' EmptyString); [discriminate|].
  injection H as -> ->. auto.
Qed.

Lemma getSession_inr sid st v :
  getSession sid st = inr v → st !! ("session:" +:+ sid) = Some v.
Proof. unfold getSession, kv.get. destruct (st !! _); congruence. Qed.

Lemma requireOrganizer_inr v u s :
  requireOrganizer v u = inr s → v = VSession s ∧ Session.organizerId s = AuthUser.id u.
Proof.
  destruct v as [|s'| |]; simpl; try discriminate.
  destruct (String.eqb_spec (Session.organizerId s') (AuthUser.id u)); [|discriminate].
  intros [= ->]. auto.
Qed.

Lemma requireEnrolled_inr v e s :
  requireEnrolled v e = inr s → v = VSession s ∧ isStudentOf s (Some e) = true.
Proof.
  destruct v as [|s'| |]; simpl; try discriminate.
  destruct (existsb _ _) eqn:Hin; [|discriminate].
  intros [= ->]. auto.
Qed.

Ltac invH :=
  repeat match goal with
  | H : bindH _ _ = inr _ |- _ =>
      let x := fresh "x" in let Hx := fresh "Hx" in
      apply bindH_inr in H as (x & Hx & H); cbv beta in H
  | H : require _ _ _ = inr _ |- _ => apply require_inr in H
  | H : orThrow _ _ = inr _ |- _ => apply orThrow_inr in H
  | H : parseBody _ = inr _ |- _ => unfold parseBody in H
  | H : authenticate _ _ = inr _ |- _ => apply authenticate_inr in H
  | H : authenticate_email _ _ = inr (_, _) |- _ => apply authenticate_email_inr in H
  | H : authenticate_email _ _ = inr ?p |- _ => is_var p; destruct p
  | H : getSession _ _ = inr _ |- _ => apply getSession_inr in H
  | H : requireOrganizer _ _ = inr _ |- _ =>
      let E := fresh "E" in apply requireOrganizer_inr in H as [E H]; try subst
  | H : requireEnrolled _ _ = inr _ |- _ =>
      let E := fresh "E" in apply requireEnrolled_inr in H as [E H]; try subst
  | H : inl _ = inr _ |- _ => discriminate H
  | H : inr _ = inr _ |- _ => injection H as H; try subst
  | H : (_, _) = (_, _) |- _ => injection H as ??; try subst
  | H : match ?x with _ => _ end = inr _ |- _ => destruct x eqn:?; try discriminate H
  end.

(** ** The store invariant *)

Ltac in_list := repeat first [apply list_elem_of_here | apply list_elem_of_further].

Lemma store_ok_empty : store_ok ∅.
Proof. intros k v. by rewrite lookup_empty. Qed.

Lemma store_ok_set (st : Store) k v :
  store_ok st → k = key_of v → value_ok v → store_ok (kv.set k v st).
Proof.
  intros Hst -> Hv k' v'. unfold kv.set. rewrite lookup_insert.
  case_decide; [intros [= <-]; by subst|apply Hst].
Qed.

(** Lower case, letter by letter. *)
Lemma lower_char_idemp c : JS.lower_char (JS.lower_char c) = JS.lower_char c.
Proof. destruct c as [[] [] [] [] [] [] [] []]; reflexivity. Qed.

Lemma is_space_lower_char c : JS.is_space (JS.lower_char c) = JS.is_space c.
Proof. destruct c as [[] [] [] [] [] [] [] []]; reflexivity. Qed.

Lemma toLowerCase_idemp s : JS.toLowerCase (JS.toLowerCase s) = JS.toLowerCase s.
Proof. induction s as [|c s IH]; simpl; [done|]. by rewrite lower_char_idemp, IH. Qed.

Lemma toLowerCase_rev_app a b :
  JS.toLowerCase (String.rev_app a b) = String.rev_app (JS.toLowerCase a) (JS.toLowerCase b).
Proof. revert b. induction a as [|c a IH]; intros b; simpl; [done|]. by rewrite IH. Qed.

Lemma toLowerCase_trimStart s :
  JS.toLowerCase (JS.trimStart s) = JS.trimStart (JS.toLowerCase s).
Proof.
  induction s as [|c s IH]; simpl; [done|].
  rewrite is_space_lower_char. by destruct (JS.is_space c).
Qed.

Lemma toLowerCase_trim s : JS.toLowerCase (JS.trim s) = JS.trim (JS.toLowerCase s).
Proof.
  unfold JS.trim, JS.trimEnd, String.rev.
  by rewrite toLowerCase_rev_app, toLowerCase_trimStart, toLowerCase_rev_app,
    toLowerCase_trimStart.
Qed.

(** The emails of a sanitized roster are in lower case. *)
Lemma sanitized_roster_lower l roster :
  mapM sanitizeStudent l = Some roster →
  Forall (fun student => JS.toLowerCase (Student.email student) = Student.email student)
    roster.
Proof.
  intros H%mapM_Some_1. induction H as [|j st l roster Hj _ IH]; constructor; [|done].
  unfold sanitizeStudent in Hj. repeat case_match; simplify_eq. simpl.
  by rewrite toLowerCase_trim, toLowerCase_idemp.
Qed.

Lemma handle_store_ok r st : store_ok st → store_ok (snd (handle r st)).
Proof.
  intros Hst.
  destruct (handle r st) as [resp st'] eqn:H. simpl.
  destruct r; simpl in H;
    try (injection H as <- <-; exact Hst);
    unfold post_signup, post_session, post_roster, post_start, post_advance,
      post_complete, post_reopen, post_archive, post_reflection, post_feedback in H;
    apply respond_inv in H as [[_ ->]|H]; try exact Hst; invH.
  all: try match goal with
       | H : _ !! _ = Some (VSession ?s) |- _ => pose proof (Hst _ _ H) as [Hk [Hv Hl]]
       end.
  all: apply store_ok_set; try exact Hst; simpl; try done.
  all: try (rewrite Hk; reflexivity).
  all: try (split; [assumption|by eexists]).
  all: split; [|first [exact Hl | by eapply sanitized_roster_lower | constructor]].
  all: first [exact Hv | unfold VALID_SESSION_STATUSES; try case_match; in_list].
Qed.

Lemma run_store_ok rs st : store_ok st → store_ok (run rs st).
Proof.
  revert st. induction rs as [|r rs IH]; intros st Hst; [exact Hst|].
  apply IH, handle_store_ok, Hst.
Qed.

(** ** Phase transitions *)

(** What a transition that answers with the session did: it found the
    caller's own session under the key, in a phase its guard lets through,
    and wrote it back in the next phase. *)
Lemma transition_inv act a sid body now st r st' :
  handle (transition act a sid body now) st = (r, st') →
  st' = st ∨
  ∃ u s s',
    authenticated a u ∧ validateUUID sid = true ∧
    st !! ("session:" +:+ sid) = Some (VSession s) ∧
    Session.organizerId s = AuthUser.id u ∧
    st' = <["session:" +:+ sid := VSession s']> st ∧ r = SessionOk s' ∧
    match act with
    | start => Session.status s = "setup" ∧ Session.status s' = "reflection"
    | advance => Session.status s = "reflection" ∧ Session.status s' = "critique"
    | complete => Session.status s = "critique" ∧ Session.status s' = "complete"
    | reopen =>
        (Session.status s = "complete" ∨ Session.status s = "archived") ∧
        ∃ b phase, body = Some b ∧ Json.prop b "phase" = Some phase ∧
          Session.status s' =
            if Json.eq_str phase "reflection" then "reflection" else "critique"
    | archive => Session.status s' = "archived"
    end.
Proof.
  intros H.
  destruct act; simpl in H;
    unfold post_start, post_advance, post_complete, post_reopen, post_archive in H;
    apply respond_inv in H as [[_ ->]|H]; try (by left);
    right; invH; eexists _, _, _;
    do 4 (split; [eassumption|]); do 2 (split; [reflexivity|]); simpl.
  - split; [by apply String.eqb_eq|done].
  - split; [by apply String.eqb_eq|done].
  - split; [by apply String.eqb_eq|done].
  - split; [|eauto].
    match goal with
    | H : negb (negb (?status =? "complete")%string && _) = true |- _ =>
        destruct (String.eqb_spec status "complete"); [by left|];
        destruct (String.eqb_spec status "archived"); [by right|done]
    end.
  - done.
Qed.

Lemma eqb_not_in (s : string) (l : list string) (t : string) :
  s ∉ l → t ∈ l → (s =? t)%string = false.
Proof. intros Hs Ht. apply String.eqb_neq. by intros ->. Qed.

(** A transition asked for by the organizer of a session, in a phase that is
    not a source of the action, is answered with the refusal of that action
    and writes nothing. *)
Lemma transition_refused act a u sid body now st s :
  authenticated a u → validateUUID sid = true →
  (act = reopen → phase_accepted body = true) →
  st !! ("session:" +:+ sid) = Some (VSession s) →
  Session.organizerId s = AuthUser.id u →
  Session.status s ∈ VALID_SESSION_STATUSES →
  Session.status s ∉ spec_sources act →
  ∃ r, handle (transition act a sid body now) st = (r, st) ∧ InvalidTransition act r.
Proof.
  intros Ha Hsid Hbody Hs Ho Hv Hsrc.
  destruct act; simpl in *;
    unfold post_start, post_advance, post_complete, post_reopen, post_archive;
    try (apply (authenticate_inr a "Missing authorization token") in Ha;
         rewrite Ha; simpl; rewrite Hsid; simpl).
  1-3: unfold getSession, kv.get; rewrite Hs; simpl;
       rewrite Ho, String.eqb_refl; simpl;
       rewrite (eqb_not_in _ _ _ Hsrc) by in_list; simpl; eauto.
  - specialize (Hbody eq_refl). unfold phase_accepted in Hbody.
    destruct body as [b|]; [|discriminate]. simpl.
    destruct (Json.prop b "phase") as [phase|]; [|discriminate]. simpl.
    rewrite Hbody. simpl.
    unfold getSession, kv.get; rewrite Hs; simpl.
    rewrite Ho, String.eqb_refl; simpl.
    rewrite !(eqb_not_in _ _ _ Hsrc) by in_list. simpl. eauto.
  - contradiction.
Qed.

(** A transition leaves every session record as it was, or moves it along a
    row of the table. *)
Lemma transition_row act a sid body now st k s s' :
  store_ok st →
  st !! k = Some (VSession s) →
  snd (handle (transition act a sid body now) st) !! k = Some (VSession s') →
  s' = s ∨ spec_row (Session.status s) act (Session.status s').
Proof.
  intros Hst Hs Hs'.
  destruct (handle _ st) as [r st'] eqn:H. simpl in Hs'.
  apply transition_inv in H as [->|(u & s0 & s0' & _ & _ & Hs0 & _ & -> & _ & Hact)].
  { left. congruence. }
  rewrite lookup_insert in Hs'. case_decide as Hk.
  - subst k. right. assert (s0 = s) as -> by congruence.
    assert (s0' = s') as -> by congruence.
    destruct (Hst _ _ Hs) as [_ [Hv _]].
    unfold spec_row. destruct act; simpl.
    + destruct Hact as [-> ->]. split; in_list.
    + destruct Hact as [-> ->]. split; in_list.
    + destruct Hact as [-> ->]. split; in_list.
    + destruct Hact as [Hfrom (b & phase & _ & _ & ->)]. split.
      * destruct Hfrom as [-> | ->]; in_list.
      * case_match; in_list.
    + rewrite Hact. split; [exact Hv|in_list].
  - left. congruence.
Qed.

(** A transition asked for in a phase that is not a source of the action
    writes nothing, whoever asks. *)
Lemma transition_unchanged act a sid body now st s :
  store_ok st →
  st !! ("session:" +:+ sid) = Some (VSession s) →
  Session.status s ∉ spec_sources act →
  snd (handle (transition act a sid body now) st) = st.
Proof.
  intros Hst Hs Hsrc.
  destruct (handle _ st) as [r st'] eqn:H. simpl.
  apply transition_inv in H as [->|(u & s0 & s0' & _ & _ & Hs0 & _ & -> & _ & Hact)];
    [done|].
  exfalso. apply Hsrc. assert (s0 = s) as -> by congruence.
  destruct (Hst _ _ Hs) as [_ [Hv _]].
  destruct act; simpl.
  - destruct Hact as [-> _]. in_list.
  - destruct Hact as [-> _]. in_list.
  - destruct Hact as [-> _]. in_list.
  - destruct Hact as [[-> | ->] _]; in_list.
  - exact Hv.
Qed.

(** C1.  Along every run of the server from the empty store, the status of
    every session is one of setup, reflection, critique, complete, archived;
    a start, advance, complete, reopen or archive request leaves each session
    record as it was or moves its status along a row of the transition table
    of section 4.2; and a transition asked for while the session is in a phase
    that is not a source of the action writes nothing, whoever asks, and is
    answered to the organizer of the session with the refusal of that action
    (status 400). *)
Theorem session_status_machine (rs : list Request) :
  let st := run rs ∅ in
  (∀ k s, st !! k = Some (VSession s) → Session.status s ∈ VALID_SESSION_STATUSES) ∧
  (∀ act a sid body now k s s',
     st !! k = Some (VSession s) →
     snd (handle (transition act a sid body now) st) !! k = Some (VSession s') →
     s' = s ∨ spec_row (Session.status s) act (Session.status s')) ∧
  (∀ act a sid body now s,
     st !! ("session:" +:+ sid) = Some (VSession s) →
     Session.status s ∉ spec_sources act →
     snd (handle (transition act a sid body now) st) = st) ∧
  (∀ act a u sid body now s,
     authenticated a u → validateUUID sid = true →
     (act = reopen → phase_accepted body = true) →
     st !! ("session:" +:+ sid) = Some (VSession s) →
     Session.organizerId s = AuthUser.id u →
     Session.status s ∉ spec_sources act →
     ∃ r, handle (transition act a sid body now) st = (r, st) ∧ InvalidTransition act r).
Proof.
  intros st.
  assert (store_ok st) as Hst by apply run_store_ok, store_ok_empty.
  split; [|split; [|split]].
  - intros k s Hs. by destruct (Hst _ _ Hs) as [_ [Hv _]].
  - intros. by eapply transition_row.
  - intros. by eapply transition_unchanged.
  - intros act a u sid body now s Ha Hsid Hbody Hs Ho Hsrc.
    eapply transition_refused; try eassumption. by destruct (Hst _ _ Hs) as [_ [Hv _]].
Qed.

Lemma session_status_machine_witness :
  let st := run [Sample.create; Start (Sample.signedIn Sample.olivia) Sample.sid "t1"] ∅ in
  ∃ r, handle (Start (Sample.signedIn Sample.olivia) Sample.sid "t2") st = (r, st)
       ∧ r = Error "Session must be in setup phase to start" 400.
Proof.
  intros st.
  destruct (session_status_machine
              [Sample.create; Start (Sample.signedIn Sample.olivia) Sample.sid "t1"])
    as (_ & _ & _ & H).
  refine (H start (Sample.signedIn Sample.olivia) Sample.olivia Sample.sid None "t2"
            (Session.mk Sample.sid "u-olivia" (Some "olivia@x.com") "Demo" "reflection"
               [] "t0" (Some "t1") None None None None) _ _ _ _ _ _).
  - repeat split; [by eexists|done].
  - reflexivity.
  - discriminate.
  - vm_compute. reflexivity.
  - reflexivity.
  - simpl. rewrite list_elem_of_singleton. discriminate.
Defined.

(** ** Early exits are refusals *)

Lemma rejects_bind {A B} (m : Handler A) (k : A → Handler B) :
  rejects m → (∀ x, rejects (k x)) → rejects (bindH m k).
Proof. destruct m; simpl; auto. Qed.

Lemma rejects_require b e c : rejects (require b e c).
Proof. by destruct b. Qed.

Lemma rejects_orThrow {A} (o : option A) e : rejects (orThrow o e).
Proof. by destruct o. Qed.

Lemma rejects_parseBody body : rejects (parseBody body).
Proof. by destruct body. Qed.

Lemma rejects_authenticate a m : rejects (authenticate a m).
Proof. unfold authenticate. repeat case_match; done. Qed.

Lemma rejects_authenticate_email a m : rejects (authenticate_email a m).
Proof.
  apply rejects_bind; [apply rejects_authenticate|].
  intros u. repeat case_match; done.
Qed.

Lemma rejects_getSession sid st : rejects (getSession sid st).
Proof. unfold getSession. by case_match. Qed.

Lemma rejects_requireOrganizer v u : rejects (requireOrganizer v u).
Proof. unfold requireOrganizer. repeat case_match; done. Qed.

Lemma rejects_requireEnrolled v e : rejects (requireEnrolled v e).
Proof. unfold requireEnrolled. repeat case_match; done. Qed.

Ltac rejects_step :=
  first
    [ apply rejects_bind; [|intros ?]
    | apply rejects_require
    | apply rejects_orThrow
    | apply rejects_parseBody
    | apply rejects_authenticate
    | apply rejects_authenticate_email
    | apply rejects_getSession
    | apply rejects_requireOrganizer
    | apply rejects_requireEnrolled
    | exact I
    | progress cbv beta zeta
    | case_match ].

Lemma respond_success (st : Store) h r st' :
  rejects h → respond st h = (r, st') → ¬ is_error r → h = inr (r, st').
Proof.
  intros Hrej [[-> ->]|H]%respond_inv Hr; [|done]. by destruct Hr.
Qed.

(** ** Session creation *)

Lemma post_session_inv a body uuid now st session st' :
  post_session a body uuid now st = (SessionOk session, st') →
  ∃ u b name,
    authenticated a u ∧ body = Some b ∧ Json.prop b "name" = Some (JStr name) ∧
    validateSessionName (JStr name) = true ∧
    session = Session.mk uuid (AuthUser.id u) (AuthUser.email u) (sanitizeString name)
                "setup" [] now None None None None None ∧
    st' = <["session:" +:+ uuid := VSession session]> st.
Proof.
  unfold post_session. intros H.
  apply respond_success in H; [|repeat rejects_step|simpl; tauto].
  invH. subst. eauto 10.
Qed.

Lemma trim_length_le s : String.length (JS.trim s) ≤ String.length s.
Proof.
  assert (Hrev : ∀ a b, String.length (String.rev_app a b) = String.length a + String.length b).
  { induction a as [|c a IH]; intros b; simpl; [done|]. rewrite IH. simpl. lia. }
  assert (Hstart : ∀ t, String.length (JS.trimStart t) ≤ String.length t).
  { induction t as [|c t IH]; simpl; [done|]. case_match; simpl; lia. }
  unfold JS.trim, JS.trimEnd, String.rev. rewrite Hrev. simpl.
  etrans; [|apply Hstart]. rewrite Nat.add_0_r.
  etrans; [apply Hstart|]. rewrite Hrev. simpl. lia.
Qed.

(** What the handler of [POST /session] promises apart from the role of the
    caller: it answers with a session only to an authenticated caller and for
    a name of 1 to 200 characters, the session is in phase setup, a name that
    fails the check is answered 400 and a caller without identity 401. *)
Lemma post_session_contract a body uuid now st :
  (∀ session st', post_session a body uuid now st = (SessionOk session, st') →
     (∃ u, authenticated a u) ∧
     (∃ b name, body = Some b ∧ Json.prop b "name" = Some (JStr name) ∧
                1 ≤ String.length name ≤ 200) ∧
     Session.status session = "setup" ∧
     st' !! ("session:" +:+ uuid) = Some (VSession session)) ∧
  (∀ u b name, authenticated a u → body = Some b → Json.prop b "name" = Some name →
     validateSessionName name = false →
     post_session a body uuid now st =
       (Error "Session name must be between 1 and 200 characters" 400, st)) ∧
  ((∀ u, ¬ authenticated a u) →
     ∃ e, post_session a body uuid now st = (Error e 401, st)).
Proof.
  split; [|split].
  - intros session st' H.
    apply post_session_inv in H as (u & b & name & Ha & -> & Hname & Hv & -> & ->).
    split; [eauto|]. split; [|split; [done|by rewrite lookup_insert_eq]].
    exists b, name. do 2 (split; [done|]).
    unfold validateSessionName in Hv. apply andb_prop in Hv as [H1 H2].
    apply Nat.leb_le in H1, H2.
    pose proof (trim_length_le name). lia.
  - intros u b name Ha -> Hname Hv. unfold post_session.
    apply (authenticate_inr a "Missing authorization token") in Ha.
    rewrite Ha. simpl. rewrite Hname. simpl. by rewrite Hv.
  - intros Hno. unfold post_session.
    destruct (authenticate a "Missing authorization token") as [r|u] eqn:Ha.
    + simpl. unfold authenticate in Ha. repeat case_match; simplify_eq; eauto.
    + apply authenticate_inr in Ha. by destruct (Hno u).
Qed.

(** The handler never reads the role of the caller. *)
Lemma post_session_any_role a u role body uuid now st :
  user a = Some u →
  post_session (mkAuth (authorization a) (authError a)
                  (Some (AuthUser.mk (AuthUser.id u) (AuthUser.email u) role)))
               body uuid now st
  = post_session a body uuid now st.
Proof.
  intros Hu. unfold post_session, authenticate, accessToken. simpl. rewrite Hu.
  repeat case_match; simplify_eq/=; try done.
Qed.

(** C4.  A caller whose declared role is student, not organizer, posts a
    session name and the handler creates the session (in phase setup, with
    the student as its organizer): session creation is not kept to callers
    with an organizer identity. *)
Theorem session_created_for_student :
  AuthUser.role Sample.alice = "student" ∧
  ∃ session st',
    post_session (Sample.signedIn Sample.alice) (Some (JObj [("name", JStr "Demo")]))
      Sample.sid "t0" ∅ = (SessionOk session, st') ∧
    Session.status session = "setup" ∧
    Session.organizerId session = AuthUser.id Sample.alice ∧
    st' !! ("session:" +:+ Sample.sid) = Some (VSession session).
Proof.
  split; [reflexivity|]. eexists _, _. split; [reflexivity|].
  split; [reflexivity|]. split; [reflexivity|]. by vm_compute.
Qed.

(** ** Roster replacement *)

Lemma post_roster_inv a sid body st session st' :
  post_roster a sid body st = (SessionOk session, st') →
  ∃ u b l s roster,
    authenticated a u ∧ validateUUID sid = true ∧ body = Some b ∧
    Json.prop b "students" = Some (JArr l) ∧ validateStudentArray (JArr l) = true ∧
    st !! ("session:" +:+ sid) = Some (VSession s) ∧
    Session.organizerId s = AuthUser.id u ∧
    mapM sanitizeStudent l = Some roster ∧
    session = Session.set_students roster s ∧
    st' = <["session:" +:+ sid := VSession session]> st.
Proof.
  unfold post_roster. intros H.
  apply respond_success in H; [|repeat rejects_step|simpl; tauto].
  invH. subst. eauto 15.
Qed.

Lemma validateStudent_sanitize j :
  validateStudent j = true → is_Some (sanitizeStudent j).
Proof.
  unfold validateStudent, sanitizeStudent.
  destruct j as [| | | | | |l]; simpl; try done.
  unfold validateEmail, validateName.
  destruct (Json.assoc "email" l); try done.
  destruct (Json.assoc "name" l); try done; by rewrite andb_false_r.
Qed.

Lemma validated_roster_sanitize l :
  forallb validateStudent l = true →
  ∃ roster, mapM sanitizeStudent l = Some roster ∧ length roster = length l.
Proof.
  intros Hl.
  assert (is_Some (mapM sanitizeStudent l)) as [roster Hr].
  { apply mapM_is_Some, Forall_forall. intros j Hj.
    apply validateStudent_sanitize.
    rewrite forallb_forall in Hl. by apply Hl, list_elem_of_In. }
  exists roster. split; [done|]. symmetry. by eapply length_mapM.
Qed.

(** The entry of the roster made from a submitted student. *)
Lemma sanitizeStudent_entry fields email name :
  Json.assoc "email" fields = JStr email → Json.assoc "name" fields = JStr name →
  sanitizeStudent (JObj fields)
  = Some (Student.mk (JS.trim (JS.toLowerCase email)) (sanitizeString name)).
Proof. intros He Hn. unfold sanitizeStudent. by rewrite He, Hn. Qed.

(** C7.  When a roster R1 and then a roster R2 are submitted for a session
    and both are accepted, the roster of the session is the list of the
    entries of R2, each with its email in lower case and trimmed and its name
    sanitized: nothing of R1 is left, and the rest of the record is as R1's
    request left it. *)
Theorem roster_replacement_overwrites a1 a2 sid body1 body2 st s1 st1 s2 st2 :
  post_roster a1 sid body1 st = (SessionOk s1, st1) →
  post_roster a2 sid body2 st1 = (SessionOk s2, st2) →
  ∃ b2 R2 roster2,
    body2 = Some b2 ∧ Json.prop b2 "students" = Some (JArr R2) ∧
    mapM sanitizeStudent R2 = Some roster2 ∧
    Session.students s2 = roster2 ∧
    s2 = Session.set_students roster2 s1 ∧
    st2 !! ("session:" +:+ sid) = Some (VSession s2).
Proof.
  intros H1 H2.
  apply post_roster_inv in H1
    as (u1 & b1 & l1 & s & r1 & _ & _ & _ & _ & _ & _ & _ & _ & -> & ->).
  apply post_roster_inv in H2
    as (u2 & b2 & l2 & s' & r2 & _ & _ & -> & Hb2 & _ & Hs' & _ & Hr2 & -> & ->).
  rewrite lookup_insert_eq in Hs'. injection Hs' as <-.
  exists b2, l2, r2. do 4 (split; [done|]). split; [done|].
  by rewrite lookup_insert_eq.
Qed.

Lemma roster_replacement_overwrites_witness :
  ∃ b2 R2 roster2,
    Sample.rosterBody Sample.R2 = Some b2 ∧ Json.prop b2 "students" = Some (JArr R2) ∧
    mapM sanitizeStudent R2 = Some roster2 ∧
    Session.students Sample.demo2 = roster2 ∧
    Sample.demo2 = Session.set_students roster2 Sample.demo1 ∧
    Sample.st2 !! ("session:" +:+ Sample.sid) = Some (VSession Sample.demo2).
Proof.
  apply (roster_replacement_overwrites (Sample.signedIn Sample.olivia)
           (Sample.signedIn Sample.olivia) Sample.sid (Sample.rosterBody Sample.R1)
           (Sample.rosterBody Sample.R2) Sample.st0 Sample.demo1 Sample.st1
           Sample.demo2 Sample.st2).
  - apply pair_eq; [vm_compute; reflexivity|reflexivity].
  - apply pair_eq; [vm_compute; reflexivity|reflexivity].
Defined.

(** The roster made from a submitted list holds, entry by entry and in
    order, the email in lower case and trimmed and the name sanitized. *)
Lemma sanitized_roster_entries l roster :
  mapM sanitizeStudent l = Some roster →
  Forall2 (fun j student =>
             ∃ fields email name,
               j = JObj fields ∧ Json.assoc "email" fields = JStr email ∧
               Json.assoc "name" fields = JStr name ∧
               Student.email student = JS.trim (JS.toLowerCase email) ∧
               Student.name student = sanitizeString name)
    l roster.
Proof.
  intros H%mapM_Some_1. induction H as [|j student l roster Hj _ IH]; constructor; [|done].
  unfold sanitizeStudent in Hj.
  destruct j as [| | | | | |fields]; try discriminate.
  destruct (Json.assoc "email" fields) as [| | | |email| |] eqn:He; try discriminate.
  destruct (Json.assoc "name" fields) as [| | | |name| |] eqn:Hn; try discriminate.
  injection Hj as <-. by exists fields, email, name.
Qed.

(** C9.  For an authenticated caller, a well-formed session id and the
    caller's own session: a submitted list of at most 500 entries, so one of
    exactly 500, each with a valid email and name, is accepted, and the
    session stored afterwards has for roster the submitted entries, one for
    one and in order, each with its email in lower case and trimmed and its
    name sanitized, the rest of the record being as it was; a list of 501
    entries or more is answered 400 (invalid students array) and the store, so
    the roster in it, stays as it was. *)
Theorem roster_limit a u sid b l st s :
  authenticated a u → validateUUID sid = true →
  Json.prop b "students" = Some (JArr l) →
  st !! ("session:" +:+ sid) = Some (VSession s) →
  Session.organizerId s = AuthUser.id u →
  (length l ≤ 500 → forallb validateStudent l = true →
   ∃ stored st',
     post_roster a sid (Some b) st = (SessionOk stored, st') ∧
     st' = <["session:" +:+ sid := VSession stored]> st ∧
     st' !! ("session:" +:+ sid) = Some (VSession stored) ∧
     length (Session.students stored) = length l ∧
     Forall2 (fun j student =>
                ∃ fields email name,
                  j = JObj fields ∧ Json.assoc "email" fields = JStr email ∧
                  Json.assoc "name" fields = JStr name ∧
                  Student.email student = JS.trim (JS.toLowerCase email) ∧
                  Student.name student = sanitizeString name)
       l (Session.students stored) ∧
     same_identity s stored ∧ Session.status stored = Session.status s) ∧
  (500 < length l →
   post_roster a sid (Some b) st
   = (Error "Invalid students array. Each student must have valid email and name." 400,
      st) ∧
   snd (post_roster a sid (Some b) st) !! ("session:" +:+ sid) = Some (VSession s)).
Proof.
  intros Ha Hsid Hb Hs Ho.
  apply (authenticate_inr a "Missing authorization token") in Ha.
  split.
  - intros Hlen Hall.
    destruct (validated_roster_sanitize l Hall) as (roster & Hr & Hrl).
    exists (Session.set_students roster s),
      (<["session:" +:+ sid := VSession (Session.set_students roster s)]> st).
    split; [|split; [reflexivity|]].
    { unfold post_roster. rewrite Ha. simpl. rewrite Hsid. simpl. rewrite Hb. simpl.
      apply Nat.ltb_ge in Hlen. rewrite Hlen, Hall. simpl.
      unfold getSession, kv.get. rewrite Hs. simpl.
      rewrite Ho, String.eqb_refl. simpl. by rewrite Hr. }
    split; [by rewrite lookup_insert_eq|].
    cbn [Session.set_students Session.students Session.status].
    split; [done|]. split; [by apply sanitized_roster_entries|].
    by repeat split.
  - intros Hlen.
    assert (post_roster a sid (Some b) st
            = (Error "Invalid students array. Each student must have valid email and name."
                 400, st)) as ->; [|done].
    unfold post_roster. rewrite Ha. simpl. rewrite Hsid. simpl. rewrite Hb. simpl.
    apply Nat.ltb_lt in Hlen. by rewrite Hlen.
Qed.

Lemma roster_limit_witness :
  let full :=
    Sample.studentJson Latin1.E_acute (Latin1.nbsp +:+ "Eloise" +:+ Latin1.nbsp)
    :: repeat (Sample.studentJson "a@x.com" "A") 499 in
  ∃ stored st',
    post_roster (Sample.signedIn Sample.olivia) Sample.sid (Sample.rosterBody full)
      Sample.st0 = (SessionOk stored, st') ∧
    st' = <["session:" +:+ Sample.sid := VSession stored]> Sample.st0 ∧
    st' !! ("session:" +:+ Sample.sid) = Some (VSession stored) ∧
    length (Session.students stored) = length full ∧
    Forall2 (fun j student =>
               ∃ fields email name,
                 j = JObj fields ∧ Json.assoc "email" fields = JStr email ∧
                 Json.assoc "name" fields = JStr name ∧
                 Student.email student = JS.trim (JS.toLowerCase email) ∧
                 Student.name student = sanitizeString name)
      full (Session.students stored) ∧
    same_identity Sample.demo stored ∧ Session.status stored = Session.status Sample.demo.
Proof.
  intros full.
  refine (proj1 (roster_limit (Sample.signedIn Sample.olivia) Sample.olivia Sample.sid
                   (JObj [("students", JArr full)]) full Sample.st0 Sample.demo
                   _ _ _ _ _) _ _).
  - repeat split; [by eexists|done].
  - reflexivity.
  - reflexivity.
  - vm_compute. reflexivity.
  - reflexivity.
  - subst full. cbn [length]. rewrite repeat_length. lia.
  - vm_compute. reflexivity.
Defined.

(** ** Reflections *)

Lemma post_reflection_inv a sid body now st reflection st' :
  post_reflection a sid body now st = (ReflectionOk reflection, st') →
  ∃ u e b responses screenshots completed s,
    authenticated a u ∧ AuthUser.email u = Some e ∧ validateUUID sid = true ∧
    body = Some b ∧ Json.prop b "responses" = Some responses ∧
    Json.prop b "screenshots" = Some screenshots ∧
    Json.prop b "completed" = Some completed ∧
    st !! ("session:" +:+ sid) = Some (VSession s) ∧
    isStudentOf s (Some e) = true ∧
    reflection =
      Reflection.mk sid e (sanitizeResponses responses)
        (if Json.truthy screenshots then screenshots else JArr [])
        (JBool (Json.is_true completed)) now ∧
    st' = <["reflection:" +:+ sid +:+ ":" +:+ e := VReflection reflection]> st.
Proof.
  unfold post_reflection. intros H.
  apply respond_success in H; [|repeat rejects_step|simpl; tauto].
  invH. destruct Hx as (Ha & He & _). simpl in *. subst.
  eexists _, _, _, _, _, _, _. repeat (split; [eassumption || reflexivity|]).
  reflexivity.
Qed.

(** C10.  The Reflection record that a successful save stores has a boolean
    in its completed field, and that boolean is true exactly when the body of
    the request has the JSON boolean true as its completed property; any other
    value there, and no value, stores false. *)
Theorem reflection_completed_strict a sid body now st reflection st' :
  post_reflection a sid body now st = (ReflectionOk reflection, st') →
  ∃ b completed flag,
    body = Some b ∧ Json.prop b "completed" = Some completed ∧
    st' !! key_of (VReflection reflection) = Some (VReflection reflection) ∧
    Reflection.completed reflection = JBool flag ∧
    (flag = true ↔ completed = JBool true).
Proof.
  intros H.
  apply post_reflection_inv in H
    as (u & e & b & responses & screenshots & completed & s & _ & _ & _ & -> & _ & _
        & Hc & _ & _ & -> & ->).
  exists b, completed, (Json.is_true completed). simpl.
  do 2 (split; [done|]). split; [by rewrite lookup_insert_eq|]. split; [done|].
  destruct completed as [| |[]| | | |]; simpl; split; congruence.
Qed.

Lemma reflection_completed_strict_witness :
  ∃ b completed flag,
    Sample.reflectionBody (JStr "true") = Some b ∧
    Json.prop b "completed" = Some completed ∧
    snd (post_reflection (Sample.signedIn Sample.alice) Sample.sid
           (Sample.reflectionBody (JStr "true")) "t2" Sample.stE)
      !! key_of (VReflection (Sample.reflectionOfAlice (JStr "true")))
    = Some (VReflection (Sample.reflectionOfAlice (JStr "true"))) ∧
    Reflection.completed (Sample.reflectionOfAlice (JStr "true")) = JBool flag ∧
    (flag = true ↔ completed = JBool true).
Proof.
  apply (reflection_completed_strict (Sample.signedIn Sample.alice) Sample.sid
           (Sample.reflectionBody (JStr "true")) "t2" Sample.stE).
  apply pair_eq; [vm_compute; reflexivity|reflexivity].
Defined.

(** ** Feedback *)

Lemma prop_total b k x k' : Json.prop b k = Some x → is_Some (Json.prop b k').
Proof. destruct b; simpl; try discriminate; eauto. Qed.

(** C5.  A caller with email X who submits feedback whose recipient is X, up
    to the case of letters, is answered 400 and nothing is stored, whatever
    the session, the store and the rest of the request; with a well-formed
    session id and recipient the answer is the refusal of self-feedback. *)
Theorem self_feedback_rejected a u X sid b recipient now st :
  authenticated a u → AuthUser.email u = Some X → X ≠ EmptyString →
  Json.prop b "toStudent" = Some (JStr recipient) →
  JS.toLowerCase recipient = JS.toLowerCase X →
  ∃ error,
    post_feedback a sid (Some b) now st = (Error error 400, st) ∧
    (validateUUID sid = true → validateEmail (JStr recipient) = true →
     error = "Cannot submit feedback to yourself").
Proof.
  intros Ha He HX Hto Hself.
  apply (authenticate_inr a "Missing access token") in Ha.
  unfold post_feedback, authenticate_email. rewrite Ha. simpl. rewrite He.
  destruct (String.eqb_spec X EmptyString) as [|_]; [done|]. simpl.
  destruct (validateUUID sid); simpl; [|eexists; split; [done|discriminate]].
  rewrite Hto. simpl.
  destruct (prop_total _ _ _ "critiques" Hto) as [c ->].
  destruct (prop_total _ _ _ "questions" Hto) as [q ->]. simpl.
  destruct (EMAIL_REGEX recipient && (String.length recipient <=? 254)); simpl;
    [|eexists; split; [done|discriminate]].
  rewrite Hself, String.eqb_refl. simpl. eauto.
Qed.

Lemma self_feedback_rejected_witness :
  ∃ error,
    post_feedback (Sample.signedIn Latin1.eloise) Sample.sid
      (Sample.feedbackBody Latin1.E_acute "Nice" "Why?") "t3" Latin1.st
    = (Error error 400, Latin1.st) ∧
    (validateUUID Sample.sid = true → validateEmail (JStr Latin1.E_acute) = true →
     error = "Cannot submit feedback to yourself").
Proof.
  apply (self_feedback_rejected (Sample.signedIn Latin1.eloise) Latin1.eloise
           Latin1.e_acute).
  - repeat split; [by eexists|done].
  - reflexivity.
  - discriminate.
  - reflexivity.
  - reflexivity.
Defined.

(** ** The reply of the dialogue service *)

Lemma append_cons c s t : String c s +:+ t = String c (s +:+ t).
Proof. reflexivity. Qed.

Lemma append_nil t : EmptyString +:+ t = t.
Proof. reflexivity. Qed.

Lemma prefix_split pat s : String.prefix pat s = true ↔ ∃ b, s = pat +:+ b.
Proof.
  revert s. induction pat as [|c pat IH]; intros s.
  - split; [intros _; exists s; reflexivity|by destruct s].
  - destruct s as [|d s]; simpl.
    + split; [discriminate|intros [b Hb]; rewrite append_cons in Hb; discriminate].
    + destruct (ascii_dec c d) as [->|Hne].
      * rewrite IH. split; intros [b Hb]; exists b; rewrite append_cons in *; congruence.
      * split; [discriminate|]. intros [b Hb]. rewrite append_cons in Hb. congruence.
Qed.

(** [includes] is true exactly of the strings that contain the pattern. *)
Lemma includes_spec s pat :
  JS.includes s pat = true ↔ ∃ a b, s = a +:+ pat +:+ b.
Proof.
  induction s as [|c s IH]; cbn [JS.includes].
  - rewrite orb_false_r. split.
    + intros [b Hb]%prefix_split. by exists EmptyString, b.
    + intros ([|d a] & b & Hab); [|rewrite append_cons in Hab; discriminate].
      apply prefix_split. by exists b.
  - rewrite orb_true_iff, IH. split.
    + intros [[b Hb]%prefix_split|(a & b & ->)].
      * by exists EmptyString, b.
      * by exists (String c a), b.
    + intros ([|d a] & b & Hab).
      * left. apply prefix_split. by exists b.
      * right. rewrite append_cons in Hab. injection Hab as -> ->. eauto.
Qed.

(** What the handler answers for a reply that carries a text. *)
Lemma ai_reflection_reply_text text :
  text ≠ EmptyString →
  ai_reflection_reply (Sample.dialogueReply text)
  = AiOk (JS.trim (JS.replace text REFLECTION_COMPLETE EmptyString))
         (JS.includes text REFLECTION_COMPLETE).
Proof.
  intros Ht. unfold ai_reflection_reply, Sample.dialogueReply. simpl.
  destruct (String.eqb_spec text EmptyString) as [|_]; [done|]. simpl.
  by destruct text.
Qed.

(** C8.  For a reply that carries the sentinel twice the handler sets
    isComplete, removes the first sentinel and returns a message that still
    contains the second one. *)
Theorem sentinel_left_in_message :
  ai_reflection_reply (Sample.dialogueReply Sample.twice)
  = AiOk "Well done.  [REFLECTION_COMPLETE]" true ∧
  JS.includes "Well done.  [REFLECTION_COMPLETE]" REFLECTION_COMPLETE = true.
Proof. split; reflexivity. Qed.

(** ** Reading a session *)

(** [GET /session/:id] answers with the session exactly to its organizer and
    to the callers whose email is, letter for letter, the email of an entry of
    the roster; every other authenticated caller is answered 403. *)
Lemma get_session_spec a u sid st s :
  authenticated a u → validateUUID sid = true →
  st !! ("session:" +:+ sid) = Some (VSession s) →
  get_session a sid st =
    if (Session.organizerId s =? AuthUser.id u)%string || isStudentOf s (AuthUser.email u)
    then SessionDetail s else Error "Forbidden" 403.
Proof.
  intros Ha Hsid Hs.
  apply (authenticate_inr a "Missing authorization token") in Ha.
  unfold get_session. rewrite Ha. simpl. rewrite Hsid. simpl.
  unfold getSession, kv.get. rewrite Hs. simpl.
  destruct (_ =? _)%string; simpl; [done|].
  by destruct (isStudentOf s (AuthUser.email u)).
Qed.

(** C3.  The identity provider holds every email in lower case (signup
    creates each identity with [email.toLowerCase().trim()]), and so does
    every roster of a store the server has written.  For such a caller and
    store, [GET /session/:id] answers with the session exactly when the caller
    is the organizer of the session or the caller's email matches the email
    of a roster entry when the case of letters is ignored, and every other
    authenticated caller is answered 403: on these emails the letter-for-letter
    test of the handler and the test that ignores case agree. *)
Theorem session_detail_access a u sid st s :
  store_ok st → authenticated a u → validateUUID sid = true →
  st !! ("session:" +:+ sid) = Some (VSession s) →
  (∀ e, AuthUser.email u = Some e → JS.toLowerCase e = e) →
  let onRoster :=
    match AuthUser.email u with
    | Some e => spec_onRoster s e
    | None => false
    end in
  (get_session a sid st = SessionDetail s ↔
   Session.organizerId s = AuthUser.id u ∨ onRoster = true) ∧
  (¬ (Session.organizerId s = AuthUser.id u ∨ onRoster = true) →
   get_session a sid st = Error "Forbidden" 403).
Proof.
  intros Hst Ha Hsid Hs Hlow onRoster.
  rewrite (get_session_spec a u sid st s) by done.
  destruct (Hst _ _ Hs) as [_ [_ Hl]].
  assert (isStudentOf s (AuthUser.email u) = onRoster) as ->.
  { unfold onRoster, isStudentOf, spec_onRoster.
    destruct (AuthUser.email u) as [e|]; [|done].
    specialize (Hlow e eq_refl).
    induction Hl as [|x l Hx _ IH]; simpl; [done|].
    by rewrite IH, Hx, Hlow. }
  destruct (String.eqb_spec (Session.organizerId s) (AuthUser.id u)) as [Ho|Ho];
    cbn [orb].
  - split; [|intros []; by left]. split; [by left|done].
  - destruct onRoster; split.
    + split; [by right|done].
    + intros []. by right.
    + split; [discriminate|]. by intros [|].
    + done.
Qed.

Lemma session_detail_access_witness :
  (get_session (Sample.signedIn Latin1.eloise) Sample.sid Latin1.st
   = SessionDetail Latin1.demo ↔
   Session.organizerId Latin1.demo = AuthUser.id Latin1.eloise
   ∨ spec_onRoster Latin1.demo Latin1.e_acute = true) ∧
  (¬ (Session.organizerId Latin1.demo = AuthUser.id Latin1.eloise
      ∨ spec_onRoster Latin1.demo Latin1.e_acute = true) →
   get_session (Sample.signedIn Latin1.eloise) Sample.sid Latin1.st
   = Error "Forbidden" 403).
Proof.
  apply (session_detail_access (Sample.signedIn Latin1.eloise) Latin1.eloise Sample.sid
           Latin1.st Latin1.demo).
  - apply run_store_ok, store_ok_empty.
  - repeat split; [by eexists|done].
  - reflexivity.
  - vm_compute. reflexivity.
  - intros e [= <-]. reflexivity.
Defined.

(** ** Records of the store, by key *)

Lemma filter_none {A} (P : A → bool) (l : list A) :
  (∀ y, y ∈ l → P y = false) → List.filter P l = [].
Proof.
  induction l as [|a l IH]; intros H; simpl; [done|].
  rewrite (H a) by apply list_elem_of_here.
  apply IH. intros y Hy. apply H. by apply list_elem_of_further.
Qed.

Lemma filter_unique {A} (P : A → bool) (l : list A) x :
  NoDup l → x ∈ l → P x = true → (∀ y, y ∈ l → P y = true → y = x) →
  List.filter P l = [x].
Proof.
  induction 1 as [|a l Ha Hl IH]; intros Hx HPx Hall.
  { by apply elem_of_nil in Hx. }
  simpl. apply elem_of_cons in Hx as [<-|Hx].
  - rewrite HPx. f_equal. apply filter_none. intros y Hy.
    destruct (P y) eqn:HPy; [|done].
    assert (y = x) as -> by (apply Hall; [by apply list_elem_of_further|done]).
    done.
  - destruct (P a) eqn:HPa.
    + assert (a = x) as -> by (apply Hall; [apply list_elem_of_here|done]). done.
    + apply IH; [done..|]. intros y Hy. apply Hall. by apply list_elem_of_further.
Qed.

Lemma filter_map_snd {A B} (P : B → bool) (l : list (A * B)) :
  List.filter P (map snd l) = map snd (List.filter (fun e => P (snd e)) l).
Proof.
  induction l as [|e l IH]; simpl; [done|].
  destruct (P (snd e)); simpl; by rewrite IH.
Qed.

(** A record that is the only one to answer a test, by its key, is what the
    test finds among the records of the store. *)
Lemma record_unique (st : Store) (P : Value → bool) v :
  store_ok st → st !! key_of v = Some v → P v = true →
  (∀ v', P v' = true → key_of v' = key_of v) →
  List.filter P (records st) = [v].
Proof.
  intros Hst Hv HP Hkey. unfold records. rewrite filter_map_snd.
  rewrite (filter_unique _ _ (key_of v, v)); [done| | |done|].
  - apply NoDup_map_to_list.
  - by apply elem_of_map_to_list.
  - intros [k' v'] Hin HP'. simpl in HP'.
    apply elem_of_map_to_list in Hin.
    destruct (Hst _ _ Hin) as [-> _].
    rewrite (Hkey _ HP') in Hin |- *. congruence.
Qed.

Lemma post_feedback_inv a sid body now st feedback st' :
  post_feedback a sid body now st = (FeedbackOk feedback, st') →
  ∃ u e b toStudent critiques questions s,
    authenticated a u ∧ AuthUser.email u = Some e ∧ validateUUID sid = true ∧
    body = Some b ∧ Json.prop b "toStudent" = Some (JStr toStudent) ∧
    Json.prop b "critiques" = Some critiques ∧
    Json.prop b "questions" = Some questions ∧
    validateTextContent critiques 5000 = true ∧
    validateTextContent questions 2000 = true ∧
    st !! ("session:" +:+ sid) = Some (VSession s) ∧
    isStudentOf s (Some e) = true ∧
    isStudentOf s (Some (JS.toLowerCase toStudent)) = true ∧
    feedback =
      Feedback.mk sid e (JS.toLowerCase toStudent)
        (sanitizeString (textOrEmpty critiques))
        (sanitizeString (textOrEmpty questions)) now ∧
    st' = <[key_of (VFeedback feedback) := VFeedback feedback]> st.
Proof.
  unfold post_feedback. intros H.
  apply respond_success in H; [|repeat rejects_step|simpl; tauto].
  invH. destruct Hx as (Ha & He & _). simpl in *. subst.
  eexists _, _, _, _, _, _, _. repeat (split; [eassumption || reflexivity|]).
  reflexivity.
Qed.

(** C6.  When the same author submits feedback to the same recipient of the
    same session twice in a row and both submissions are accepted, the store
    holds exactly one Feedback record for that ordered pair afterwards: the
    record of the second submission, with the sanitized texts and the time of
    that submission. *)
Theorem feedback_resubmission_overwrites a1 a2 sid body1 body2 now1 now2 st f1 st1 f2 st2 :
  store_ok st →
  post_feedback a1 sid body1 now1 st = (FeedbackOk f1, st1) →
  post_feedback a2 sid body2 now2 st1 = (FeedbackOk f2, st2) →
  Feedback.fromStudent f1 = Feedback.fromStudent f2 →
  Feedback.toStudent f1 = Feedback.toStudent f2 →
  pair_feedback sid (Feedback.fromStudent f2) (Feedback.toStudent f2) st2 = [VFeedback f2] ∧
  ∃ b2 toStudent critiques questions,
    body2 = Some b2 ∧ Json.prop b2 "toStudent" = Some (JStr toStudent) ∧
    Json.prop b2 "critiques" = Some (JStr critiques) ∧
    Json.prop b2 "questions" = Some (JStr questions) ∧
    f2 = Feedback.mk sid (Feedback.fromStudent f1) (Feedback.toStudent f1)
           (sanitizeString critiques) (sanitizeString questions) now2.
Proof.
  intros Hst H1 H2 Hfrom Hto.
  assert (store_ok st2) as Hst2.
  { pose proof (handle_store_ok (SubmitFeedback a1 sid body1 now1) st Hst) as Hst1.
    simpl in Hst1. rewrite H1 in Hst1.
    pose proof (handle_store_ok (SubmitFeedback a2 sid body2 now2) _ Hst1) as Hst2.
    simpl in Hst2. by rewrite H2 in Hst2. }
  apply post_feedback_inv in H2
    as (u & e & b & to & c & q & s & _ & _ & Hsid & -> & Hpto & Hpc & Hpq & Hc & Hq
        & _ & _ & _ & Hf2 & ->).
  split.
  - apply record_unique; [done|by rewrite lookup_insert_eq|..].
    + rewrite Hf2. simpl. by rewrite !String.eqb_refl.
    + intros [| | |f] Hf; simpl in Hf; try discriminate.
      apply andb_prop in Hf as [[H3 H4]%andb_prop H5].
      apply String.eqb_eq in H3, H4, H5. simpl. rewrite H3, H4, H5.
      rewrite Hf2. reflexivity.
  - destruct c as [| | | |c| |]; try discriminate.
    destruct q as [| | | |q| |]; try discriminate.
    exists b, to, c, q. do 4 (split; [done|]).
    rewrite Hfrom, Hto, Hf2. reflexivity.
Qed.

Lemma feedback_resubmission_overwrites_witness :
  pair_feedback Sample.sid "bob@x.com" "alice@x.com" Sample.stF2
  = [VFeedback Sample.second] ∧
  ∃ b2 toStudent critiques questions,
    Sample.feedbackBody "Alice@X.com" " Second " "How?" = Some b2 ∧
    Json.prop b2 "toStudent" = Some (JStr toStudent) ∧
    Json.prop b2 "critiques" = Some (JStr critiques) ∧
    Json.prop b2 "questions" = Some (JStr questions) ∧
    Sample.second = Feedback.mk Sample.sid "bob@x.com" "alice@x.com"
                       (sanitizeString critiques) (sanitizeString questions) "t4".
Proof.
  apply (feedback_resubmission_overwrites (Sample.signedIn Sample.bob)
           (Sample.signedIn Sample.bob) Sample.sid
           (Sample.feedbackBody "alice@x.com" "First" "Why?")
           (Sample.feedbackBody "Alice@X.com" " Second " "How?") "t3" "t4"
           Sample.stE Sample.first Sample.stF1 Sample.second Sample.stF2).
  - apply run_store_ok, store_ok_empty.
  - apply pair_eq; [vm_compute; reflexivity|reflexivity].
  - apply pair_eq; [vm_compute; reflexivity|reflexivity].
  - reflexivity.
  - reflexivity.
Defined.

(** ** Scanning the store by prefix *)

Lemma hex_run_length n s r :
  hex_run n s = Some r → String.length s = n + String.length r.
Proof.
  revert s. induction n as [|n IH]; intros s; simpl; [by intros [= ->]|].
  destruct s as [|c s]; [discriminate|]. destruct (is_hex c); [|discriminate].
  intros H%IH. simpl. lia.
Qed.

Lemma dash_length o r :
  dash o = Some r → ∃ s, o = Some s ∧ String.length s = S (String.length r).
Proof.
  destruct o as [[|c s]|]; simpl; try discriminate.
  destruct (Ascii.eqb c "-"); [|discriminate]. intros [= ->]. eauto.
Qed.

Lemma validateUUID_length s : validateUUID s = true → String.length s = 36.
Proof.
  unfold validateUUID, UUID_REGEX, mbind, option_bind. intros H.
  destruct (dash (hex_run 8 s)) as [s1|] eqn:H1; cbv beta iota in H; [|discriminate].
  destruct (dash (hex_run 4 s1)) as [s2|] eqn:H2; cbv beta iota in H; [|discriminate].
  destruct (dash (hex_run 4 s2)) as [s3|] eqn:H3; cbv beta iota in H; [|discriminate].
  destruct (dash (hex_run 4 s3)) as [s4|] eqn:H4; cbv beta iota in H; [|discriminate].
  destruct (hex_run 12 s4) as [[|]|] eqn:H5; try discriminate.
  apply dash_length in H1 as (? & ?%hex_run_length & ?).
  apply dash_length in H2 as (? & ?%hex_run_length & ?).
  apply dash_length in H3 as (? & ?%hex_run_length & ?).
  apply dash_length in H4 as (? & ?%hex_run_length & ?).
  apply hex_run_length in H5. simpl in *. lia.
Qed.

Lemma prefix_nil s : String.prefix EmptyString s = true.
Proof. by destruct s. Qed.

Lemma prefix_cons a s b t :
  String.prefix (String a s) (String b t)
  = if Ascii.eqb a b then String.prefix s t else false.
Proof.
  simpl. destruct (ascii_dec a b) as [->|Hne].
  - by rewrite Ascii.eqb_refl.
  - apply Ascii.eqb_neq in Hne. by rewrite Hne.
Qed.

Lemma prefix_app a b c : String.prefix (a +:+ b) (a +:+ c) = String.prefix b c.
Proof.
  induction a as [|x a IH]; [done|]. rewrite !append_cons. simpl.
  by destruct (ascii_dec x x).
Qed.

Lemma prefix_same_length a b x y :
  String.length a = String.length b → String.prefix (a +:+ x) (b +:+ y) = true → a = b.
Proof.
  revert b. induction a as [|c a IH]; intros [|d b]; simpl; try done.
  intros [= Hlen].
  destruct (ascii_dec c d) as [->|]; [|discriminate].
  intros H. f_equal. by apply IH.
Qed.

(** A key [id:rest] is found by the scan for [sid:] exactly when [id] is
    [sid], for ids of the same length. *)
Lemma prefix_scan sid id rest :
  String.length id = String.length sid →
  String.prefix (sid +:+ ":") (id +:+ ":" +:+ rest) = (id =? sid)%string.
Proof.
  intros Hlen. destruct (String.eqb_spec id sid) as [->|Hne].
  - rewrite prefix_app, !append_cons, prefix_cons, append_nil. apply prefix_nil.
  - destruct (String.prefix _ _) eqn:H; [|done].
    apply prefix_same_length in H; [|done]. by destruct Hne.
Qed.

Lemma scan_reflections sid k v :
  validateUUID sid = true → k = key_of v → value_ok v →
  String.prefix ("reflection:" +:+ sid +:+ ":") k = reflectionOf sid v.
Proof.
  intros Hsid -> Hv.
  destruct v as [u|s|r|f]; cbn [key_of reflectionOf];
    try (by rewrite !append_cons, prefix_cons).
  destruct Hv as [Hr _].
  rewrite (prefix_app "reflection:"). apply prefix_scan.
  apply validateUUID_length in Hsid, Hr. congruence.
Qed.

Lemma scan_feedback sid k v :
  validateUUID sid = true → k = key_of v → value_ok v →
  String.prefix ("feedback:" +:+ sid +:+ ":") k = feedbackOf sid v.
Proof.
  intros Hsid -> Hv.
  destruct v as [u|s|r|f]; cbn [key_of feedbackOf];
    try (by rewrite !append_cons, prefix_cons).
  simpl in Hv.
  rewrite (prefix_app "feedback:"). apply prefix_scan.
  apply validateUUID_length in Hsid, Hv. congruence.
Qed.

Lemma getByPrefix_filter (st : Store) p (P : Value → bool) :
  (∀ k v, st !! k = Some v → String.prefix p k = P v) →
  kv.getByPrefix p st = List.filter P (records st).
Proof.
  intros H. unfold kv.getByPrefix, records. rewrite filter_map_snd. f_equal.
  apply filter_ext_in. intros [k v] Hin. simpl.
  apply H, elem_of_map_to_list, list_elem_of_In, Hin.
Qed.

(** On a store the server has written, the scans of [GET /progress] find the
    Reflection and the Feedback records of the session and nothing else. *)
Lemma getByPrefix_reflections st sid :
  store_ok st → validateUUID sid = true →
  kv.getByPrefix ("reflection:" +:+ sid +:+ ":") st = session_reflections sid st.
Proof.
  intros Hst Hsid. apply getByPrefix_filter. intros k v Hk.
  destruct (Hst _ _ Hk). by apply scan_reflections.
Qed.

Lemma getByPrefix_feedback st sid :
  store_ok st → validateUUID sid = true →
  kv.getByPrefix ("feedback:" +:+ sid +:+ ":") st = session_feedback sid st.
Proof.
  intros Hst Hsid. apply getByPrefix_filter. intros k v Hk.
  destruct (Hst _ _ Hk). by apply scan_feedback.
Qed.

(** ** Progress *)

Lemma elem_of_filter_bool {A} (P : A → bool) (l : list A) x :
  x ∈ List.filter P l ↔ x ∈ l ∧ P x = true.
Proof. rewrite !list_elem_of_In. apply filter_In. Qed.

Lemma NoDup_filter_bool {A} (P : A → bool) (l : list A) :
  NoDup l → NoDup (List.filter P l).
Proof.
  induction 1 as [|a l Ha Hl IH]; simpl; [constructor|].
  destruct (P a); [|done]. constructor; [|done].
  rewrite elem_of_filter_bool. tauto.
Qed.

Lemma NoDup_fmap_filter_bool {A B} (f : A → B) (P : A → bool) (l : list A) :
  NoDup (f <$> l) → NoDup (f <$> List.filter P l).
Proof.
  induction l as [|a l IH]; simpl; [done|].
  rewrite NoDup_cons. intros [Ha Hl]. destruct (P a); [|by apply IH].
  simpl. rewrite NoDup_cons. split; [|by apply IH].
  rewrite list_elem_of_fmap in Ha |- *. intros (y & Hy & Hin).
  apply Ha. exists y. split; [done|]. by apply elem_of_filter_bool in Hin as [? _].
Qed.

Lemma map_fmap {A B} (f : A → B) (l : list A) : map f l = f <$> l.
Proof. induction l as [|a l IH]; [done|]. simpl. by rewrite IH. Qed.

Lemma elem_of_records (st : Store) v : v ∈ records st ↔ ∃ k, st !! k = Some v.
Proof.
  unfold records. rewrite map_fmap, list_elem_of_fmap. split.
  - intros ([k v'] & -> & Hin). exists k. by apply elem_of_map_to_list.
  - intros [k Hk]. exists (k, v). split; [done|]. by apply elem_of_map_to_list.
Qed.

(** Distinct keys hold distinct records, since a record names its key. *)
Lemma NoDup_records (st : Store) : store_ok st → NoDup (records st).
Proof.
  intros Hst. unfold records. rewrite map_fmap.
  apply NoDup_fmap_2_strong; [|apply NoDup_map_to_list].
  intros [k1 v1] [k2 v2] H1%elem_of_map_to_list H2%elem_of_map_to_list Hv.
  simpl in Hv. subst v2.
  destruct (Hst _ _ H1) as [-> _]. by destruct (Hst _ _ H2) as [-> _].
Qed.

Lemma app_inj_length a b x y :
  String.length a = String.length b → a +:+ x = b +:+ y → a = b ∧ x = y.
Proof.
  revert b. induction a as [|c a IH]; intros [|d b]; simpl; try done.
  intros [= Hlen]. rewrite !append_cons. intros [= -> H].
  destruct (IH _ Hlen H) as [-> ->]. done.
Qed.

(** The key of a Reflection record gives back its session and its email. *)
Lemma reflection_key_inj sid e r :
  validateUUID sid = true → validateUUID (Reflection.sessionId r) = true →
  "reflection:" +:+ sid +:+ ":" +:+ e = key_of (VReflection r) →
  Reflection.sessionId r = sid ∧ Reflection.studentEmail r = e.
Proof.
  intros Hsid%validateUUID_length Hr%validateUUID_length H. simpl in H.
  apply (inj (String.app "reflection:")) in H.
  apply app_inj_length in H as [-> H]; [|congruence].
  rewrite !append_cons, !append_nil in H. by injection H as ->.
Qed.

(** The completed Reflection records of a session, one by one. *)
Lemma elem_of_completed st sid v :
  store_ok st →
  v ∈ List.filter completedOf (session_reflections sid st) ↔
  ∃ r, v = VReflection r ∧ st !! key_of v = Some v ∧ Reflection.sessionId r = sid ∧
       Json.is_true (Reflection.completed r) = true.
Proof.
  intros Hst. unfold session_reflections.
  rewrite !elem_of_filter_bool, elem_of_records. split.
  - intros [[[k Hk] Hsid] Hc]. destruct (Hst _ _ Hk) as [-> Hv].
    destruct v as [| |r|]; simpl in Hsid, Hc; try discriminate.
    exists r. split; [done|]. split; [done|]. split; [by apply String.eqb_eq|].
    destruct Hv as [_ [b Hb]]. rewrite Hb in Hc |- *. by destruct b.
  - intros (r & -> & Hk & <- & Hc). split; [split|].
    + eauto.
    + simpl. apply String.eqb_refl.
    + simpl. destruct (Reflection.completed r) as [| |[]| | | |]; done.
Qed.

(** With distinct emails on the roster and every completed Reflection of the
    session written by someone on the roster, the completed Reflection records
    are as many as the roster entries that have one. *)
Lemma completed_on_roster st sid roster :
  store_ok st → validateUUID sid = true →
  NoDup (Student.email <$> roster) →
  (∀ v, v ∈ session_reflections sid st → completedOf v = true →
        emailOf v ∈ Student.email <$> roster) →
  length (List.filter completedOf (session_reflections sid st))
  = spec_completedReflections sid roster st.
Proof.
  intros Hst Hsid Hnd Hon. unfold spec_completedReflections.
  rewrite <-(length_fmap emailOf), <-(length_fmap Student.email).
  apply Permutation_length, NoDup_Permutation.
  - apply NoDup_fmap_2_strong.
    + intros x y Hx Hy He.
      apply elem_of_completed in Hx as (rx & -> & Hx & Hsx & _); [|done].
      apply elem_of_completed in Hy as (ry & -> & Hy & Hsy & _); [|done].
      simpl in *. rewrite Hsx, Hsy, He in *. congruence.
    + by apply NoDup_filter_bool, NoDup_filter_bool, NoDup_records.
  - by apply NoDup_fmap_filter_bool.
  - intros e. rewrite !list_elem_of_fmap. split.
    + intros (v & -> & Hv).
      pose proof Hv as Hv'.
      apply elem_of_completed in Hv' as (r & -> & Hk & Hs & Hc); [|done].
      apply elem_of_filter_bool in Hv as [Hv Hcv].
      pose proof (Hon _ Hv Hcv) as Hroster.
      apply list_elem_of_fmap in Hroster as (s & Hes & Hin).
      exists s. split; [done|]. apply elem_of_filter_bool. split; [done|].
      unfold spec_hasCompletedReflection. simpl in *.
      by rewrite <-Hes, <-Hs, Hk.
    + intros (s & -> & [Hin Hhas]%elem_of_filter_bool).
      unfold spec_hasCompletedReflection in Hhas.
      destruct (st !! _) as [[| |r|]|] eqn:Hk; try discriminate.
      destruct (Hst _ _ Hk) as [Hkey [Hr _]].
      destruct (reflection_key_inj _ _ _ Hsid Hr Hkey) as [Hs He].
      exists (VReflection r). split; [done|].
      apply elem_of_completed; [done|]. exists r.
      split; [done|]. split; [by rewrite <-Hkey|]. done.
Qed.

Lemma get_progress_value a u sid st s :
  authenticated a u → validateUUID sid = true →
  st !! ("session:" +:+ sid) = Some (VSession s) →
  Session.organizerId s = AuthUser.id u →
  ∃ p, get_progress a sid st = ProgressOk p ∧
       totalStudents p = length (Session.students s) ∧
       completedReflections p
       = length (List.filter completedOf
                   (kv.getByPrefix ("reflection:" +:+ sid +:+ ":") st)) ∧
       feedbackSubmissions p = length (kv.getByPrefix ("feedback:" +:+ sid +:+ ":") st).
Proof.
  intros Ha Hsid Hs Ho.
  apply (authenticate_inr a "Missing authorization token") in Ha.
  unfold get_progress. rewrite Ha. simpl. rewrite Hsid. simpl.
  unfold getSession, kv.get. rewrite Hs. simpl.
  rewrite Ho, String.eqb_refl. simpl. eauto.
Qed.

(** C2, as the code has it.  On a store the server has written, for the
    organizer of a session: completedReflections is the number of Reflection
    records stored for that session with completed = true, whether or not
    their author is still on the roster, and feedbackSubmissions is the number
    of Feedback records stored for that session.  When the emails of the
    roster are distinct and every completed Reflection of the session belongs
    to an email of the roster, completedReflections is also the number of
    roster emails that have a stored Reflection with completed = true. *)
Theorem progress_counts a u sid st s :
  store_ok st → authenticated a u → validateUUID sid = true →
  st !! ("session:" +:+ sid) = Some (VSession s) →
  Session.organizerId s = AuthUser.id u →
  ∃ p, get_progress a sid st = ProgressOk p ∧
       completedReflections p
       = length (List.filter completedOf (session_reflections sid st)) ∧
       feedbackSubmissions p = length (session_feedback sid st) ∧
       (NoDup (Student.email <$> Session.students s) →
        (∀ v, v ∈ session_reflections sid st → completedOf v = true →
              emailOf v ∈ Student.email <$> Session.students s) →
        completedReflections p = spec_completedReflections sid (Session.students s) st).
Proof.
  intros Hst Ha Hsid Hs Ho.
  destruct (get_progress_value a u sid st s Ha Hsid Hs Ho) as (p & Hp & _ & Hc & Hf).
  rewrite getByPrefix_reflections in Hc by done.
  rewrite getByPrefix_feedback in Hf by done.
  exists p. do 3 (split; [done|]).
  intros Hnd Hon. rewrite Hc. by apply completed_on_roster.
Qed.

Lemma progress_counts_witness :
  ∃ p, get_progress (Sample.signedIn Sample.olivia) Sample.sid Sample.stR = ProgressOk p ∧
       completedReflections p
       = length (List.filter completedOf (session_reflections Sample.sid Sample.stR)) ∧
       feedbackSubmissions p = length (session_feedback Sample.sid Sample.stR) ∧
       (NoDup (Student.email <$> Session.students Sample.demoR) →
        (∀ v, v ∈ session_reflections Sample.sid Sample.stR → completedOf v = true →
              emailOf v ∈ Student.email <$> Session.students Sample.demoR) →
        completedReflections p
        = spec_completedReflections Sample.sid (Session.students Sample.demoR) Sample.stR).
Proof.
  apply (progress_counts (Sample.signedIn Sample.olivia) Sample.olivia Sample.sid
           Sample.stR Sample.demoR).
  - apply run_store_ok, store_ok_empty.
  - repeat split; [by eexists|done].
  - reflexivity.
  - vm_compute. reflexivity.
  - reflexivity.
Defined.

(** C2 as the specification states it fails.  Alice is enrolled and saves a completed
    reflection, then the organizer replaces the roster by one without her.
    The progress of the session reports one completed reflection, while no
    email of the roster has a stored Reflection with completed = true. *)
Lemma progress_counts_orphan :
  Sample.stR !! ("session:" +:+ Sample.sid) = Some (VSession Sample.demoR) ∧
  ∃ p, get_progress (Sample.signedIn Sample.olivia) Sample.sid Sample.stR = ProgressOk p ∧
       totalStudents p = 1 ∧
       completedReflections p = 1 ∧
       spec_completedReflections Sample.sid (Session.students Sample.demoR) Sample.stR = 0 ∧
       completedReflections p
       ≠ spec_completedReflections Sample.sid (Session.students Sample.demoR) Sample.stR.
Proof.
  split; [vm_compute; reflexivity|].
  eexists. split; [vm_compute; reflexivity|].
  split; [reflexivity|]. split; [reflexivity|].
  assert (spec_completedReflections Sample.sid (Session.students Sample.demoR) Sample.stR
          = 0) as -> by (vm_compute; reflexivity).
  split; [reflexivity|]. simpl. discriminate.
Qed.

(** isComplete is set exactly for the replies that contain the sentinel. *)
Lemma isComplete_iff text message isComplete :
  text ≠ EmptyString →
  ai_reflection_reply (Sample.dialogueReply text) = AiOk message isComplete →
  isComplete = true ↔ ∃ a b, text = a +:+ REFLECTION_COMPLETE +:+ b.
Proof.
  intros Ht. rewrite ai_reflection_reply_text by done. intros [= _ <-].
  apply includes_spec.
Qed.

(** ** The primitives on sample inputs *)

Example EMAIL_REGEX_samples :
  map EMAIL_REGEX ["a@x.com"; "a@xcom"; "a@.com"; "a b@x.com"; "a@b@x.com"; "@x.com";
                   "a@x.com:b"; "a@x.com."]
  = [true; false; false; false; false; false; true; true].
Proof. reflexivity. Qed.

Example UUID_REGEX_samples :
  map UUID_REGEX ["123e4567-e89b-12d3-a456-426614174000";
                  "123E4567-E89B-12D3-A456-426614174000";
                  "123e4567-e89b-12d3-a456-42661417400";
                  "123e4567-e89b-12d3-a456-426614174000 ";
                  "123e4567e89b-12d3-a456-4266141740000"]
  = [true; true; false; false; false].
Proof. reflexivity. Qed.

Example string_samples :
  JS.trim "  a b  " = "a b" ∧
  JS.toLowerCase "Alice@X.com" = "alice@x.com" ∧
  JS.split " " "Bearer tok" = ["Bearer"; "tok"] ∧
  JS.split " " "Bearer" = ["Bearer"] ∧
  JS.includes "ab[X]cd" "[X]" = true ∧
  JS.replace "ab[X]cd[X]" "[X]" EmptyString = "abcd[X]" ∧
  JS.slice0 3 "abcdef" = "abc".
Proof. repeat split; reflexivity. Qed.

Example latin1_samples :
  JS.toLowerCase Latin1.E_acute = Latin1.e_acute ∧
  JS.toLowerCase (String "215" EmptyString) = String "215" EmptyString ∧
  JS.trim (Latin1.nbsp +:+ "Demo" +:+ Latin1.nbsp) = "Demo" ∧
  validateEmail (JStr Latin1.E_acute) = true ∧
  validateEmail (JStr ("a" +:+ Latin1.nbsp +:+ "b@x.com")) = false ∧
  validateName (JStr Latin1.nbsp) = false ∧
  validateStudent (Sample.studentJson "a@x.com" Latin1.nbsp) = false ∧
  sanitizeStudent (Sample.studentJson Latin1.E_acute "Eloise")
  = Some (Student.mk Latin1.e_acute "Eloise").
Proof. repeat split; reflexivity. Qed.

Example accessToken_samples :
  accessToken (mkAuth (Some "Bearer tok") false None) = Some "tok" ∧
  accessToken (mkAuth (Some "Bearer") false None) = None ∧
  accessToken (mkAuth (Some "Bearer ") false None) = None ∧
  accessToken (mkAuth None false None) = None.
Proof. repeat split; reflexivity. Qed.

(** * Further properties of the server *)

(** ** The rate limit *)

Lemma checkRateLimit_other id id' now (rl : gmap string RateLimit.Entry) :
  id ≠ id' → snd (RateLimit.checkRateLimit id now rl) !! id' = rl !! id'.
Proof.
  intros Hne. unfold RateLimit.checkRateLimit.
  repeat case_match; simpl; by rewrite ?lookup_insert_ne.
Qed.

(** Within the window of an entry with count [c], the next [n] calls are
    let through while the count is below the maximum and refused afterwards. *)
Lemma calls_within_window id times (rl : gmap string RateLimit.Entry) c reset :
  rl !! id = Some (RateLimit.mk c reset) → c ≤ RateLimit.RATE_LIMIT_MAX →
  Forall (fun now => (now ≤ reset)%Z) times →
  fst (RateLimit.calls id times rl)
  = repeat true (min (RateLimit.RATE_LIMIT_MAX - c) (length times))
    ++ repeat false (length times - (RateLimit.RATE_LIMIT_MAX - c)).
Proof.
  intros Hid Hc Htimes. revert rl c Hid Hc.
  induction Htimes as [|now times Hnow _ IH]; intros rl c Hid Hc.
  { simpl. by rewrite Nat.min_0_r. }
  cbn [RateLimit.calls]. unfold RateLimit.checkRateLimit. rewrite Hid.
  cbn [RateLimit.count RateLimit.resetAt].
  destruct (Z.ltb_spec reset now) as [|_]; [lia|].
  unfold RateLimit.RATE_LIMIT_MAX in *.
  destruct (Nat.leb_spec 60 c) as [Hfull|Hroom].
  - specialize (IH rl c Hid Hc).
    destruct (RateLimit.calls id times rl) as [oks final]. simpl in *.
    rewrite IH. replace (60 - c) with 0 by lia. simpl. by rewrite Nat.sub_0_r.
  - specialize (IH (<[id := RateLimit.mk (S c) reset]> rl) (S c)
                  (lookup_insert_eq _ _ _) ltac:(lia)).
    destruct (RateLimit.calls id times _) as [oks final]. simpl in *.
    rewrite IH. destruct (60 - c) as [|m] eqn:Hm; [lia|].
    replace (59 - c) with m by lia. reflexivity.
Qed.

(** X1.  A burst of calls for one identifier that starts with no entry, or
    with an expired one, and stays within the window opened by its first
    call: the first 60 calls are let through and every later one is refused. *)
Theorem rate_limit_burst id t0 times (rl : gmap string RateLimit.Entry) :
  (∀ e, rl !! id = Some e → (RateLimit.resetAt e < t0)%Z) →
  Forall (fun now => (now ≤ t0 + RateLimit.RATE_LIMIT_WINDOW)%Z) times →
  fst (RateLimit.calls id (t0 :: times) rl)
  = repeat true (min 60 (S (length times))) ++ repeat false (S (length times) - 60).
Proof.
  intros Hfresh Htimes.
  assert (RateLimit.checkRateLimit id t0 rl
          = (true, <[id := RateLimit.mk 1 (t0 + RateLimit.RATE_LIMIT_WINDOW)]> rl)) as Hfirst.
  { unfold RateLimit.checkRateLimit. destruct (rl !! id) as [e|] eqn:He; [|done].
    specialize (Hfresh e eq_refl). by destruct (Z.ltb_spec (RateLimit.resetAt e) t0); [|lia]. }
  cbn [RateLimit.calls]. rewrite Hfirst.
  pose proof (calls_within_window id times
                (<[id := RateLimit.mk 1 (t0 + RateLimit.RATE_LIMIT_WINDOW)]> rl) 1
                (t0 + RateLimit.RATE_LIMIT_WINDOW)%Z (lookup_insert_eq _ _ _)
                ltac:(unfold RateLimit.RATE_LIMIT_MAX; lia) Htimes) as Hrest.
  destruct (RateLimit.calls id times _) as [oks final]. cbn [fst] in Hrest |- *.
  rewrite Hrest. unfold RateLimit.RATE_LIMIT_MAX.
  change (60 - 1) with 59.
  replace (length times - 59) with (S (length times) - 60) by lia.
  destruct (Nat.le_gt_cases (length times) 59).
  - rewrite !Nat.min_r by lia. reflexivity.
  - rewrite !Nat.min_l by lia. reflexivity.
Qed.

Lemma rate_limit_burst_witness :
  fst (RateLimit.calls "Bearer token" (1000 :: repeat 2000 61)%Z ∅)
  = repeat true (min 60 (S (length (repeat 2000%Z 61))))
    ++ repeat false (S (length (repeat 2000%Z 61)) - 60).
Proof.
  apply rate_limit_burst.
  - intros e He. by rewrite lookup_empty in He.
  - apply Forall_forall. intros now Hin.
    apply list_elem_of_In, repeat_spec in Hin. subst. by vm_compute.
Defined.

(** X2.  The sweep never changes what the limiter answers: a call made at or
    after the time of a sweep gets the same answer, and leaves the same entry
    for its identifier, as if the sweep had not run. *)
Theorem rate_limit_sweep_transparent id now swept (rl : gmap string RateLimit.Entry) :
  (swept ≤ now)%Z →
  fst (RateLimit.checkRateLimit id now (RateLimit.sweep swept rl))
  = fst (RateLimit.checkRateLimit id now rl) ∧
  snd (RateLimit.checkRateLimit id now (RateLimit.sweep swept rl)) !! id
  = snd (RateLimit.checkRateLimit id now rl) !! id.
Proof.
  intros Hle. unfold RateLimit.checkRateLimit, RateLimit.sweep.
  rewrite map_lookup_filter. destruct (rl !! id) as [e|] eqn:He; cbn -[Nat.leb].
  - case_guard as Hkeep; cbn -[Nat.leb] in *.
    + destruct (RateLimit.resetAt e <? now)%Z; cbn -[Nat.leb];
        [by rewrite !lookup_insert_eq|].
      destruct (RateLimit.RATE_LIMIT_MAX <=? RateLimit.count e); cbn -[Nat.leb];
        [|by rewrite !lookup_insert_eq].
      split; [done|]. rewrite map_lookup_filter, He. cbn. by case_guard.
    + assert ((RateLimit.resetAt e <? now)%Z = true) as -> by (apply Z.ltb_lt; lia).
      cbn. by rewrite !lookup_insert_eq.
  - by rewrite !lookup_insert_eq.
Qed.

Lemma rate_limit_sweep_transparent_witness :
  fst (RateLimit.checkRateLimit "k" 5000
         (RateLimit.sweep 4000 {["k" := RateLimit.mk 60 3000]}))
  = fst (RateLimit.checkRateLimit "k" 5000 {["k" := RateLimit.mk 60 3000]}) ∧
  snd (RateLimit.checkRateLimit "k" 5000
         (RateLimit.sweep 4000 {["k" := RateLimit.mk 60 3000]})) !! "k"
  = snd (RateLimit.checkRateLimit "k" 5000 {["k" := RateLimit.mk 60 3000]}) !! "k".
Proof. apply rate_limit_sweep_transparent. lia. Defined.

Lemma calls_final id times (rl : gmap string RateLimit.Entry) c reset :
  rl !! id = Some (RateLimit.mk c reset) → c ≤ RateLimit.RATE_LIMIT_MAX →
  Forall (fun now => (now ≤ reset)%Z) times →
  snd (RateLimit.calls id times rl) !! id
  = Some (RateLimit.mk (min RateLimit.RATE_LIMIT_MAX (c + length times)) reset).
Proof.
  intros Hid Hc Htimes. revert rl c Hid Hc.
  induction Htimes as [|now times Hnow _ IH]; intros rl c Hid Hc.
  { cbn [RateLimit.calls snd length]. rewrite Hid, Nat.add_0_r, Nat.min_r by done. done. }
  cbn [RateLimit.calls]. unfold RateLimit.checkRateLimit. rewrite Hid.
  cbn [RateLimit.count RateLimit.resetAt].
  destruct (Z.ltb_spec reset now) as [|_]; [lia|].
  unfold RateLimit.RATE_LIMIT_MAX in *.
  destruct (Nat.leb_spec 60 c) as [Hfull|Hroom].
  - specialize (IH rl c Hid Hc).
    destruct (RateLimit.calls id times rl) as [oks final]. cbn [snd] in *.
    rewrite IH. f_equal. f_equal. cbn [length]. lia.
  - specialize (IH (<[id := RateLimit.mk (S c) reset]> rl) (S c)
                  (lookup_insert_eq _ _ _) ltac:(lia)).
    destruct (RateLimit.calls id times _) as [oks final]. cbn [snd] in *.
    rewrite IH. f_equal. f_equal. cbn [length]. lia.
Qed.

Lemma slice0_nonempty n s :
  (0 < n)%N → s ≠ EmptyString → JS.slice0 n s ≠ EmptyString.
Proof.
  intros Hn Hs. destruct s as [|c s]; [done|]. simpl.
  by destruct (N.eqb_spec n 0); [lia|].
Qed.

(** X3.  The middleware names a caller by the first 50 characters of its
    Authorization header: when two headers agree on them, the 60 requests
    that one of them makes within a window use up the allowance of the other,
    whose next request in that window is refused. *)
Theorem rate_limit_shared_bucket h1 h2 f1 f2 t0 times now
    (rl : gmap string RateLimit.Entry) :
  JS.slice0 50 h1 = JS.slice0 50 h2 → h1 ≠ EmptyString →
  (∀ e, rl !! RateLimit.identifier (Some h1) f1 = Some e → (RateLimit.resetAt e < t0)%Z) →
  length times = 59 →
  Forall (fun t => (t ≤ t0 + RateLimit.RATE_LIMIT_WINDOW)%Z) times →
  (now ≤ t0 + RateLimit.RATE_LIMIT_WINDOW)%Z →
  fst (RateLimit.middleware (Some h2) f2 now
         (snd (RateLimit.calls (RateLimit.identifier (Some h1) f1) (t0 :: times) rl)))
  = false.
Proof.
  intros Hslice Hh1 Hfresh Hlen Htimes Hnow.
  assert (RateLimit.identifier (Some h2) f2 = RateLimit.identifier (Some h1) f1) as Hid.
  { unfold RateLimit.identifier. cbn [fmap option_fmap option_map].
    rewrite <-Hslice.
    pose proof (slice0_nonempty 50 h1 ltac:(lia) Hh1) as Hne.
    unfold RateLimit.orElse.
    by destruct (String.eqb_spec (JS.slice0 50 h1) EmptyString). }
  unfold RateLimit.middleware. rewrite Hid.
  set (id := RateLimit.identifier (Some h1) f1) in *.
  cbn [RateLimit.calls].
  assert (RateLimit.checkRateLimit id t0 rl
          = (true, <[id := RateLimit.mk 1 (t0 + RateLimit.RATE_LIMIT_WINDOW)]> rl)) as ->.
  { unfold RateLimit.checkRateLimit. destruct (rl !! id) as [e|] eqn:He; [|done].
    specialize (Hfresh e eq_refl). by destruct (Z.ltb_spec (RateLimit.resetAt e) t0); [|lia]. }
  pose proof (calls_final id times
                (<[id := RateLimit.mk 1 (t0 + RateLimit.RATE_LIMIT_WINDOW)]> rl) 1
                (t0 + RateLimit.RATE_LIMIT_WINDOW)%Z (lookup_insert_eq _ _ _)
                ltac:(unfold RateLimit.RATE_LIMIT_MAX; lia) Htimes) as Hfinal.
  destruct (RateLimit.calls id times _) as [oks final]. cbn [snd] in *.
  unfold RateLimit.checkRateLimit. rewrite Hfinal, Hlen.
  cbn [RateLimit.count RateLimit.resetAt].
  destruct (Z.ltb_spec (t0 + RateLimit.RATE_LIMIT_WINDOW) now) as [|_]; [lia|].
  reflexivity.
Qed.

Lemma rate_limit_shared_bucket_witness :
  let h1 := "Bearer eyJhbGciOiJIUzI1NiIsInR5cCI6IkpXVCJ9.eyJpc3MiOiJhIn0.one" in
  let h2 := "Bearer eyJhbGciOiJIUzI1NiIsInR5cCI6IkpXVCJ9.eyJpc3MiOiJhIn0.two" in
  fst (RateLimit.middleware (Some h2) None 3000
         (snd (RateLimit.calls (RateLimit.identifier (Some h1) None)
                 (1000 :: repeat 2000 59)%Z ∅)))
  = false.
Proof.
  intros h1 h2. apply rate_limit_shared_bucket.
  - reflexivity.
  - discriminate.
  - intros e He. by rewrite lookup_empty in He.
  - apply repeat_length.
  - apply Forall_forall. intros now Hin.
    apply list_elem_of_In, repeat_spec in Hin. subst. by vm_compute.
  - by vm_compute.
Defined.

Lemma counters_bounded_insert (rl : gmap string RateLimit.Entry) id e :
  counters_bounded rl → 1 ≤ RateLimit.count e ≤ RateLimit.RATE_LIMIT_MAX →
  counters_bounded (<[id := e]> rl).
Proof.
  intros Hrl He id' e'. rewrite lookup_insert. case_decide; [|apply Hrl].
  by intros [= <-].
Qed.

Lemma counters_bounded_step rl ev :
  counters_bounded rl → counters_bounded (rateStep rl ev).
Proof.
  intros Hrl. destruct ev as [id now|now]; cbn [rateStep].
  - unfold RateLimit.checkRateLimit.
    destruct (rl !! id) as [e|] eqn:He.
    + specialize (Hrl _ _ He) as Hb. unfold RateLimit.RATE_LIMIT_MAX in *.
      destruct (RateLimit.resetAt e <? now)%Z; cbn [snd].
      * apply counters_bounded_insert; [done|]. unfold RateLimit.RATE_LIMIT_MAX.
        cbn [RateLimit.count]. lia.
      * destruct (Nat.leb_spec 60 (RateLimit.count e)); cbn [snd]; [done|].
        apply counters_bounded_insert; [done|]. unfold RateLimit.RATE_LIMIT_MAX.
        cbn [RateLimit.count]. lia.
    + cbn [snd]. apply counters_bounded_insert; [done|].
      unfold RateLimit.RATE_LIMIT_MAX. cbn [RateLimit.count]. lia.
  - intros id e [He _]%map_lookup_filter_Some. by eapply Hrl.
Qed.

(** X4.  Whatever calls and sweeps the limiter goes through from the empty
    map, every counter it holds stays between 1 and 60. *)
Theorem rate_limit_counters_bounded (events : list RateEvent) :
  counters_bounded (foldl rateStep ∅ events).
Proof.
  assert (∀ rl, counters_bounded rl → counters_bounded (foldl rateStep rl events)) as H.
  { induction events as [|ev events IH]; intros rl Hrl; [done|].
    apply IH, counters_bounded_step, Hrl. }
  apply H. intros id e. by rewrite lookup_empty.
Qed.

(** ** The CORS origin *)

Lemma split_go_nonempty sep cur s : JS.split_go sep cur s ≠ [].
Proof. revert cur. induction s as [|c s IH]; intros cur; simpl; [done|]. by case_match. Qed.

(** X5.  When the list of allowed origins has no wildcard, the origin the
    server answers with is always one of the list, whatever origin the request
    names; with a wildcard (and when the variable is not set) it is the origin
    of the request. *)
Theorem cors_origin_allowed env requestOrigin :
  ("*" ∉ Cors.allowedOrigins env →
   ∃ o, Cors.origin env requestOrigin = Some o ∧ o ∈ Cors.allowedOrigins env) ∧
  ("*" ∈ Cors.allowedOrigins env → Cors.origin env requestOrigin = Some requestOrigin).
Proof.
  unfold Cors.origin. split; intros Hstar.
  - rewrite bool_decide_eq_false_2 by done.
    case_bool_decide as Hin; [eauto|].
    destruct (Cors.allowedOrigins env) as [|o l] eqn:Hl.
    + destruct env as [s|]; [|done]. by apply split_go_nonempty in Hl.
    + exists o. split; [done|]. apply list_elem_of_here.
  - by rewrite bool_decide_eq_true_2.
Qed.

Lemma cors_origin_allowed_witness :
  ∃ o, Cors.origin (Some "https://a.example,https://b.example") "https://evil.example"
       = Some o ∧
       o ∈ Cors.allowedOrigins (Some "https://a.example,https://b.example").
Proof.
  apply (proj1 (cors_origin_allowed (Some "https://a.example,https://b.example")
                  "https://evil.example")).
  vm_compute. intros H. repeat (apply elem_of_cons in H as [H|H]; [discriminate|]).
  by apply elem_of_nil in H.
Defined.

(** ** The validators *)

Lemma all_chars_cons p c s : JS.all_chars p (String c s) = p c && JS.all_chars p s.
Proof. reflexivity. Qed.

Lemma email_char_at : email_char "@" = false.
Proof. reflexivity. Qed.

Lemma email_char_dot : email_char "." = true.
Proof. reflexivity. Qed.

Lemma dotted_spec seen s :
  dotted seen s = true ↔
  ∃ a b, s = a +:+ "." +:+ b ∧ (seen = true ∨ a ≠ EmptyString) ∧ b ≠ EmptyString ∧
         JS.all_chars email_char a = true ∧ JS.all_chars email_char b = true.
Proof.
  revert seen. induction s as [|c r IH]; intros seen; cbn [dotted].
  { split; [discriminate|]. intros ([|x a] & b & Hs & _); discriminate. }
  rewrite andb_true_iff, orb_true_iff, !andb_true_iff, IH, negb_true_iff. split.
  - intros [Hc [[[[Hseen Hdot] Hr] Hall]|(a & b & -> & _ & Hb & Ha & Hbb)]].
    + apply Ascii.eqb_eq in Hdot as ->. exists EmptyString, r.
      split; [done|]. split; [by left|]. split; [|done].
      intros ->. by rewrite String.eqb_refl in Hr.
    + exists (String c a), b. split; [done|]. split; [by right|].
      split; [done|]. split; [|done]. by rewrite all_chars_cons, Hc, Ha.
  - intros ([|x a] & b & Hs & Hseen & Hb & Ha & Hbb).
    + rewrite append_nil, append_cons, append_nil in Hs. injection Hs as -> ->.
      split; [done|]. left. destruct Hseen as [->|]; [|done].
      rewrite Ascii.eqb_refl. repeat split; [|done].
      by apply String.eqb_neq.
    + rewrite append_cons in Hs. injection Hs as -> ->.
      rewrite all_chars_cons in Ha. apply andb_prop in Ha as [Hx Ha].
      split; [done|]. right. exists a, b. eauto 10.
Qed.

Lemma EMAIL_REGEX_go_spec seen s :
  EMAIL_REGEX_go seen s = true ↔
  ∃ l d, s = l +:+ "@" +:+ d ∧ (seen = true ∨ l ≠ EmptyString) ∧
         JS.all_chars email_char l = true ∧ dotted false d = true.
Proof.
  revert seen. induction s as [|c r IH]; intros seen; cbn [EMAIL_REGEX_go].
  { split; [discriminate|]. intros ([|x l] & d & Hs & _); discriminate. }
  destruct (Ascii.eqb_spec c "@") as [->|Hc].
  - rewrite andb_true_iff. split.
    + intros [-> Hd]. exists EmptyString, r. eauto.
    + intros ([|x l] & d & Hs & Hseen & Hl & Hd).
      * rewrite append_nil, append_cons, append_nil in Hs. injection Hs as ->.
        by destruct Hseen as [->|].
      * rewrite append_cons in Hs. injection Hs as <- ->.
        rewrite all_chars_cons, email_char_at in Hl. discriminate.
  - rewrite andb_true_iff, IH. split.
    + intros [Hsp (l & d & -> & _ & Hl & Hd)]. exists (String c l), d.
      split; [done|]. split; [by right|]. split; [|done].
      rewrite all_chars_cons, Hl. unfold email_char. rewrite Hsp.
      by apply Ascii.eqb_neq in Hc as ->.
    + intros ([|x l] & d & Hs & Hseen & Hl & Hd).
      * rewrite append_nil, append_cons, append_nil in Hs. by injection Hs as -> _.
      * rewrite append_cons in Hs. injection Hs as <- ->.
        rewrite all_chars_cons in Hl. apply andb_prop in Hl as [Hx Hl].
        split; [by apply andb_prop in Hx as [? _]|]. exists l, d. eauto 10.
Qed.

(** X6.  The emails the server accepts are exactly the strings
    [local@domain.rest] of at most 254 characters in which the three parts are
    not empty and hold neither white space nor a second [@]. *)
Theorem validateEmail_shape s :
  validateEmail (JStr s) = true ↔
  String.length s ≤ 254 ∧
  ∃ l a b, s = l +:+ "@" +:+ a +:+ "." +:+ b ∧
           l ≠ EmptyString ∧ a ≠ EmptyString ∧ b ≠ EmptyString ∧
           JS.all_chars email_char l = true ∧ JS.all_chars email_char a = true ∧
           JS.all_chars email_char b = true.
Proof.
  unfold validateEmail, EMAIL_REGEX.
  rewrite andb_true_iff, Nat.leb_le, EMAIL_REGEX_go_spec. split.
  - intros [(l & d & -> & [|Hl] & Hall & (a & b & -> & [|Ha] & Hb & Haa & Hbb)%dotted_spec)
            Hlen]; try done.
    split; [done|]. exists l, a, b. eauto 10.
  - intros [Hlen (l & a & b & -> & Hl & Ha & Hb & Hall & Haa & Hbb)].
    split; [|done]. exists l, (a +:+ "." +:+ b). split; [done|]. split; [by right|].
    split; [done|]. apply dotted_spec. exists a, b. eauto 10.
Qed.

Lemma validateEmail_shape_witness : validateEmail (JStr Latin1.E_acute) = true.
Proof.
  apply validateEmail_shape. split; [simpl; lia|].
  exists (String "201" EmptyString), "x", "com". repeat split; done.
Defined.

Lemma slice0_length_le n s : String.length (JS.slice0 n s) ≤ String.length s.
Proof.
  revert n. induction s as [|c s IH]; intros n; simpl; [done|].
  destruct (n =? 0)%N; simpl; [lia|]. specialize (IH (N.pred n)). lia.
Qed.

Lemma slice0_length_bound n s : (N.of_nat (String.length (JS.slice0 n s)) ≤ n)%N.
Proof.
  revert n. induction s as [|c s IH]; intros n; simpl; [lia|].
  destruct (N.eqb_spec n 0); simpl; [lia|]. specialize (IH (N.pred n)). lia.
Qed.

Lemma slice0_short n s : (N.of_nat (String.length s) ≤ n)%N → JS.slice0 n s = s.
Proof.
  revert n. induction s as [|c s IH]; intros n Hn; simpl in *; [done|].
  destruct (N.eqb_spec n 0); [lia|]. rewrite IH; [done|lia].
Qed.

Lemma sanitizeString_length_le s : String.length (sanitizeString s) ≤ String.length s.
Proof.
  unfold sanitizeString. etrans; [apply slice0_length_le|apply trim_length_le].
Qed.



(** ** Reading reflections back *)

(** Who [GET /reflection] answers: the organizer, the caller named by the
    email, and everyone on the roster. *)
Lemma get_reflection_value a u sid email st s :
  authenticated a u → validateUUID sid = true → validateEmail (JStr email) = true →
  st !! ("session:" +:+ sid) = Some (VSession s) →
  get_reflection a sid email st =
    if (Session.organizerId s =? AuthUser.id u)%string
       || bool_decide (AuthUser.email u = Some email)
       || isStudentOf s (AuthUser.email u)
    then inr (st !! ("reflection:" +:+ sid +:+ ":" +:+ email))
    else inl (Error "Forbidden" 403).
Proof.
  intros Ha Hsid Hemail Hs.
  apply (authenticate_inr a "Missing authorization token") in Ha.
  unfold get_reflection. rewrite Ha. cbn [bindH]. rewrite Hsid. cbn [require bindH].
  rewrite Hemail. cbn [require bindH].
  unfold getSession, kv.get. rewrite Hs. cbn [bindH].
  destruct (_ =? _)%string; destruct (bool_decide _); destruct (isStudentOf _ _); done.
Qed.

(** X8.  What a participant saves can be read back as it is stored, complete
    or not, by the participant, by the organizer of the session and by every
    caller whose email is on the roster. *)
Theorem reflection_read_back aW aR uR sid body now st reflection st' s :
  post_reflection aW sid body now st = (ReflectionOk reflection, st') →
  st !! ("session:" +:+ sid) = Some (VSession s) →
  authenticated aR uR →
  validateEmail (JStr (Reflection.studentEmail reflection)) = true →
  Session.organizerId s = AuthUser.id uR
  ∨ AuthUser.email uR = Some (Reflection.studentEmail reflection)
  ∨ isStudentOf s (AuthUser.email uR) = true →
  get_reflection aR sid (Reflection.studentEmail reflection) st'
  = inr (Some (VReflection reflection)).
Proof.
  intros Hsave Hs HaR Hemail Hwho.
  apply post_reflection_inv in Hsave
    as (u & e & b & responses & screenshots & completed & s0 & _ & _ & Hsid & _ & _ & _
        & _ & _ & _ & -> & ->).
  cbn [Reflection.studentEmail] in *.
  rewrite (get_reflection_value aR uR sid e _ s); [|done..|].
  - rewrite lookup_insert_eq.
    destruct Hwho as [ -> | [ -> | -> ] ].
    + by rewrite String.eqb_refl.
    + rewrite bool_decide_eq_true_2 by done. by rewrite orb_true_r.
    + by rewrite !orb_true_r.
  - rewrite lookup_insert_ne; [done|].
    intros H. by rewrite !append_cons in H.
Qed.

Lemma reflection_read_back_witness :
  get_reflection (Sample.signedIn Sample.bob) Sample.sid "alice@x.com"
    (snd (post_reflection (Sample.signedIn Sample.alice) Sample.sid
            (Sample.reflectionBody (JBool false)) "t2" Sample.stE))
  = inr (Some (VReflection (Sample.reflectionOfAlice (JBool false)))).
Proof.
  apply (reflection_read_back (Sample.signedIn Sample.alice) (Sample.signedIn Sample.bob)
           Sample.bob Sample.sid (Sample.reflectionBody (JBool false)) "t2" Sample.stE
           (Sample.reflectionOfAlice (JBool false)) _ Sample.demoE).
  - apply pair_eq; [vm_compute; reflexivity|reflexivity].
  - vm_compute. reflexivity.
  - repeat split; [by eexists|done].
  - reflexivity.
  - right. right. reflexivity.
Defined.

(** ** Projects and feedback lists *)

(** X9.  For the organizer and the callers on the roster, on a store the
    server has written, [GET /projects] lists exactly the stored Reflection
    records of that session that are completed and are not the caller's own:
    an incomplete reflection and the caller's own one never appear. *)
Theorem projects_listed a u sid st s p :
  store_ok st → authenticated a u → validateUUID sid = true →
  st !! ("session:" +:+ sid) = Some (VSession s) →
  Session.organizerId s = AuthUser.id u ∨ isStudentOf s (AuthUser.email u) = true →
  ∃ projects,
    get_projects a sid st = inr projects ∧
    (p ∈ projects ↔
     ∃ r, st !! ("reflection:" +:+ sid +:+ ":" +:+ Reflection.studentEmail r)
          = Some (VReflection r) ∧
          Reflection.completed r = JBool true ∧
          Some (Reflection.studentEmail r) ≠ AuthUser.email u ∧
          projectOf (AuthUser.email u) (VReflection r) = Some p).
Proof.
  intros Hst Ha Hsid Hs Hwho.
  apply (authenticate_inr a "Missing authorization token") in Ha.
  unfold get_projects. rewrite Ha. cbn [bindH]. rewrite Hsid. cbn [require bindH].
  unfold getSession, kv.get. rewrite Hs. cbn [bindH].
  assert ((Session.organizerId s =? AuthUser.id u)%string
          || isStudentOf s (AuthUser.email u) = true) as Hok.
  { destruct Hwho as [ -> | -> ]; [by rewrite String.eqb_refl|by rewrite orb_true_r]. }
  apply orb_true_iff in Hok.
  replace (negb (negb (Session.organizerId s =? AuthUser.id u)%string
                 && negb (isStudentOf s (AuthUser.email u)))) with true
    by (destruct Hok as [ -> | -> ]; [done|by rewrite andb_false_r]).
  cbn [require bindH]. eexists. split; [reflexivity|].
  rewrite getByPrefix_reflections by done.
  rewrite list_elem_of_omap. unfold session_reflections. split.
  - intros (v & [Hv Hsess]%elem_of_filter_bool & Hp).
    apply elem_of_records in Hv as [k Hk].
    destruct v as [| |r|]; try discriminate.
    destruct (Hst _ _ Hk) as [-> [_ [b Hb]]].
    simpl in Hsess. apply String.eqb_eq in Hsess.
    exists r. simpl in Hk. rewrite Hsess in Hk. split; [done|].
    unfold projectOf, completedOf in Hp. rewrite Hb in Hp |- *. simpl in Hp.
    destruct b; [|discriminate]. split; [done|].
    case_bool_decide as Hown; [discriminate|]. split; [done|].
    unfold projectOf, completedOf. rewrite Hb. simpl.
    by rewrite bool_decide_eq_false_2.
  - intros (r & Hk & Hc & Hown & Hp). exists (VReflection r). split; [|done].
    apply elem_of_filter_bool. split; [apply elem_of_records; eauto|].
    destruct (Hst _ _ Hk) as [Hkey [Hr _]]. simpl.
    apply String.eqb_eq.
    by destruct (reflection_key_inj _ _ _ Hsid Hr Hkey).
Qed.

Lemma projects_listed_witness :
  ∃ projects,
    get_projects (Sample.signedIn Sample.bob) Sample.sid Sample.stR = inr projects ∧
    (Project.mk "alice@x.com" "alice@x.com" "A game" (JArr [JStr "s1"; JStr "s2"; JStr "s3"])
       (sanitizeResponses (JObj [("projectSummary", JStr "A game")])) ∈ projects ↔
     ∃ r, Sample.stR !! ("reflection:" +:+ Sample.sid +:+ ":" +:+ Reflection.studentEmail r)
          = Some (VReflection r) ∧
          Reflection.completed r = JBool true ∧
          Some (Reflection.studentEmail r) ≠ AuthUser.email Sample.bob ∧
          projectOf (AuthUser.email Sample.bob) (VReflection r)
          = Some (Project.mk "alice@x.com" "alice@x.com" "A game"
                    (JArr [JStr "s1"; JStr "s2"; JStr "s3"])
                    (sanitizeResponses (JObj [("projectSummary", JStr "A game")])))).
Proof.
  apply (projects_listed (Sample.signedIn Sample.bob) Sample.bob Sample.sid Sample.stR
           Sample.demoR).
  - apply run_store_ok, store_ok_empty.
  - repeat split; [by eexists|done].
  - reflexivity.
  - vm_compute. reflexivity.
  - right. reflexivity.
Defined.

(** X10.  For the organizer of the session and for the caller the email
    belongs to (case ignored), on a store the server has written,
    [GET /feedback] lists exactly the stored Feedback records of that session
    that are addressed to the email, case ignored. *)
Theorem feedback_listed a u sid email st s v :
  store_ok st → authenticated a u → validateUUID sid = true →
  validateEmail (JStr email) = true →
  st !! ("session:" +:+ sid) = Some (VSession s) →
  Session.organizerId s = AuthUser.id u
  ∨ (∃ e, AuthUser.email u = Some e ∧ JS.toLowerCase e = JS.toLowerCase email) →
  ∃ l, get_feedback a sid email st = inr l ∧
       (v ∈ l ↔
        ∃ f, v = VFeedback f ∧ st !! key_of v = Some v ∧ Feedback.sessionId f = sid ∧
             JS.toLowerCase (Feedback.toStudent f) = JS.toLowerCase email).
Proof.
  intros Hst Ha Hsid Hemail Hs Hwho.
  apply (authenticate_inr a "Missing authorization token") in Ha.
  unfold get_feedback. rewrite Ha. cbn [bindH]. rewrite Hsid. cbn [require bindH].
  rewrite Hemail. cbn [require bindH].
  unfold getSession, kv.get. rewrite Hs. cbn [bindH].
  match goal with |- context [require ?b _ _] => assert (b = true) as -> end.
  { destruct Hwho as [ -> | (e & -> & ->) ]; rewrite String.eqb_refl; [done|].
    by rewrite andb_false_r. }
  cbn [require bindH]. eexists. split; [reflexivity|].
  rewrite getByPrefix_feedback by done. unfold session_feedback.
  rewrite !elem_of_filter_bool, elem_of_records. split.
  - intros [[[k Hk] Hsess] Hto]. destruct (Hst _ _ Hk) as [-> _].
    destruct v as [| | |f]; try discriminate. exists f.
    simpl in Hsess, Hto. apply String.eqb_eq in Hsess, Hto. done.
  - intros (f & -> & Hk & <- & Hto). simpl.
    rewrite Hto, !String.eqb_refl. eauto.
Qed.

Lemma feedback_listed_witness :
  ∃ l, get_feedback (Sample.signedIn Sample.olivia) Sample.sid Latin1.E_acute Latin1.stF
       = inr l ∧
       (VFeedback Latin1.toEloise ∈ l ↔
        ∃ f, VFeedback Latin1.toEloise = VFeedback f ∧
             Latin1.stF !! key_of (VFeedback Latin1.toEloise)
             = Some (VFeedback Latin1.toEloise) ∧
             Feedback.sessionId f = Sample.sid ∧
             JS.toLowerCase (Feedback.toStudent f) = JS.toLowerCase Latin1.E_acute).
Proof.
  apply (feedback_listed (Sample.signedIn Sample.olivia) Sample.olivia Sample.sid
           Latin1.E_acute Latin1.stF Latin1.demo).
  - apply run_store_ok, store_ok_empty.
  - repeat split; [by eexists|done].
  - reflexivity.
  - reflexivity.
  - vm_compute. reflexivity.
  - left. reflexivity.
Defined.

(** ** Stored records are well formed *)

Lemma sanitizeResponses_bounded responses k s :
  sanitizeResponses responses !! k = Some s → (N.of_nat (String.length s) ≤ 10000)%N.
Proof.
  unfold sanitizeResponses. destruct (Json.truthy responses); [|by rewrite lookup_empty].
  generalize (entries responses). intros l. revert k s.
  assert (∀ (acc : gmap string string),
            (∀ k s, acc !! k = Some s → (N.of_nat (String.length s) ≤ 10000)%N) →
            ∀ k s,
              foldl (λ acc e, match e.2 with
                              | JStr value =>
                                  if (e.1 =? "__proto__")%string then acc
                                  else <[e.1 := sanitizeString value]> acc
                              | _ => acc
                              end) acc l !! k = Some s →
              (N.of_nat (String.length s) ≤ 10000)%N) as H.
  { induction l as [|e l IH]; intros acc Hacc; [exact Hacc|].
    simpl. apply IH. destruct (e.2); try exact Hacc.
    destruct (e.1 =? "__proto__")%string; [exact Hacc|].
    intros k' s'. rewrite lookup_insert. case_decide; [|apply Hacc].
    intros [= <-]. apply slice0_length_bound. }
  apply H. intros k s. by rewrite lookup_empty.
Qed.

Lemma sanitizeString_fits s n :
  (N.of_nat (String.length s) ≤ n)%N → (N.of_nat (String.length (sanitizeString s)) ≤ n)%N.
Proof. pose proof (sanitizeString_length_le s). lia. Qed.

Lemma records_wf_set (st : Store) k v :
  records_wf st →
  match v with
  | VFeedback f => feedback_wf f
  | VReflection r => reflection_wf r
  | _ => True
  end →
  records_wf (kv.set k v st).
Proof.
  intros Hst Hv k' v'. unfold kv.set. rewrite lookup_insert.
  case_decide; [by intros [= <-]|apply Hst].
Qed.

Lemma handle_records_wf r st : records_wf st → records_wf (snd (handle r st)).
Proof.
  intros Hst.
  destruct (handle r st) as [resp st'] eqn:H. cbn [snd].
  destruct r; cbn [handle] in H;
    try (injection H as <- <-; exact Hst);
    unfold post_signup, post_session, post_roster, post_start, post_advance,
      post_complete, post_reopen, post_archive, post_reflection, post_feedback in H;
    apply respond_inv in H as [[_ ->]|H]; try exact Hst; invH;
    apply records_wf_set; try exact Hst; try exact I.
  - (* a reflection *)
    destruct Hx as (_ & _ & Hne). cbn [snd] in *.
    split; [|split; [apply sanitizeResponses_bounded|exact Hne]].
    match goal with
    | H : negb (Json.truthy ?sc && match ?sc with JArr _ => _ | _ => _ end) = true |- _ =>
        rename H into Hsc; destruct sc as [| |[]|num|txt|items|]
    end; cbn -[Nat.ltb] in Hsc |- *; try discriminate;
      try (by exists []; split; [|simpl; lia]).
    + destruct (num =? 0)%Z; cbn in Hsc |- *; [|discriminate].
      by exists []; split; [|simpl; lia].
    + destruct txt; cbn in Hsc |- *; [|discriminate].
      by exists []; split; [|simpl; lia].
    + exists items. split; [done|]. by apply negb_true_iff, Nat.ltb_ge in Hsc.
  - (* a feedback *)
    cbn [snd] in *.
    match goal with H : negb (_ =? _)%string = true |- _ =>
      apply negb_true_iff, String.eqb_neq in H; rename H into Hself end.
    split; [apply toLowerCase_idemp|]. split; [by intros Heq; apply Hself|].
    split; apply sanitizeString_fits.
    + destruct x3; try discriminate. by apply N.leb_le.
    + destruct x4; try discriminate. by apply N.leb_le.
Qed.

Lemma run_records_wf rs st : records_wf st → records_wf (run rs st).
Proof.
  revert st. induction rs as [|r rs IH]; intros st Hst; [exact Hst|].
  apply IH, handle_records_wf, Hst.
Qed.

(** X12.  No run of the server stores self-feedback or oversized feedback:
    every Feedback record in the store has a lower-case recipient that differs
    from the author's email even when case is ignored, a critique of at most
    5000 characters and questions of at most 2000. *)
Theorem stored_feedback_well_formed rs k f :
  run rs ∅ !! k = Some (VFeedback f) →
  JS.toLowerCase (Feedback.toStudent f) = Feedback.toStudent f ∧
  JS.toLowerCase (Feedback.fromStudent f) ≠ JS.toLowerCase (Feedback.toStudent f) ∧
  (N.of_nat (String.length (Feedback.critiques f)) ≤ 5000)%N ∧
  (N.of_nat (String.length (Feedback.questions f)) ≤ 2000)%N.
Proof.
  intros Hk.
  assert (records_wf (run rs ∅)) as Hwf.
  { apply run_records_wf. intros k' v'. by rewrite lookup_empty. }
  destruct (Hwf _ _ Hk) as (Hlow & Hself & Hc & Hq).
  rewrite Hlow. done.
Qed.

Lemma stored_feedback_well_formed_witness :
  JS.toLowerCase (Feedback.toStudent Latin1.toEloise) = Feedback.toStudent Latin1.toEloise ∧
  JS.toLowerCase (Feedback.fromStudent Latin1.toEloise)
  ≠ JS.toLowerCase (Feedback.toStudent Latin1.toEloise) ∧
  (N.of_nat (String.length (Feedback.critiques Latin1.toEloise)) ≤ 5000)%N ∧
  (N.of_nat (String.length (Feedback.questions Latin1.toEloise)) ≤ 2000)%N.
Proof.
  apply (stored_feedback_well_formed Latin1.requestsF
           (key_of (VFeedback Latin1.toEloise))).
  vm_compute. reflexivity.
Defined.

(** X13.  Every Reflection record a run of the server stores has an array
    of at most 10 screenshots and responses of at most 10000 characters
    each. *)
Theorem stored_reflection_well_formed rs k r :
  run rs ∅ !! k = Some (VReflection r) →
  (∃ l, Reflection.screenshots r = JArr l ∧ length l ≤ 10) ∧
  (∀ key s, Reflection.responses r !! key = Some s →
            (N.of_nat (String.length s) ≤ 10000)%N).
Proof.
  intros Hk.
  assert (records_wf (run rs ∅)) as Hwf.
  { apply run_records_wf. intros k' v'. by rewrite lookup_empty. }
  destruct (Hwf _ _ Hk) as (Hsc & Hresp & _). done.
Qed.

Lemma stored_reflection_well_formed_witness :
  (∃ l, Reflection.screenshots (Sample.reflectionOfAlice (JBool true)) = JArr l
        ∧ length l ≤ 10) ∧
  (∀ key s, Reflection.responses (Sample.reflectionOfAlice (JBool true)) !! key = Some s →
            (N.of_nat (String.length s) ≤ 10000)%N).
Proof.
  apply (stored_reflection_well_formed Sample4.requests
           (key_of (VReflection (Sample.reflectionOfAlice (JBool true))))).
  vm_compute. reflexivity.
Defined.

Lemma record_unique_stored (st : Store) (P : Value → bool) v :
  store_ok st → st !! key_of v = Some v → P v = true →
  (∀ k v', st !! k = Some v' → P v' = true → key_of v' = key_of v) →
  List.filter P (records st) = [v].
Proof.
  intros Hst Hv HP Hkey. unfold records. rewrite filter_map_snd.
  rewrite (filter_unique _ _ (key_of v, v)); [done| | |done|].
  - apply NoDup_map_to_list.
  - by apply elem_of_map_to_list.
  - intros [k' v'] Hin HP'. simpl in HP'.
    apply elem_of_map_to_list in Hin.
    pose proof (Hkey _ _ Hin HP') as Hk.
    destruct (Hst _ _ Hin) as [-> _].
    rewrite Hk in Hin |- *. congruence.
Qed.

Lemma filter_andb_bool {A} (P Q : A → bool) (l : list A) :
  List.filter P (List.filter Q l) = List.filter (fun x => Q x && P x) l.
Proof.
  induction l as [|a l IH]; simpl; [done|].
  destruct (Q a); simpl; [|done]. destruct (P a); by rewrite IH.
Qed.

(** X11.  Accepted feedback reaches its recipient: right after a submission
    is accepted, the recipient (signed in with the email, in any case of
    letters) finds the record in [GET /feedback] for that email, and it is the
    only record there from that author. *)
Theorem feedback_reaches_recipient aA aB uB eB sid body now st feedback st' :
  store_ok st → records_wf st →
  post_feedback aA sid body now st = (FeedbackOk feedback, st') →
  authenticated aB uB → AuthUser.email uB = Some eB →
  validateEmail (JStr eB) = true →
  JS.toLowerCase eB = Feedback.toStudent feedback →
  ∃ l, get_feedback aB sid eB st' = inr l ∧
       List.filter (fun v => (fromStudentOf v =? Feedback.fromStudent feedback)%string) l
       = [VFeedback feedback].
Proof.
  intros Hst Hwf Hpost HaB HeB Hvalid Hto.
  assert (store_ok st' ∧ records_wf st') as [Hst' Hwf'].
  { pose proof (handle_store_ok (SubmitFeedback aA sid body now) st Hst) as H.
    pose proof (handle_records_wf (SubmitFeedback aA sid body now) st Hwf) as H'.
    simpl in H, H'. by rewrite Hpost in H, H'. }
  apply post_feedback_inv in Hpost
    as (u & e & b & to & c & q & s & _ & _ & Hsid & _ & _ & _ & _ & _ & _ & Hs & _ & _
        & Hf & ->).
  apply (authenticate_inr aB "Missing authorization token") in HaB.
  unfold get_feedback. rewrite HaB. cbn [bindH]. rewrite Hsid. cbn [require bindH].
  rewrite Hvalid. cbn [require bindH].
  unfold getSession, kv.get. rewrite lookup_insert_ne, Hs;
    [|rewrite Hf; simpl; intros H; by rewrite !append_cons in H].
  cbn [bindH]. rewrite HeB, String.eqb_refl, andb_false_r. cbn [require bindH].
  eexists. split; [reflexivity|].
  rewrite getByPrefix_feedback by done. unfold session_feedback.
  rewrite !filter_andb_bool.
  apply record_unique_stored; [done|by rewrite lookup_insert_eq|..].
  - subst feedback. cbn in Hto |- *.
    by rewrite <-Hto, toLowerCase_idemp, !String.eqb_refl.
  - intros k [| | |f] Hk Hv; cbn in Hv; try discriminate.
    apply andb_prop in Hv as [H1 [H2 H3]%andb_prop].
    apply String.eqb_eq in H1, H2, H3.
    destruct (Hwf' _ _ Hk) as [Hlow _].
    assert (Feedback.toStudent f = Feedback.toStudent feedback) as H4.
    { rewrite <-Hlow, H2. exact Hto. }
    cbn. rewrite H1, H3, H4. subst feedback. reflexivity.
Qed.

Lemma feedback_reaches_recipient_witness :
  ∃ l, get_feedback (Sample.signedIn Sample.Alice) Sample.sid "Alice@x.com" Sample.stF1
       = inr l ∧
       List.filter (fun v => (fromStudentOf v =? Feedback.fromStudent Sample.first)%string) l
       = [VFeedback Sample.first].
Proof.
  apply (feedback_reaches_recipient (Sample.signedIn Sample.bob)
           (Sample.signedIn Sample.Alice) Sample.Alice "Alice@x.com" Sample.sid
           (Sample.feedbackBody "alice@x.com" "First" "Why?") "t3" Sample.stE).
  - apply run_store_ok, store_ok_empty.
  - apply run_records_wf. intros k v. by rewrite lookup_empty.
  - apply pair_eq; [vm_compute; reflexivity|reflexivity].
  - repeat split; [by eexists|done].
  - reflexivity.
  - reflexivity.
  - reflexivity.
Defined.

(** ** Screenshot upload *)

Lemma all_chars_slice0 p n s :
  JS.all_chars p s = true → JS.all_chars p (JS.slice0 n s) = true.
Proof.
  revert n. induction s as [|c s IH]; intros n; [done|].
  rewrite all_chars_cons. intros [Hc Hs]%andb_prop. cbn [JS.slice0].
  destruct (n =? 0)%N; [done|]. rewrite all_chars_cons, Hc. by apply IH.
Qed.

Lemma replaceUnsafe_safe s :
  JS.all_chars (fun c => Upload.safe_char c || Ascii.eqb c "_") (Upload.replaceUnsafe s)
  = true.
Proof.
  induction s as [|c s IH]; [done|]. cbn [Upload.replaceUnsafe].
  rewrite all_chars_cons, IH, andb_true_r.
  destruct (Upload.safe_char c) eqn:Hc; [by rewrite Hc|].
  by rewrite orb_true_r.
Qed.

Lemma replaceUnsafe_id s :
  JS.all_chars Upload.safe_char s = true → Upload.replaceUnsafe s = s.
Proof.
  induction s as [|c s IH]; [done|]. rewrite all_chars_cons.
  intros [Hc Hs]%andb_prop. cbn [Upload.replaceUnsafe]. by rewrite Hc, IH.
Qed.

Lemma replaceUnsafe_length s : String.length (Upload.replaceUnsafe s) = String.length s.
Proof. induction s as [|c s IH]; [done|]. simpl. by rewrite IH. Qed.

Lemma includes_char p s c :
  JS.all_chars p s = true → p c = false → JS.includes s (String c EmptyString) = false.
Proof.
  intros Hs Hc. induction s as [|d s IH]; [done|].
  rewrite all_chars_cons in Hs. apply andb_prop in Hs as [Hd Hs].
  cbn [JS.includes]. rewrite prefix_cons, IH, orb_false_r by done.
  destruct (Ascii.eqb_spec c d) as [->|]; [congruence|done].
Qed.

(** X14.  The file name that goes into the storage path holds only letters,
    digits, dots, hyphens and underscores, so no path separator, and at most
    100 characters; a name of at most 100 such characters is kept as it is. *)
Theorem upload_name_sanitized name :
  JS.all_chars (fun c => Upload.safe_char c || Ascii.eqb c "_") (Upload.sanitizedName name)
  = true ∧
  String.length (Upload.sanitizedName name) ≤ 100 ∧
  JS.includes (Upload.sanitizedName name) "/" = false ∧
  (JS.all_chars Upload.safe_char name = true → String.length name ≤ 100 →
   Upload.sanitizedName name = name).
Proof.
  unfold Upload.sanitizedName.
  assert (JS.all_chars (fun c => Upload.safe_char c || Ascii.eqb c "_")
            (JS.slice0 100 (Upload.replaceUnsafe name)) = true) as Hall
    by apply all_chars_slice0, replaceUnsafe_safe.
  split; [done|]. split.
  { pose proof (slice0_length_bound 100 (Upload.replaceUnsafe name)). lia. }
  split; [by eapply includes_char|].
  intros Hsafe Hlen. rewrite replaceUnsafe_id by done. apply slice0_short. lia.
Qed.

Lemma upload_name_sanitized_witness :
  Upload.sanitizedName "photo-1.png" = "photo-1.png".
Proof. apply upload_name_sanitized; [reflexivity|simpl; lia]. Defined.

(** X15.  An upload is accepted only from an authenticated caller with an
    email who is on the roster of the session named in the form (letter for
    letter), for a file of at most 10 MB whose type is one of the four image
    types, and when the storage service takes it; the path answered is
    [sessionId/email/uuid-name] with the sanitized file name. *)
Theorem upload_accepted a form uuid uploadError signedUrl st url path :
  Upload.post_upload_screenshot a form uuid uploadError signedUrl st = inr (url, path) →
  ∃ u email f sid s,
    authenticated a u ∧ AuthUser.email u = Some email ∧
    form = Some (Some (Upload.FFile f), Some (Upload.FText sid)) ∧
    validateUUID sid = true ∧
    (Upload.size f ≤ Upload.MAX_FILE_SIZE)%N ∧
    Upload.type f ∈ Upload.ALLOWED_MIME_TYPES ∧
    st !! ("session:" +:+ sid) = Some (VSession s) ∧
    isStudentOf s (Some email) = true ∧
    uploadError = false ∧ url = signedUrl ∧
    path = sid +:+ "/" +:+ email +:+ "/" +:+ uuid +:+ "-"
           +:+ Upload.sanitizedName (Upload.name f).
Proof.
  unfold Upload.post_upload_screenshot. intros H. invH.
  destruct Hx as (Ha & He & _). cbn [snd] in *.
  eexists _, _, _, _, _. do 3 (split; [done|]). split; [done|].
  split; [by apply negb_true_iff, N.ltb_ge in Hx2|].
  split; [by apply bool_decide_eq_true in Hx3|].
  do 2 (split; [done|]). split; [by destruct uploadError|]. done.
Qed.

Lemma upload_accepted_witness :
  ∃ u email f sid s,
    authenticated (Sample.signedIn Sample.alice) u ∧ AuthUser.email u = Some email ∧
    Sample5.form = Some (Some (Upload.FFile f), Some (Upload.FText sid)) ∧
    validateUUID sid = true ∧
    (Upload.size f ≤ Upload.MAX_FILE_SIZE)%N ∧
    Upload.type f ∈ Upload.ALLOWED_MIME_TYPES ∧
    Sample.stE !! ("session:" +:+ sid) = Some (VSession s) ∧
    isStudentOf s (Some email) = true ∧
    false = false ∧ Some "https://signed" = Some "https://signed" ∧
    Sample.sid +:+ "/alice@x.com/u1-.._my_photo__1_.png"
    = sid +:+ "/" +:+ email +:+ "/" +:+ "u1" +:+ "-"
      +:+ Upload.sanitizedName (Upload.name f).
Proof.
  apply (upload_accepted (Sample.signedIn Sample.alice) Sample5.form "u1" false
           (Some "https://signed") Sample.stE).
  vm_compute. reflexivity.
Defined.

(** ** The dialogue route *)

Lemma validateMessage_inr msg u :
  Dialogue.validateMessage msg = inr u →
  ∃ l role content,
    msg = JObj l ∧ Json.assoc "role" l = JStr role ∧
    Json.assoc "content" l = JStr content ∧
    role ∈ ["user"; "ai"; "assistant"] ∧
    content ≠ EmptyString ∧ String.length content ≤ Dialogue.MAX_MESSAGE_LENGTH.
Proof.
  unfold Dialogue.validateMessage. intros H. invH.
  destruct msg as [| | | | |items|l]; try discriminate;
    cbn [Json.prop] in *; simplify_eq; try discriminate.
  destruct (Json.assoc "content" l) as [| | | |content| |] eqn:Hcontent; try discriminate.
  destruct (Json.assoc "role" l) as [| | | |role| |] eqn:Hrole; try discriminate.
  exists l, role, content. do 3 (split; [done|]).
  apply andb_prop in Hx0 as [_ Hc]. cbn in Hc, H.
  split.
  { apply orb_prop in H as [[H|H]%orb_prop|H]; apply String.eqb_eq in H as ->; in_list. }
  split; [|by apply Nat.leb_le].
  intros ->. discriminate.
Qed.

Lemma validateMessages_inr messages u :
  Dialogue.validateMessages messages = inr u →
  Forall (fun msg => Dialogue.validateMessage msg = inr tt) messages.
Proof.
  induction messages as [|msg rest IH]; [constructor|].
  cbn [Dialogue.validateMessages]. intros (x & Hx & H)%bindH_inr.
  destruct x. constructor; [done|]. by apply IH.
Qed.

(** X16.  The messages that pass the checks of the dialogue route are
    objects with a role among user, ai, assistant and a non-empty content of
    at most 2000 characters; each is forwarded, in order, with its content
    sanitized and with the role assistant when its role is ai and the role
    user otherwise, so also when its role is assistant. *)
Theorem dialogue_forwarded_messages messages :
  Dialogue.validateMessages messages = inr tt →
  Forall2 (fun msg out =>
             ∃ l role content,
               msg = JObj l ∧ Json.assoc "role" l = JStr role ∧
               Json.assoc "content" l = JStr content ∧
               role ∈ ["user"; "ai"; "assistant"] ∧
               content ≠ EmptyString ∧ String.length content ≤ 2000 ∧
               out = (if (role =? "ai")%string then "assistant" else "user",
                      sanitizeString content))
    messages (Dialogue.anthropicMessages messages).
Proof.
  intros H%validateMessages_inr. unfold Dialogue.anthropicMessages.
  induction H as [|msg rest Hmsg _ IH]; [constructor|].
  cbn [map]. constructor; [|exact IH].
  apply validateMessage_inr in Hmsg as (l & role & content & -> & Hr & Hc & Hin & Hne & Hlen).
  exists l, role, content. do 5 (split; [done|]). split; [done|].
  unfold Dialogue.anthropicMessage. by rewrite Hr, Hc.
Qed.

Lemma dialogue_forwarded_messages_witness :
  Forall2 (fun msg out =>
             ∃ l role content,
               msg = JObj l ∧ Json.assoc "role" l = JStr role ∧
               Json.assoc "content" l = JStr content ∧
               role ∈ ["user"; "ai"; "assistant"] ∧
               content ≠ EmptyString ∧ String.length content ≤ 2000 ∧
               out = (if (role =? "ai")%string then "assistant" else "user",
                      sanitizeString content))
    Sample5.messages
    [("assistant", "What did you build?"); ("user", "A game."); ("user", "Why?")].
Proof. apply (dialogue_forwarded_messages Sample5.messages). reflexivity. Defined.

Lemma authenticate_inl a m r :
  authenticate a m = inl r → r = Error m 401 ∨ r = Error "Unauthorized" 401.
Proof. unfold authenticate. repeat case_match; intros [= <-]; auto. Qed.

Lemma validateMessage_inl msg r :
  Dialogue.validateMessage msg = inl r →
  (∃ e, r = Error e 400) ∨ r = ErrorFallback "AI reflection failed" 500.
Proof.
  unfold Dialogue.validateMessage, require, bindH.
  intros H. repeat case_match; simplify_eq; eauto.
Qed.

Lemma validateMessages_inl messages r :
  Dialogue.validateMessages messages = inl r →
  (∃ e, r = Error e 400) ∨ r = ErrorFallback "AI reflection failed" 500.
Proof.
  induction messages as [|msg rest IH]; [discriminate|].
  cbn [Dialogue.validateMessages]. unfold bindH at 1.
  destruct (Dialogue.validateMessage msg) as [r'|[]] eqn:Hmsg; [|exact IH].
  intros [= <-]. by eapply validateMessage_inl.
Qed.

(** X17.  The answers of the dialogue route: a refusal without the fallback
    flag has status 400 or 401 and is the same whatever the key and whatever
    the dialogue service does; an answer with the fallback flag has status
    500; and a reply is answered only when the key is set and the service
    answered. *)
Theorem dialogue_answers a body anthropicKey upstream :
  match Dialogue.post_ai_reflection a body anthropicKey upstream with
  | Error e code =>
      (code = 400 ∨ code = 401) ∧
      ∀ anthropicKey' upstream',
        Dialogue.post_ai_reflection a body anthropicKey' upstream' = Error e code
  | ErrorFallback _ code => code = 500
  | AiOk _ _ =>
      (∃ key, anthropicKey = Some key ∧ key ≠ EmptyString) ∧
      ∃ data, upstream = Dialogue.Ok data
  | _ => False
  end.
Proof.
  unfold Dialogue.post_ai_reflection.
  destruct (authenticate a "Missing access token") as [r|u] eqn:Ha; cbn [bindH].
  { apply authenticate_inl in Ha as [-> | ->]; auto. }
  destruct body as [b|]; cbn [parseBody bindH]; [|auto].
  destruct (Json.prop b "messages") as [messages|]; [|done].
  destruct (Json.prop b "sessionId") as [sessionId|]; [|done].
  destruct messages as [| | | | |l|]; auto.
  destruct (negb (Dialogue.MAX_MESSAGES <? length l)); cbn [require bindH]; [|auto].
  destruct (Dialogue.validateMessages l) as [r|[]] eqn:Hl; cbn [bindH].
  { apply validateMessages_inl in Hl as [[e ->]| ->]; auto. }
  destruct (negb _); cbn [require bindH]; [|auto].
  destruct anthropicKey as [[|c key]|]; try done.
  destruct upstream as [| |data]; try done.
  unfold ai_reflection_reply. repeat case_match; simplify_eq; try done.
  all: split; [by eexists|by eexists].
Qed.

(** ** Who may write *)

Lemma authenticate_refused a m :
  (∀ u, ¬ authenticated a u) → ∃ e, authenticate a m = inl (Error e 401).
Proof.
  intros Hno. destruct (authenticate a m) as [r|u] eqn:Ha.
  - apply authenticate_inl in Ha as [-> | ->]; eauto.
  - apply authenticate_inr in Ha. by destruct (Hno u).
Qed.

(** X18.  A credential that does not resolve to a user gets status 401 from
    every route that asks for one, and nothing is written: the routes that
    create sessions, replace rosters, move phases and save reflections and
    feedback, the routes that read a session, the sessions, the progress, a
    reflection, the projects and the feedback, the upload and the dialogue.
    Signup and signin ask for no credential. *)
Theorem no_identity_no_write a st :
  (∀ u, ¬ authenticated a u) →
  (∀ r, auth_of r = Some a → ∃ e, handle r st = (Error e 401, st)) ∧
  (∃ e, get_sessions a st = Error e 401) ∧
  (∀ sid email, ∃ e, get_reflection a sid email st = inl (Error e 401)) ∧
  (∀ sid, ∃ e, get_projects a sid st = inl (Error e 401)) ∧
  (∀ sid email, ∃ e, get_feedback a sid email st = inl (Error e 401)) ∧
  (∀ form uuid uploadError signedUrl,
     ∃ e, Upload.post_upload_screenshot a form uuid uploadError signedUrl st
          = inl (Error e 401)) ∧
  (∀ body anthropicKey upstream,
     ∃ e, Dialogue.post_ai_reflection a body anthropicKey upstream = Error e 401).
Proof.
  intros Hno. split; [|repeat split].
  - intros r Hr.
    destruct r; cbn [auth_of] in Hr; simplify_eq; cbn [handle];
      unfold post_session, post_roster, post_start, post_advance, post_complete,
        post_reopen, post_archive, get_session, post_reflection, post_feedback,
        get_progress, authenticate_email;
      match goal with
      | |- context [authenticate a ?m] =>
          destruct (authenticate_refused a m Hno) as [e ->]
      end; cbn [bindH respond fst]; eauto.
  - unfold get_sessions.
    destruct (authenticate_refused a "Missing authorization token" Hno) as [e ->].
    cbn [bindH respond fst]. eauto.
  - intros sid email. unfold get_reflection.
    destruct (authenticate_refused a "Missing authorization token" Hno) as [e ->].
    cbn [bindH]. eauto.
  - intros sid. unfold get_projects.
    destruct (authenticate_refused a "Missing authorization token" Hno) as [e ->].
    cbn [bindH]. eauto.
  - intros sid email. unfold get_feedback.
    destruct (authenticate_refused a "Missing authorization token" Hno) as [e ->].
    cbn [bindH]. eauto.
  - intros form uuid uploadError signedUrl.
    unfold Upload.post_upload_screenshot, authenticate_email.
    destruct (authenticate_refused a "Missing authorization token" Hno) as [e ->].
    cbn [bindH]. eauto.
  - intros body anthropicKey upstream. unfold Dialogue.post_ai_reflection.
    destruct (authenticate_refused a "Missing access token" Hno) as [e ->].
    cbn [bindH]. eauto.
Qed.

Lemma no_identity_no_write_witness :
  (∀ r, auth_of r = Some Sample5.anonymous →
        ∃ e, handle r Sample.stE = (Error e 401, Sample.stE)) ∧
  (∃ e, get_sessions Sample5.anonymous Sample.stE = Error e 401) ∧
  (∀ sid email, ∃ e, get_reflection Sample5.anonymous sid email Sample.stE
                     = inl (Error e 401)) ∧
  (∀ sid, ∃ e, get_projects Sample5.anonymous sid Sample.stE = inl (Error e 401)) ∧
  (∀ sid email, ∃ e, get_feedback Sample5.anonymous sid email Sample.stE
                     = inl (Error e 401)) ∧
  (∀ form uuid uploadError signedUrl,
     ∃ e, Upload.post_upload_screenshot Sample5.anonymous form uuid uploadError signedUrl
            Sample.stE = inl (Error e 401)) ∧
  (∀ body anthropicKey upstream,
     ∃ e, Dialogue.post_ai_reflection Sample5.anonymous body anthropicKey upstream
          = Error e 401).
Proof.
  apply (no_identity_no_write Sample5.anonymous Sample.stE).
  intros u ([t Ht] & _). discriminate.
Defined.

Lemma session_key_inj a b : "session:" +:+ a = "session:" +:+ b → a = b.
Proof. apply (inj (String.app "session:")). Qed.

Lemma handle_session_step r st sid s :
  st !! ("session:" +:+ sid) = Some (VSession s) →
  uuid_of r ≠ Some sid →
  snd (handle r st) !! ("session:" +:+ sid) = Some (VSession s) ∨
  ∃ a u s', auth_of r = Some a ∧ authenticated a u ∧
            Session.organizerId s = AuthUser.id u ∧
            snd (handle r st) !! ("session:" +:+ sid) = Some (VSession s') ∧
            same_identity s s'.
Proof.
  intros Hs Hfresh.
  destruct (handle r st) as [resp st'] eqn:H. cbn [snd].
  destruct r; cbn [handle auth_of uuid_of] in *;
    try (injection H as <- <-; by left);
    unfold post_signup, post_session, post_roster, post_start, post_advance,
      post_complete, post_reopen, post_archive, post_reflection, post_feedback in H;
    apply respond_inv in H as [[_ ->]|H]; try (by left); invH;
    unfold kv.set; rewrite lookup_insert; case_decide as Hk;
    try (by left);
    try (by rewrite !append_cons in Hk).
  { apply session_key_inj in Hk. by subst. }
  all: apply session_key_inj in Hk; subst;
    match goal with
    | H1 : ?m !! ?k = Some (VSession ?s0), H2 : ?m !! ?k = Some (VSession ?s1) |- _ =>
        tryif constr_eq s0 s1 then fail else (assert (s0 = s1) as -> by congruence)
    end;
    right; eexists _, _, _; split; [reflexivity|]; split; [eassumption|];
    split; [eassumption|]; split; [reflexivity|]; by repeat split.
Qed.

(** X19.  Only its organizer changes a session: when a request leaves the
    record of a session different from what it was, the request carries a
    credential that resolves to the organizer of that session (the request
    is not the creation of a session under the same id). *)
Theorem session_changed_by_organizer r st sid s :
  st !! ("session:" +:+ sid) = Some (VSession s) →
  uuid_of r ≠ Some sid →
  snd (handle r st) !! ("session:" +:+ sid) ≠ Some (VSession s) →
  ∃ a u, auth_of r = Some a ∧ authenticated a u ∧
         AuthUser.id u = Session.organizerId s.
Proof.
  intros Hs Hfresh Hchanged.
  destruct (handle_session_step r st sid s Hs Hfresh)
    as [Hsame|(a & u & s' & Ha & Hu & Ho & _)]; [done|eauto].
Qed.

Lemma session_changed_by_organizer_witness :
  ∃ a u, auth_of Sample.enrol = Some a ∧ authenticated a u ∧
         AuthUser.id u = Session.organizerId Sample.demo.
Proof.
  apply (session_changed_by_organizer Sample.enrol Sample.st0 Sample.sid).
  - vm_compute. reflexivity.
  - discriminate.
  - assert (snd (handle Sample.enrol Sample.st0) !! ("session:" +:+ Sample.sid)
            = Some (VSession Sample.demoE)) as -> by (vm_compute; reflexivity).
    discriminate.
Defined.

(** X20.  Along a run in which no session is created under its id again, a
    stored session stays stored and keeps its id, organizer, organizer email,
    name and creation time: no route deletes or renames a session. *)
Theorem session_identity_persists rs st sid s :
  st !! ("session:" +:+ sid) = Some (VSession s) →
  Forall (fun r => uuid_of r ≠ Some sid) rs →
  ∃ s', run rs st !! ("session:" +:+ sid) = Some (VSession s') ∧ same_identity s s'.
Proof.
  intros Hs Hfresh. revert st s Hs.
  induction Hfresh as [|r rs Hr _ IH]; intros st s Hs.
  { exists s. by repeat split. }
  cbn [run foldl].
  destruct (handle_session_step r st sid s Hs Hr)
    as [Hsame|(a & u & s1 & _ & _ & _ & Hs1 & Hid)].
  - by apply IH.
  - destruct (IH _ _ Hs1) as (s' & Hs' & Hid'). exists s'. split; [done|].
    unfold same_identity in *. intuition congruence.
Qed.

Lemma session_identity_persists_witness :
  ∃ s', run [Sample.enrol; Start (Sample.signedIn Sample.olivia) Sample.sid "t1"] Sample.st0
          !! ("session:" +:+ Sample.sid) = Some (VSession s') ∧
        same_identity Sample.demo s'.
Proof.
  apply session_identity_persists.
  - vm_compute. reflexivity.
  - repeat constructor; discriminate.
Defined.

(** ** Writes do not look at the phase *)

(** X21.  Saving a reflection and submitting feedback do not look at the
    phase of the session: the answer is the same whatever the status of the
    stored session. *)
Theorem writes_ignore_phase a sid body now st s status :
  st !! ("session:" +:+ sid) = Some (VSession s) →
  fst (post_reflection a sid body now
         (<["session:" +:+ sid := VSession (Session.set_status status s)]> st))
  = fst (post_reflection a sid body now st) ∧
  fst (post_feedback a sid body now
         (<["session:" +:+ sid := VSession (Session.set_status status s)]> st))
  = fst (post_feedback a sid body now st).
Proof.
  intros Hs. unfold post_reflection, post_feedback. split.
  - destruct (authenticate_email a _) as [r|[u e]]; cbn [bindH respond fst snd]; [done|].
    destruct (validateUUID sid); cbn [require bindH respond fst]; [|done].
    destruct body as [b|]; cbn [parseBody bindH respond fst]; [|done].
    destruct (Json.prop b "responses") as [responses|]; cbn [orThrow bindH respond fst]; [|done].
    destruct (Json.prop b "screenshots") as [screenshots|]; cbn [orThrow bindH respond fst]; [|done].
    destruct (Json.prop b "completed") as [completed|]; cbn [orThrow bindH respond fst]; [|done].
    destruct (negb _); cbn [require bindH respond fst]; [|done].
    destruct (negb _); cbn [require bindH respond fst]; [|done].
    unfold getSession, kv.get. rewrite lookup_insert_eq, Hs. cbn [bindH requireEnrolled].
    unfold isStudentOf. cbn [Session.students Session.set_status].
    by destruct (existsb _ _).
  - destruct (authenticate_email a _) as [r|[u e]]; cbn [bindH respond fst snd]; [done|].
    destruct (validateUUID sid); cbn [require bindH respond fst]; [|done].
    destruct body as [b|]; cbn [parseBody bindH respond fst]; [|done].
    destruct (Json.prop b "toStudent") as [toStudent|]; cbn [orThrow bindH respond fst]; [|done].
    destruct (Json.prop b "critiques") as [critiques|]; cbn [orThrow bindH respond fst]; [|done].
    destruct (Json.prop b "questions") as [questions|]; cbn [orThrow bindH respond fst]; [|done].
    destruct (validateEmail toStudent); cbn [require bindH respond fst]; [|done].
    destruct toStudent as [| | | |to| |]; try done.
    destruct (negb _); cbn [require bindH respond fst]; [|done].
    destruct (validateTextContent critiques 5000); cbn [require bindH respond fst]; [|done].
    destruct (validateTextContent questions 2000); cbn [require bindH respond fst]; [|done].
    unfold getSession, kv.get. rewrite lookup_insert_eq, Hs. cbn [bindH requireEnrolled].
    unfold isStudentOf. cbn [Session.students Session.set_status].
    destruct (existsb _ _); cbn [bindH respond fst]; [|done].
    by destruct (existsb _ _).
Qed.

Lemma writes_ignore_phase_witness :
  fst (post_reflection (Sample.signedIn Sample.alice) Sample.sid
         (Sample.reflectionBody (JBool true)) "t2"
         (<["session:" +:+ Sample.sid
            := VSession (Session.set_status "archived" Sample.demoE)]> Sample.stE))
  = fst (post_reflection (Sample.signedIn Sample.alice) Sample.sid
           (Sample.reflectionBody (JBool true)) "t2" Sample.stE) ∧
  fst (post_feedback (Sample.signedIn Sample.alice) Sample.sid
         (Sample.reflectionBody (JBool true)) "t2"
         (<["session:" +:+ Sample.sid
            := VSession (Session.set_status "archived" Sample.demoE)]> Sample.stE))
  = fst (post_feedback (Sample.signedIn Sample.alice) Sample.sid
           (Sample.reflectionBody (JBool true)) "t2" Sample.stE).
Proof. apply writes_ignore_phase. vm_compute. reflexivity. Defined.

(** ** The list of sessions *)

Lemma scan_sessions k v :
  k = key_of v →
  String.prefix "session:" k = match v with VSession _ => true | _ => false end.
Proof.
  intros ->. destruct v as [u|s|r|f]; cbn [key_of];
    try (by rewrite !append_cons, prefix_cons).
  change (String.prefix "session:" ("session:" +:+ Session.id s))
    with (String.prefix ("session:" +:+ EmptyString) ("session:" +:+ Session.id s)).
  rewrite (prefix_app "session:"). apply prefix_nil.
Qed.

(** X22.  On a store the server has written, [GET /sessions] lists exactly
    the stored sessions that the caller organizes or whose roster holds the
    lower-case form of the caller's email. *)
Theorem sessions_listed a u st v :
  store_ok st → authenticated a u →
  ∃ l, get_sessions a st = SessionsOk l ∧
       (v ∈ l ↔
        ∃ s, v = VSession s ∧ st !! ("session:" +:+ Session.id s) = Some v ∧
             (Session.organizerId s = AuthUser.id u ∨
              ∃ e student, AuthUser.email u = Some e ∧ student ∈ Session.students s ∧
                           Student.email student = JS.toLowerCase e)).
Proof.
  intros Hst Ha.
  apply (authenticate_inr a "Missing authorization token") in Ha.
  unfold get_sessions. rewrite Ha. cbn [bindH respond fst].
  eexists. split; [reflexivity|].
  rewrite (getByPrefix_filter st "session:"
             (fun v => match v with VSession _ => true | _ => false end));
    [|intros k v' Hk; destruct (Hst _ _ Hk); by apply scan_sessions].
  rewrite !elem_of_filter_bool, elem_of_records. split.
  - intros [[[k Hk] Hv] Hwho]. destruct v as [|s| |]; try discriminate.
    destruct (Hst _ _ Hk) as [-> [_ Hlow]]. exists s. split; [done|]. split; [done|].
    apply orb_prop in Hwho as [Ho|Hs]; [left; by apply String.eqb_eq|right].
    destruct (AuthUser.email u) as [e|]; [|discriminate].
    apply existsb_exists in Hs as (student & Hin & He).
    exists e, student. split; [done|]. split; [by apply list_elem_of_In|].
    apply String.eqb_eq in He. rewrite <-He.
    rewrite Forall_forall in Hlow. symmetry. by apply Hlow, list_elem_of_In.
  - intros (s & -> & Hk & Hwho). split; [split; [eauto|done]|].
    apply orb_true_iff. destruct Hwho as [->|(e & student & -> & Hin & He)].
    + left. apply String.eqb_refl.
    + right. apply existsb_exists. exists student. split; [by apply list_elem_of_In|].
      rewrite He, toLowerCase_idemp. apply String.eqb_refl.
Qed.

Lemma sessions_listed_witness :
  ∃ l, get_sessions (Sample.signedIn Sample.Alice) Sample.stE = SessionsOk l ∧
       (VSession Sample.demoE ∈ l ↔
        ∃ s, VSession Sample.demoE = VSession s ∧
             Sample.stE !! ("session:" +:+ Session.id s) = Some (VSession Sample.demoE) ∧
             (Session.organizerId s = AuthUser.id Sample.Alice ∨
              ∃ e student, AuthUser.email Sample.Alice = Some e ∧
                           student ∈ Session.students s ∧
                           Student.email student = JS.toLowerCase e)).
Proof.
  apply sessions_listed.
  - apply run_store_ok, store_ok_empty.
  - repeat split; [by eexists|done].
Defined.

(** ** The progress of each participant *)

(** X23.  On a store the server has written, the progress the organizer
    reads has one row per roster entry, in roster order: reflectionComplete
    tells whether a Reflection with completed = true is stored under the key
    of that email, and feedbackCount is the number of Feedback records of the
    session written by that email. *)
Theorem progress_rows a u sid st s :
  store_ok st → authenticated a u → validateUUID sid = true →
  st !! ("session:" +:+ sid) = Some (VSession s) →
  Session.organizerId s = AuthUser.id u →
  ∃ p, get_progress a sid st = ProgressOk p ∧
       studentProgress p
       = map (fun student =>
                mkStudentProgress (Student.email student) (Student.name student)
                  (match st !! ("reflection:" +:+ sid +:+ ":" +:+ Student.email student) with
                   | Some (VReflection r) => Json.is_true (Reflection.completed r)
                   | _ => false
                   end)
                  (length (List.filter
                             (fun v => feedbackOf sid v
                                       && (fromStudentOf v =? Student.email student)%string)
                             (records st))))
           (Session.students s).
Proof.
  intros Hst Ha Hsid Hs Ho.
  apply (authenticate_inr a "Missing authorization token") in Ha.
  unfold get_progress. rewrite Ha. cbn [bindH]. rewrite Hsid. cbn [require bindH].
  unfold getSession, kv.get. rewrite Hs. cbn [bindH requireOrganizer].
  rewrite Ho, String.eqb_refl. cbn [bindH respond fst].
  eexists. split; [reflexivity|]. cbn [studentProgress].
  rewrite getByPrefix_reflections, getByPrefix_feedback by done.
  apply map_ext. intros student. f_equal.
  - apply eq_true_iff_eq. rewrite existsb_exists. split.
    + intros (v & [Hv Hsess]%list_elem_of_In%elem_of_filter_bool & Hc).
      apply elem_of_records in Hv as [k Hk].
      destruct v as [| |r|]; try discriminate.
      destruct (Hst _ _ Hk) as [-> [_ [b Hb]]].
      cbn in Hsess, Hc. apply String.eqb_eq in Hsess.
      apply andb_prop in Hc as [He Hc]. apply bool_decide_eq_true in He.
      injection He as He. cbn [key_of] in Hk. rewrite Hsess, He in Hk.
      rewrite Hk, Hb. rewrite Hb in Hc. by destruct b.
    + destruct (st !! ("reflection:" +:+ _)) as [[| |r|]|] eqn:Hk; try discriminate.
      intros Hc.
      destruct (Hst _ _ Hk) as [Hkey [Hr _]].
      destruct (reflection_key_inj _ _ _ Hsid Hr Hkey) as [Hs' He].
      exists (VReflection r). split.
      * apply list_elem_of_In, elem_of_filter_bool. split; [apply elem_of_records; eauto|].
        cbn. by apply String.eqb_eq.
      * cbn. rewrite He, bool_decide_eq_true_2 by done.
        by destruct (Reflection.completed r) as [| |[]| | | |].
  - unfold session_feedback. by rewrite filter_andb_bool.
Qed.

Lemma progress_rows_witness :
  ∃ p, get_progress (Sample.signedIn Sample.olivia) Sample.sid Sample.stR = ProgressOk p ∧
       studentProgress p
       = map (fun student =>
                mkStudentProgress (Student.email student) (Student.name student)
                  (match Sample.stR !! ("reflection:" +:+ Sample.sid +:+ ":"
                                         +:+ Student.email student) with
                   | Some (VReflection r) => Json.is_true (Reflection.completed r)
                   | _ => false
                   end)
                  (length (List.filter
                             (fun v => feedbackOf Sample.sid v
                                       && (fromStudentOf v =? Student.email student)%string)
                             (records Sample.stR))))
           (Session.students Sample.demoR).
Proof.
  apply (progress_rows (Sample.signedIn Sample.olivia) Sample.olivia).
  - apply run_store_ok, store_ok_empty.
  - repeat split; [by eexists|done].
  - reflexivity.
  - vm_compute. reflexivity.
  - reflexivity.
Defined.

(** ** Emails and names as they are stored *)

Lemma dotted_no_space seen s :
  dotted seen s = true → JS.all_chars (fun c => negb (JS.is_space c)) s = true.
Proof.
  revert seen. induction s as [|c s IH]; intros seen; [done|].
  cbn [dotted]. rewrite all_chars_cons.
  intros [Hc H]%andb_prop. unfold email_char in Hc. apply andb_prop in Hc as [-> _].
  apply orb_prop in H as [H|H]; [|by eapply IH].
  apply andb_prop in H as [_ H]. clear IH. cbn [andb].
  induction s as [|d s IH]; [done|].
  rewrite all_chars_cons in H |- *. apply andb_prop in H as [Hd H].
  unfold email_char in Hd. apply andb_prop in Hd as [-> _]. by apply IH.
Qed.

Lemma EMAIL_REGEX_go_no_space seen s :
  EMAIL_REGEX_go seen s = true → JS.all_chars (fun c => negb (JS.is_space c)) s = true.
Proof.
  revert seen. induction s as [|c s IH]; intros seen; [done|].
  cbn [EMAIL_REGEX_go]. rewrite all_chars_cons.
  destruct (Ascii.eqb_spec c "@") as [->|_].
  - intros [_ H]%andb_prop. by apply dotted_no_space in H as ->.
  - intros [-> H]%andb_prop. by eapply IH.
Qed.

Lemma all_chars_rev_app p a b :
  JS.all_chars p (String.rev_app a b) = JS.all_chars p a && JS.all_chars p b.
Proof.
  revert b. induction a as [|c a IH]; intros b; [done|].
  cbn [String.rev_app]. rewrite IH, !all_chars_cons.
  destruct (p c), (JS.all_chars p a), (JS.all_chars p b); done.
Qed.

Lemma rev_app_rev_app a b c :
  String.rev_app (String.rev_app a b) c = String.rev_app b (a +:+ c).
Proof.
  revert b. induction a as [|x a IH]; intros b; [done|].
  cbn [String.rev_app]. by rewrite IH, append_cons.
Qed.

Lemma append_nil_r s : s +:+ EmptyString = s.
Proof. induction s as [|c s IH]; [done|]. by rewrite append_cons, IH. Qed.

Lemma trimStart_no_space s :
  JS.all_chars (fun c => negb (JS.is_space c)) s = true → JS.trimStart s = s.
Proof.
  destruct s as [|c s]; [done|]. rewrite all_chars_cons.
  intros [Hc _]%andb_prop. cbn [JS.trimStart].
  by apply negb_true_iff in Hc as ->.
Qed.

Lemma trim_no_space s :
  JS.all_chars (fun c => negb (JS.is_space c)) s = true → JS.trim s = s.
Proof.
  intros Hs. unfold JS.trim, JS.trimEnd, String.rev.
  rewrite (trimStart_no_space s) by done.
  rewrite trimStart_no_space by (by rewrite all_chars_rev_app, Hs).
  by rewrite rev_app_rev_app, append_nil_r.
Qed.

Lemma no_space_toLowerCase s :
  JS.all_chars (fun c => negb (JS.is_space c)) (JS.toLowerCase s)
  = JS.all_chars (fun c => negb (JS.is_space c)) s.
Proof.
  induction s as [|c s IH]; [done|]. cbn [JS.toLowerCase].
  by rewrite !all_chars_cons, is_space_lower_char, IH.
Qed.

(** A valid email has no white space, so it is stored as its lower-case
    form, which is not empty. *)
Lemma validateEmail_stored e :
  validateEmail (JStr e) = true →
  JS.trim (JS.toLowerCase e) = JS.toLowerCase e ∧ JS.toLowerCase e ≠ EmptyString.
Proof.
  intros He. unfold validateEmail in He. apply andb_prop in He as [He _].
  split; [|by destruct e].
  apply trim_no_space. rewrite no_space_toLowerCase.
  by eapply EMAIL_REGEX_go_no_space.
Qed.

Lemma trim_nonempty_bound s n :
  (1 <=? String.length (JS.trim s)) && (String.length s <=? n) = true →
  (N.of_nat n ≤ 10000)%N →
  sanitizeString s = JS.trim s ∧ 1 ≤ String.length (JS.trim s) ≤ n.
Proof.
  intros [H1 H2]%andb_prop Hn. apply Nat.leb_le in H1, H2.
  pose proof (trim_length_le s). split; [|lia].
  apply slice0_short. lia.
Qed.

Lemma sanitized_roster_wf l roster :
  forallb validateStudent l = true → mapM sanitizeStudent l = Some roster →
  Forall student_wf roster ∧ length roster = length l.
Proof.
  intros Hl H%mapM_Some_1. induction H as [|j st l roster Hj _ IH]; [by split|].
  cbn [forallb] in Hl. apply andb_prop in Hl as [Hj' Hl].
  destruct (IH Hl) as [Hwf Hlen]. split; [|simpl; by rewrite Hlen].
  constructor; [|done]. clear IH Hwf Hlen.
  unfold validateStudent in Hj'. unfold sanitizeStudent in Hj.
  destruct j as [| | | | | |fields]; try discriminate.
  rewrite andb_true_l in Hj'. cbn [Json.typeof_object Json.is_null negb andb] in Hj'.
  destruct (Json.assoc "email" fields) as [| | | |email| |]; try discriminate.
  destruct (Json.assoc "name" fields) as [| | | |name| |];
    try (by rewrite andb_false_r in Hj').
  apply andb_prop in Hj' as [He Hn]. injection Hj as <-.
  destruct (validateEmail_stored _ He) as [Htrim Hne].
  destruct (trim_nonempty_bound name 100 Hn ltac:(lia)) as [Hs Hb].
  unfold student_wf. cbn [Student.email Student.name].
  rewrite Htrim, Hs, toLowerCase_idemp. done.
Qed.

Lemma directory_wf_set (st : Store) k v :
  directory_wf st →
  match v with
  | VSession s => session_wf s
  | VUser u => user_wf u
  | _ => True
  end →
  directory_wf (kv.set k v st).
Proof.
  intros Hst Hv k' v'. unfold kv.set. rewrite lookup_insert.
  case_decide; [by intros [= <-]|apply Hst].
Qed.

Lemma handle_directory_wf r st : directory_wf st → directory_wf (snd (handle r st)).
Proof.
  intros Hst.
  destruct (handle r st) as [resp st'] eqn:H. cbn [snd].
  destruct r; cbn [handle] in H;
    try (injection H as <- <-; exact Hst);
    unfold post_signup, post_session, post_roster, post_start, post_advance,
      post_complete, post_reopen, post_archive, post_reflection, post_feedback in H;
    apply respond_inv in H as [[_ ->]|H]; try exact Hst; invH;
    apply directory_wf_set; try exact Hst; try exact I;
    try match goal with
        | H : st !! _ = Some (VSession ?s) |- _ => exact (Hst _ _ H)
        end.
  - (* a user *)
    match goal with
    | He : validateEmail (JStr ?e) = true, Hn : validateName (JStr ?n) = true,
      Hr : validateRole (JStr ?r) = true |- _ =>
        destruct (validateEmail_stored _ He) as [_ Hne];
        destruct (trim_nonempty_bound n 100 Hn ltac:(lia)) as [Hs Hb];
        apply bool_decide_eq_true in Hr
    end.
    unfold user_wf. cbn [UserInfo.email UserInfo.name UserInfo.role].
    by rewrite Hs, toLowerCase_idemp.
  - (* a new session *)
    match goal with
    | Ha : authenticated _ _, Hn : validateSessionName (JStr ?n) = true |- _ =>
        destruct Ha as (_ & _ & _ & Hid);
        destruct (trim_nonempty_bound n 200 Hn ltac:(lia)) as [Hs Hb]
    end.
    unfold session_wf. cbn [Session.organizerId Session.name Session.students].
    rewrite Hs. split; [done|]. split; [done|]. split; [simpl; lia|constructor].
  - (* a roster *)
    match goal with
    | Hs : st !! _ = Some (VSession ?s), Hv : validateStudentArray (JArr ?l) = true,
      Hm : mapM sanitizeStudent ?l = Some ?roster |- _ =>
        destruct (Hst _ _ Hs) as (Hid & Hname & _ & _);
        unfold validateStudentArray in Hv;
        destruct (Nat.ltb_spec 500 (length l)) as [|Hlen]; [discriminate|];
        destruct (sanitized_roster_wf l roster Hv Hm) as [Hwf Hlen']
    end.
    unfold session_wf. cbn [Session.set_students Session.organizerId Session.name
                              Session.students].
    split; [done|]. split; [done|]. split; [lia|done].
Qed.

Lemma run_directory_wf rs st : directory_wf st → directory_wf (run rs st).
Proof.
  revert st. induction rs as [|r rs IH]; intros st Hst; [exact Hst|].
  apply IH, handle_directory_wf, Hst.
Qed.

(** X24.  Every session a run of the server stores has an organizer, a name
    of 1 to 200 characters and a roster of at most 500 entries, each with a
    non-empty email in lower case and a name of 1 to 100 characters. *)
Theorem stored_session_well_formed rs k s :
  run rs ∅ !! k = Some (VSession s) →
  Session.organizerId s ≠ EmptyString ∧
  1 ≤ String.length (Session.name s) ≤ 200 ∧
  length (Session.students s) ≤ 500 ∧
  ∀ student, student ∈ Session.students s →
    Student.email student ≠ EmptyString ∧
    JS.toLowerCase (Student.email student) = Student.email student ∧
    1 ≤ String.length (Student.name student) ≤ 100.
Proof.
  intros Hk.
  assert (directory_wf (run rs ∅)) as Hwf.
  { apply run_directory_wf. intros k' v'. by rewrite lookup_empty. }
  destruct (Hwf _ _ Hk) as (Hid & Hname & Hlen & Hall).
  do 3 (split; [done|]). intros student Hin.
  rewrite Forall_forall in Hall. by apply Hall.
Qed.

Lemma stored_session_well_formed_witness :
  Session.organizerId Latin1.demo ≠ EmptyString ∧
  1 ≤ String.length (Session.name Latin1.demo) ≤ 200 ∧
  length (Session.students Latin1.demo) ≤ 500 ∧
  ∀ student, student ∈ Session.students Latin1.demo →
    Student.email student ≠ EmptyString ∧
    JS.toLowerCase (Student.email student) = Student.email student ∧
    1 ≤ String.length (Student.name student) ≤ 100.
Proof.
  apply (stored_session_well_formed Latin1.requests ("session:" +:+ Sample.sid)).
  vm_compute. reflexivity.
Defined.

(** ** Signing up *)

Lemma user_key_inj a b : "user:" +:+ a = "user:" +:+ b → a = b.
Proof. apply (inj (String.app "user:")). Qed.

(** X25.  The duplicate check of signup reads the store under the email as
    it is typed, while records are written under its lower-case form.  On a
    store the server has written, a request with valid fields is refused as a
    duplicate when a record is stored under the email as typed; an email with
    a capital letter never finds one, so whenever the identity provider
    creates the user the record under the lower-case email is written anew. *)
Theorem signup_duplicate_check rs b email password name role created :
  Json.prop b "email" = Some (JStr email) → Json.prop b "password" = Some password →
  Json.prop b "name" = Some (JStr name) → Json.prop b "role" = Some (JStr role) →
  validateEmail (JStr email) = true → validatePassword password = true →
  validateName (JStr name) = true → validateRole (JStr role) = true →
  let st := run rs ∅ in
  (is_Some (st !! ("user:" +:+ email)) →
   handle (Signup (Some b) created) st = (Error "User already exists" 400, st)) ∧
  (JS.toLowerCase email ≠ email →
   st !! ("user:" +:+ email) = None ∧
   ∀ userId,
     handle (Signup (Some b) (inl userId)) st
     = (SignupOk (JS.toLowerCase email) (sanitizeString name) role,
        <["user:" +:+ JS.toLowerCase email
          := VUser (UserInfo.mk (JS.toLowerCase email) (sanitizeString name) role userId)]>
          st)).
Proof.
  intros He Hp Hn Hr Hve Hvp Hvn Hvr st.
  assert (store_ok st) as Hst by apply run_store_ok, store_ok_empty.
  assert (directory_wf st) as Hwf.
  { apply run_directory_wf. intros k' v'. by rewrite lookup_empty. }
  cbn [handle]. unfold post_signup. cbn [parseBody bindH].
  rewrite He, Hp, Hn, Hr. cbn [orThrow bindH].
  rewrite Hve, Hvp, Hvn, Hvr. cbn [require bindH]. unfold kv.get. split.
  - by intros [v ->].
  - intros Hcase.
    assert (st !! ("user:" +:+ email) = None) as Hnone; [|by rewrite Hnone].
    destruct (st !! ("user:" +:+ email)) as [v|] eqn:Hk; [|done].
    exfalso. destruct (Hst _ _ Hk) as [Hkey _]. specialize (Hwf _ _ Hk).
    destruct v as [u| | |]; cbn [key_of] in Hkey;
      try (by rewrite !append_cons in Hkey).
    apply user_key_inj in Hkey. destruct Hwf as (_ & Hlow & _). congruence.
Qed.

Lemma signup_duplicate_check_witness :
  let st := run [Signup (Latin1.signupBody Latin1.E_acute) (inl "u-eloise")] ∅ in
  (is_Some (st !! ("user:" +:+ Latin1.E_acute)) →
   handle (Signup (Latin1.signupBody Latin1.E_acute) (inl "u-2")) st
   = (Error "User already exists" 400, st)) ∧
  (JS.toLowerCase Latin1.E_acute ≠ Latin1.E_acute →
   st !! ("user:" +:+ Latin1.E_acute) = None ∧
   ∀ userId,
     handle (Signup (Latin1.signupBody Latin1.E_acute) (inl userId)) st
     = (SignupOk (JS.toLowerCase Latin1.E_acute)
          (sanitizeString (Latin1.nbsp +:+ "Eloise" +:+ Latin1.nbsp)) "student",
        <["user:" +:+ JS.toLowerCase Latin1.E_acute
          := VUser (UserInfo.mk (JS.toLowerCase Latin1.E_acute)
                      (sanitizeString (Latin1.nbsp +:+ "Eloise" +:+ Latin1.nbsp))
                      "student" userId)]> st)).
Proof.
  apply (signup_duplicate_check
           [Signup (Latin1.signupBody Latin1.E_acute) (inl "u-eloise")]
           (JObj [("email", JStr Latin1.E_acute); ("password", JStr "secret1");
                  ("name", JStr (Latin1.nbsp +:+ "Eloise" +:+ Latin1.nbsp));
                  ("role", JStr "student")])
           Latin1.E_acute (JStr "secret1") (Latin1.nbsp +:+ "Eloise" +:+ Latin1.nbsp)
           "student" (inl "u-2"));
    reflexivity.
Defined.

(** ** Session ids *)

Lemma is_hex_lower_char c : is_hex (JS.lower_char c) = is_hex c.
Proof. destruct c as [[] [] [] [] [] [] [] []]; reflexivity. Qed.

Lemma eqb_lower_char_dash c : Ascii.eqb (JS.lower_char c) "-" = Ascii.eqb c "-".
Proof. destruct c as [[] [] [] [] [] [] [] []]; reflexivity. Qed.

Lemma hex_run_toLowerCase n s :
  hex_run n (JS.toLowerCase s) = JS.toLowerCase <$> hex_run n s.
Proof.
  revert s. induction n as [|n IH]; intros s; [done|].
  destruct s as [|c s]; [done|]. cbn [JS.toLowerCase hex_run].
  rewrite is_hex_lower_char. destruct (is_hex c); [apply IH|done].
Qed.

Lemma dash_toLowerCase o : dash (JS.toLowerCase <$> o) = JS.toLowerCase <$> dash o.
Proof.
  destruct o as [[|c s]|]; try done. cbn [fmap option_fmap option_map JS.toLowerCase dash].
  rewrite eqb_lower_char_dash. by destruct (Ascii.eqb c "-").
Qed.

(** X26.  The check of a session id ignores the case of letters: an id and
    its lower-case form are accepted or refused together. *)
Theorem validateUUID_ignores_case s : validateUUID (JS.toLowerCase s) = validateUUID s.
Proof.
  unfold validateUUID, UUID_REGEX.
  rewrite hex_run_toLowerCase, dash_toLowerCase.
  destruct (dash (hex_run 8 s)) as [s1|]; [|done]. cbn [fmap option_fmap option_map mbind option_bind].
  rewrite hex_run_toLowerCase, dash_toLowerCase.
  destruct (dash (hex_run 4 s1)) as [s2|]; [|done]. cbn [fmap option_fmap option_map mbind option_bind].
  rewrite hex_run_toLowerCase, dash_toLowerCase.
  destruct (dash (hex_run 4 s2)) as [s3|]; [|done]. cbn [fmap option_fmap option_map mbind option_bind].
  rewrite hex_run_toLowerCase, dash_toLowerCase.
  destruct (dash (hex_run 4 s3)) as [s4|]; [|done]. cbn [fmap option_fmap option_map mbind option_bind].
  rewrite hex_run_toLowerCase.
  by destruct (hex_run 12 s4) as [[|c r]|].
Qed.

(** ** Signing in after signing up *)

(** X27.  Signing in gives back what signing up stored: right after an
    accepted signup, a signin with a valid email that is the email of the
    signup up to the case of letters, and with a non-empty password that the
    identity provider accepts, is answered with the user record written by
    the signup. *)
Theorem signin_returns_signup_record body created st email name role st'
    b typed password accessToken :
  post_signup body created st = (SignupOk email name role, st') →
  Json.prop b "email" = Some (JStr typed) → Json.prop b "password" = Some (JStr password) →
  validateEmail (JStr typed) = true →
  JS.toLowerCase typed = email → password ≠ EmptyString →
  ∃ userId,
    created = inl userId ∧
    post_signin (Some b) (Some accessToken) st'
    = inr (accessToken, Some (VUser (UserInfo.mk email name role userId))).
Proof.
  intros Hup He Hp Hvalid Hcase Hpw. unfold post_signup in Hup.
  apply respond_success in Hup; [|repeat rejects_step|simpl; tauto]. invH.
  eexists. split; [reflexivity|].
  unfold post_signin. cbn [parseBody bindH]. rewrite He, Hp. cbn [orThrow bindH].
  rewrite Hvalid. cbn [require bindH].
  destruct password as [|c p]; [done|]. cbn [String.length Nat.eqb negb require bindH].
  unfold kv.get, kv.set. by rewrite Hcase, lookup_insert_eq.
Qed.

Lemma signin_returns_signup_record_witness :
  ∃ userId,
    (inl "u-eloise" : string + string) = inl userId ∧
    post_signin (Latin1.signupBody Latin1.E_acute) (Some "token")
      (snd (post_signup (Latin1.signupBody Latin1.e_acute) (inl "u-eloise") ∅))
    = inr ("token",
           Some (VUser (UserInfo.mk Latin1.e_acute "Eloise" "student" userId))).
Proof.
  apply (signin_returns_signup_record (Latin1.signupBody Latin1.e_acute) (inl "u-eloise") ∅
           Latin1.e_acute "Eloise" "student" _
           (JObj [("email", JStr Latin1.E_acute); ("password", JStr "secret1");
                  ("name", JStr (Latin1.nbsp +:+ "Eloise" +:+ Latin1.nbsp));
                  ("role", JStr "student")])
           Latin1.E_acute "secret1" "token").
  - apply pair_eq; [vm_compute; reflexivity|reflexivity].
  - reflexivity.
  - reflexivity.
  - reflexivity.
  - reflexivity.
  - discriminate.
Defined.

(** ** Who reads what *)

(** X28.  On a store the server has written, [GET /feedback] answers with a
    list only to the organizer of the session and to the caller whose email
    is the email of the path, case ignored; and every record of the list is a
    Feedback of that session addressed to that email. *)
Theorem feedback_read_access a sid email st l :
  store_ok st → get_feedback a sid email st = inr l →
  ∃ u s,
    authenticated a u ∧ st !! ("session:" +:+ sid) = Some (VSession s) ∧
    (Session.organizerId s = AuthUser.id u ∨
     ∃ e, AuthUser.email u = Some e ∧ JS.toLowerCase e = JS.toLowerCase email) ∧
    ∀ v, v ∈ l →
         ∃ f, v = VFeedback f ∧ Feedback.sessionId f = sid ∧
              JS.toLowerCase (Feedback.toStudent f) = JS.toLowerCase email.
Proof.
  intros Hst H. unfold get_feedback in H. invH.
  match goal with
  | H : st !! _ = Some ?v |- _ =>
      destruct (Hst _ _ H) as [Hkey _]; destruct v as [|s| |]; cbn [key_of] in Hkey;
      try (by rewrite !append_cons in Hkey); rename H into Hs
  end.
  eexists _, s. split; [eassumption|]. split; [done|]. split.
  - match goal with
    | H : negb (negb ?o && negb ?own) = true |- _ =>
        destruct o eqn:Ho; [left; by apply String.eqb_eq|];
        destruct own eqn:Hown; [|discriminate]; right
    end.
    destruct (AuthUser.email _) as [e|]; [|discriminate].
    exists e. split; [done|]. by apply String.eqb_eq.
  - intros v. rewrite getByPrefix_feedback by done. unfold session_feedback.
    rewrite !elem_of_filter_bool. intros [[_ Hsess] Hto].
    destruct v as [| | |f]; try discriminate. exists f.
    cbn in Hsess, Hto. apply String.eqb_eq in Hsess, Hto. done.
Qed.

Lemma feedback_read_access_witness :
  ∃ u s,
    authenticated (Sample.signedIn Latin1.eloise) u ∧
    Latin1.stF !! ("session:" +:+ Sample.sid) = Some (VSession s) ∧
    (Session.organizerId s = AuthUser.id u ∨
     ∃ e, AuthUser.email u = Some e ∧ JS.toLowerCase e = JS.toLowerCase Latin1.E_acute) ∧
    ∀ v, v ∈ [VFeedback Latin1.toEloise] →
         ∃ f, v = VFeedback f ∧ Feedback.sessionId f = Sample.sid ∧
              JS.toLowerCase (Feedback.toStudent f) = JS.toLowerCase Latin1.E_acute.
Proof.
  apply (feedback_read_access (Sample.signedIn Latin1.eloise) Sample.sid Latin1.E_acute
           Latin1.stF).
  - apply run_store_ok, store_ok_empty.
  - vm_compute. reflexivity.
Defined.

(** X29.  On a store the server has written, [GET /reflection] answers with
    a reflection only to the organizer of the session, to the caller whose
    email is the email of the path and to the callers on the roster, and
    [GET /projects] answers with projects only to the organizer and to the
    callers on the roster. *)
Theorem reflection_read_access a sid st :
  store_ok st →
  (∀ email o, get_reflection a sid email st = inr o →
     ∃ u s, authenticated a u ∧ st !! ("session:" +:+ sid) = Some (VSession s) ∧
            (Session.organizerId s = AuthUser.id u ∨ AuthUser.email u = Some email
             ∨ isStudentOf s (AuthUser.email u) = true)) ∧
  (∀ projects, get_projects a sid st = inr projects →
     ∃ u s, authenticated a u ∧ st !! ("session:" +:+ sid) = Some (VSession s) ∧
            (Session.organizerId s = AuthUser.id u
             ∨ isStudentOf s (AuthUser.email u) = true)).
Proof.
  intros Hst. split.
  - intros email o H. unfold get_reflection in H. invH.
    match goal with
    | H : st !! _ = Some ?v |- _ =>
        destruct (Hst _ _ H) as [Hkey _]; destruct v as [|s| |]; cbn [key_of] in Hkey;
        try (by rewrite !append_cons in Hkey); rename H into Hs
    end.
    eexists _, s. split; [eassumption|]. split; [done|].
    match goal with
    | H : negb (negb ?o && negb ?own && negb ?ins) = true |- _ =>
        destruct o eqn:Ho; [left; by apply String.eqb_eq|];
        destruct own eqn:Hown; [right; left; by apply bool_decide_eq_true in Hown|];
        destruct ins eqn:Hin; [by right; right|discriminate]
    end.
  - intros projects H. unfold get_projects in H. invH.
    eexists _, _. split; [eassumption|]. split; [eassumption|].
    match goal with
    | H : negb (negb ?o && negb ?ins) = true |- _ =>
        destruct o eqn:Ho; [left; by apply String.eqb_eq|];
        destruct ins eqn:Hin; [by right|discriminate]
    end.
Qed.

Lemma reflection_read_access_witness :
  (∀ email o, get_reflection (Sample.signedIn Sample.bob) Sample.sid email Sample.stR = inr o →
     ∃ u s, authenticated (Sample.signedIn Sample.bob) u ∧
            Sample.stR !! ("session:" +:+ Sample.sid) = Some (VSession s) ∧
            (Session.organizerId s = AuthUser.id u ∨ AuthUser.email u = Some email
             ∨ isStudentOf s (AuthUser.email u) = true)) ∧
  (∀ projects, get_projects (Sample.signedIn Sample.bob) Sample.sid Sample.stR = inr projects →
     ∃ u s, authenticated (Sample.signedIn Sample.bob) u ∧
            Sample.stR !! ("session:" +:+ Sample.sid) = Some (VSession s) ∧
            (Session.organizerId s = AuthUser.id u
             ∨ isStudentOf s (AuthUser.email u) = true)).
Proof. apply reflection_read_access, run_store_ok, store_ok_empty. Defined.
